(** * BitTornado.subnetparse: address bit fields and the [IP_List] range store

    A shallow embedding of [BitTornado/subnetparse.py] (Python 2).  Python
    [str] values are byte strings and are modelled as [list ascii]; Python
    integers are [Z]; an exception is a value of [exn] carried by [result].
    The definitions follow the source function by function and keep its
    names. *)

From Stdlib Require Import ZArith Lia Bool Ascii String DecimalString.
From Stdlib Require Import List Sorted Permutation.
Import ListNotations.

Open Scope string_scope.
Open Scope list_scope.
Open Scope Z_scope.

Abbreviation str := (list ascii).

(** String literals are written as Rocq strings and read as byte lists. *)
Coercion list_ascii_of_string : string >-> list.

(** ** Exceptions *)

Inductive exn : Type :=
| ValueError   (* "bad address", bad literal for int(), chr() out of range *)
| KeyError     (* missing key of [hexbinmap] *)
| TypeError.   (* None - 96, string with an embedded NUL handed to C *)

Inductive result (A : Type) : Type :=
| Ok (a : A)
| Raise (e : exn).
Arguments Ok {A} a.
Arguments Raise {A} e.

Definition bind {A B} (r : result A) (k : A -> result B) : result B :=
  match r with
  | Ok a => k a
  | Raise e => Raise e
  end.

Notation "x <- r ;; k" := (bind r (fun x => k))
  (at level 61, r at next level, right associativity).

Definition succeeds {A} (r : result A) : bool :=
  match r with Ok _ => true | Raise _ => false end.

(** ** The Python primitives the module uses *)

Module Py.

(** [len(s)] *)
Definition len {A} (s : list A) : Z := Z.of_nat (List.length s).

(** Slice bounds: a negative index counts from the end, and both ends are
    clamped to the sequence. *)
Definition clamp (n : Z) (i : Z) : nat :=
  if i <? 0 then Z.to_nat (Z.max (i + n) 0) else Z.to_nat (Z.min i n).

(** [s[:j]] *)
Definition slice_to {A} (s : list A) (j : Z) : list A :=
  firstn (clamp (len s) j) s.

(** [s[i:]] *)
Definition slice_from {A} (s : list A) (i : Z) : list A :=
  skipn (clamp (len s) i) s.

(** [c * n] for a one-character string [c]: empty when [n <= 0]. *)
Definition times (c : ascii) (n : Z) : str := repeat c (Z.to_nat n).

(** [a == b] on strings *)
Fixpoint str_eqb (a b : str) : bool :=
  match a, b with
  | [], [] => true
  | x :: a', y :: b' => Ascii.eqb x y && str_eqb a' b'
  | _, _ => false
  end.

(** Ordering of [str]: byte-wise lexicographic, a proper prefix sorts first. *)
Fixpoint cmp (a b : str) : comparison :=
  match a, b with
  | [], [] => Eq
  | [], _ :: _ => Lt
  | _ :: _, [] => Gt
  | x :: a', y :: b' =>
      match N.compare (N_of_ascii x) (N_of_ascii y) with
      | Eq => cmp a' b'
      | c => c
      end
  end.

(** [a < b], [a > b] and [a <= b] on strings *)
Definition ltb (a b : str) : bool := match cmp a b with Lt => true | _ => false end.
Definition gtb (a b : str) : bool := ltb b a.
Definition leb (a b : str) : bool := negb (ltb b a).

(** [s.startswith(p)] *)
Fixpoint startswith (s p : str) {struct p} : bool :=
  match p, s with
  | [], _ => true
  | _ :: _, [] => false
  | y :: p', x :: s' => Ascii.eqb x y && startswith s' p'
  end.

(** [s.find(c)] for a one-character [c]: first index, or -1. *)
Fixpoint find_from (c : ascii) (s : str) (i : Z) : Z :=
  match s with
  | [] => -1
  | x :: s' => if Ascii.eqb x c then i else find_from c s' (i + 1)
  end.
Definition find (s : str) (c : ascii) : Z := find_from c s 0.

(** [s.split(sep)] for a one-character separator. *)
Fixpoint split (s : str) (sep : ascii) : list str :=
  match s with
  | [] => [[]]
  | x :: s' =>
      if Ascii.eqb x sep then [] :: split s' sep
      else match split s' sep with
           | seg :: segs => (x :: seg) :: segs
           | [] => [[x]]
           end
  end.

(** [s.split(sep, 1)]: cut at the first separator only. *)
Fixpoint split1 (s : str) (sep : ascii) : list str :=
  match s with
  | [] => [[]]
  | x :: s' =>
      if Ascii.eqb x sep then [[]; s']
      else match split1 s' sep with
           | seg :: segs => (x :: seg) :: segs
           | [] => [[x]]
           end
  end.

(** [''.join(parts)] *)
Definition join (parts : list str) : str := List.concat parts.

(** [isspace] of the C locale: space, \t, \n, \v, \f, \r. *)
Definition isspace (c : ascii) : bool :=
  let n := N_of_ascii c in
  (N.eqb n 32 || (N.leb 9 n && N.leb n 13))%N%bool.

Definition isdigit (c : ascii) : bool :=
  let n := N_of_ascii c in (N.leb 48 n && N.leb n 57)%N%bool.

Definition digit_val (c : ascii) : Z := Z.of_N (N_of_ascii c) - 48.

Fixpoint lstrip (s : str) : str :=
  match s with
  | x :: s' => if isspace x then lstrip s' else s
  | [] => []
  end.

Definition rstrip (s : str) : str := rev (lstrip (rev s)).

(** [s.strip()] *)
Definition strip (s : str) : str := rstrip (lstrip s).

(** [s.expandtabs()]: a tab advances to the next multiple of 8 columns, the
    column restarts after a newline or carriage return. *)
Fixpoint expandtabs_from (s : str) (col : nat) : str :=
  match s with
  | [] => []
  | x :: s' =>
      if Ascii.eqb x "009" then
        let incr := (8 - Nat.modulo col 8)%nat in
        repeat " "%char incr ++ expandtabs_from s' (col + incr)%nat
      else if (Ascii.eqb x "010" || Ascii.eqb x "013")%bool then
        x :: expandtabs_from s' 0%nat
      else x :: expandtabs_from s' (S col)
  end.
Definition expandtabs (s : str) : str := expandtabs_from s 0%nat.

(** Value of a run of decimal digits, most significant first. *)
Definition dec_val (ds : str) : Z :=
  fold_left (fun acc c => 10 * acc + digit_val c) ds 0.

(** [int(s)] on a [str]: surrounding white space is dropped, one sign is
    allowed, and at least one decimal digit must follow and nothing else;
    any other text is a [ValueError]. *)
Definition int (s : str) : result Z :=
  let t := strip s in
  let neg := startswith t "-" in
  let ds := if (neg || startswith t "+")%bool then List.tl t else t in
  match ds with
  | [] => Raise ValueError
  | _ :: _ =>
      if forallb isdigit ds
      then Ok (if neg then - dec_val ds else dec_val ds)
      else Raise ValueError
  end.

(** [int(s, 2)] where [s] is a non-empty run of binary digits, the only
    kind of argument [ipv6_to_ipv4] passes. *)
Definition isbit (c : ascii) : bool := (Ascii.eqb c "0" || Ascii.eqb c "1")%bool.
Definition int2 (s : str) : result Z :=
  match s with
  | [] => Raise ValueError
  | _ :: _ =>
      if forallb isbit s
      then Ok (fold_left (fun acc c => 2 * acc + digit_val c) s 0)
      else Raise ValueError
  end.

(** [str(n)] for an integer: decimal, with a minus sign when negative. *)
Definition str_of_int (n : Z) : str :=
  list_ascii_of_string (NilZero.string_of_int (Z.to_int n)).

(** [chr(n)]: defined on 0..255 only. *)
Definition chr (n : Z) : result ascii :=
  if ((0 <=? n) && (n <? 256))%bool
  then Ok (ascii_of_N (Z.to_N n)) else Raise ValueError.

(** [bisect.bisect] (that is, [bisect_right]): binary search for the
    insertion point of [x] to the right of any equal entries.
<<
    while lo < hi:
        mid = (lo+hi)//2
        if x < a[mid]: hi = mid
        else: lo = mid+1
    return lo
>>  The loop runs at most [hi - lo] times, which is the fuel it is given. *)
Fixpoint bisect_loop (fuel : nat) (a : list str) (x : str) (lo hi : nat) : nat :=
  match fuel with
  | O => lo
  | S fuel' =>
      if (lo <? hi)%nat then
        let mid := Nat.div (lo + hi) 2 in
        if ltb x (nth mid a []) then bisect_loop fuel' a x lo mid
        else bisect_loop fuel' a x (S mid) hi
      else lo
  end.

Definition bisect (a : list str) (x : str) : nat :=
  bisect_loop (List.length a) a x 0%nat (List.length a).

(** [bisect.insort(a, x)]: [a.insert(bisect_right(a, x), x)] *)
Definition insort (a : list str) (x : str) : list str :=
  let lo := bisect a x in firstn lo a ++ x :: skipn lo a.

(** [a.sort()]: the ascending rearrangement of [a].  Entries that compare
    equal are equal strings, so the result does not depend on the sorting
    method; it is computed here by repeated insertion. *)
Definition sort (a : list str) : list str := fold_left insort a [].

End Py.

(** ** [socket.inet_aton]

    [socket.inet_aton(ip)] hands the text to the C library's [inet_aton] and
    returns the four address bytes in network order, or raises
    [socket.error] when the C routine rejects the text.  A [str] with an
    embedded NUL cannot be passed to C at all and is a [TypeError].  The C
    routine is the one of the GNU C library: up to four numbers separated
    by dots, each read by [strtoul] with base 0 (decimal, octal with a
    leading 0, hexadecimal with a leading 0x); all but the last number fill
    one byte each and the last fills the remaining bytes; the text may go on
    after the address only with white space. *)

Module Socket.

Definition isxdigit (c : ascii) : bool :=
  let n := N_of_ascii c in
  (Py.isdigit c || (N.leb 97 n && N.leb n 102) || (N.leb 65 n && N.leb n 70))%N%bool.

Definition xdigit_val (c : ascii) : Z :=
  let n := Z.of_N (N_of_ascii c) in
  if Py.isdigit c then n - 48 else if 97 <=? n then n - 87 else n - 55.

Definition isodigit (c : ascii) : bool :=
  let n := N_of_ascii c in (N.leb 48 n && N.leb n 55)%N%bool.

(** The longest run of digits of one base, with its value. *)
Fixpoint digits (ok : ascii -> bool) (val : ascii -> Z) (base acc : Z) (s : str)
  : Z * str :=
  match s with
  | c :: s' => if ok c then digits ok val base (base * acc + val c) s' else (acc, s)
  | [] => (acc, [])
  end.

(** [strtoul(cp, &endp, 0)] on a text that starts with a digit: the value
    (unbounded here; the caller rejects what does not fit) and the rest. *)
Definition strtoul (cp : str) : Z * str :=
  match cp with
  | [] => (0, [])
  | c :: rest =>
      if Ascii.eqb c "0" then
        match rest with
        | x :: h :: _ =>
            if ((Ascii.eqb x "x" || Ascii.eqb x "X") && isxdigit h)%bool
            then digits isxdigit xdigit_val 16 0 (List.tl rest)
            else digits isodigit Py.digit_val 8 0 rest
        | _ => digits isodigit Py.digit_val 8 0 rest
        end
      else digits Py.isdigit Py.digit_val 10 0 cp
  end.

(** Big-endian bytes of [val] on [n] bytes. *)
Fixpoint be_bytes (n : nat) (val : Z) : list Z :=
  match n with
  | O => []
  | S n' => (val / 256 ^ Z.of_nat n') mod 256 :: be_bytes n' val
  end.

(** The number loop of [inet_aton]; [room] counts the bytes that may still
    be filled by a number followed by a dot (three at the start). *)
Fixpoint aton_loop (room : nat) (parts : list Z) (cp : str) : option (list Z) :=
  match cp with
  | [] => None
  | c :: _ =>
      if negb (Py.isdigit c) then None else
      let '(val, rest) := strtoul cp in
      if val >? 4294967295 then None else
      let last :=                    (* the number that ends the address *)
        if val >? 256 ^ Z.of_nat (S room) - 1 then None
        else Some (parts ++ be_bytes (S room) val) in
      match rest with
      | [] => last
      | c' :: rest' =>
          if Ascii.eqb c' "." then
            match room with
            | O => None
            | S room' =>
                if val >? 255 then None else aton_loop room' (parts ++ [val]) rest'
            end
          else if Py.isspace c' then last
          else None
      end
  end.

Definition c_inet_aton (cp : str) : option (list Z) := aton_loop 3 [] cp.

Inductive error_or (A : Type) : Type :=
| Packed (a : A)
| error           (* socket.error *)
| NulTypeError.   (* TypeError: must be string without null bytes *)
Arguments Packed {A} a.
Arguments error {A}.
Arguments NulTypeError {A}.

Definition inet_aton (ip : str) : error_or str :=
  if existsb (Ascii.eqb zero) ip then NulTypeError
  else match c_inet_aton ip with
       | Some bytes => Packed (map (fun b => ascii_of_N (Z.to_N b)) bytes)
       | None => error
       end.

End Socket.

(** ** The address codec *)

(** [xrange(n)] and [xrange(bits-1, -1, -1)] *)
Definition xrange (n : nat) : list Z := map Z.of_nat (seq 0 n).
Definition xrange_down (bits : nat) : list Z := rev (xrange bits).

(** [ord(c)] *)
Definition ord (c : ascii) : Z := Z.of_N (N_of_ascii c).

Definition _int_to_bitstring (x : Z) (bits : nat) : str :=
  Py.join (map (fun i => Py.str_of_int (Z.land (Z.shiftr x i) 1)) (xrange_down bits)).

(** ['%x' % x] for [0 <= x < 16] *)
Definition hexchar (x : Z) : ascii :=
  ascii_of_N (Z.to_N (if x <? 10 then 48 + x else 87 + x)).

(** The dictionary [hexbinmap]: the sixteen lower-case hexadecimal digits,
    then the extra key ['x'] that the padding of short hextets relies on. *)
Definition hexbinmap : list (ascii * str) :=
  map (fun x => (hexchar x, _int_to_bitstring x 4)) (xrange 16)
  ++ [("x"%char, list_ascii_of_string "0000")].

(** [hexbinmap[i]] *)
Fixpoint getitem (d : list (ascii * str)) (i : ascii) : result str :=
  match d with
  | [] => Raise KeyError
  | (k, v) :: d' => if Ascii.eqb k i then Ok v else getitem d' i
  end.

Definition charbinmap : list str := map (fun n => _int_to_bitstring n 8) (xrange 256).

(** Run a fallible function over a list, stopping at the first exception. *)
Fixpoint mapM {A B} (f : A -> result B) (l : list A) : result (list B) :=
  match l with
  | [] => Ok []
  | a :: l' => b <- f a ;; bs <- mapM f l' ;; Ok (b :: bs)
  end.

(** A [for] loop whose body may raise. *)
Fixpoint foldM {A S} (body : S -> A -> result S) (l : list A) (s : S) : result S :=
  match l with
  | [] => Ok s
  | a :: l' => s' <- body s a ;; foldM body l' s'
  end.

Definition to_bitfield_ipv4 (ip : str) : result str :=
  match Socket.inet_aton ip with
  | Socket.Packed packed =>
      Ok (Py.join (map (fun i => nth (Z.to_nat (ord i)) charbinmap []) packed))
  | Socket.error => Raise ValueError
  | Socket.NulTypeError => Raise TypeError
  end.

(** The body of the [for n in ip.split(':')] loop of [to_bitfield_ipv6];
    the loop state is [(b, doublecolon)]. *)
Definition ipv6_segment (st : str * bool) (n : str) : result (str * bool) :=
  let '(b, doublecolon) := st in
  if Py.str_eqb n "" then                       (* double-colon *)
    if doublecolon then Raise ValueError
    else Ok (b ++ ":", true)
  else if Py.find n "." >=? 0 then              (* IPv4 *)
    n' <- to_bitfield_ipv4 n ;;
    Ok (b ++ n' ++ Py.times "0" (32 - Py.len n'), doublecolon)
  else
    let n' := Py.times "x" (4 - Py.len n) ++ n in
    bits <- mapM (getitem hexbinmap) n' ;;
    Ok (b ++ Py.join bits, doublecolon).

(** The boundary handling at the head of [to_bitfield_ipv6]. *)
Definition ipv6_boundary (ip : str) : result str :=
  if Py.str_eqb ip "" then Raise ValueError
  else if Py.str_eqb ip "::" then Ok (list_ascii_of_string "")
  else if Py.str_eqb (Py.slice_to ip 2) "::" then Ok (Py.slice_from ip 1)
  else if Py.str_eqb (Py.slice_to ip 1) ":" then Raise ValueError
  else if Py.str_eqb (Py.slice_from ip (-2)) "::" then Ok (Py.slice_to ip (-1))
  else if Py.str_eqb (Py.slice_from ip (-1)) ":" then Raise ValueError
  else Ok ip.

Definition to_bitfield_ipv6 (ip : str) : result str :=
  ip <- ipv6_boundary ip ;;
  st <- foldM ipv6_segment (Py.split ip ":") (list_ascii_of_string "", false) ;;
  let '(b, doublecolon) := st in
  let b :=
    if doublecolon then
      let pos := Py.find b ":" in
      Py.slice_to b pos ++ Py.times "0" (129 - Py.len b) ++ Py.slice_from b (pos + 1)
    else b in
  if negb (Py.len b =? 128) then Raise ValueError   (* always check size *)
  else Ok b.

Definition ipv4addrmask : str :=
  Eval vm_compute in
    match to_bitfield_ipv6 "::ffff:0:0" with
    | Ok b => Py.slice_to b 96
    | Raise _ => []
    end.


Arguments ipv4addrmask : simpl never.

(** ** The range store *)

Module IP_List.

Record t : Type := mk { ipv4list : list str; ipv6list : list str }.

(** [b[:depth]], where [depth] is an integer or [None] *)
Definition upto (b : str) (depth : option Z) : str :=
  match depth with
  | Some d => Py.slice_to b d
  | None => b
  end.

(** [depth-96]: [None] has no subtraction *)
Definition minus96 (depth : option Z) : result Z :=
  match depth with
  | Some d => Ok (d - 96)
  | None => Raise TypeError
  end.

(** The default of the [depth] argument of [_append] and [append] *)
Definition default_depth : option Z := Some 256.

Definition _append (self : t) (ip : str) (depth : option Z) : result t :=
  if Py.find ip ":" <? 0 then                     (* IPv4 *)
    b <- to_bitfield_ipv4 ip ;;
    Ok (mk (ipv4list self ++ [upto b depth]) (ipv6list self))
  else
    b <- to_bitfield_ipv6 ip ;;
    if Py.startswith b ipv4addrmask then
      d <- minus96 depth ;;
      Ok (mk (ipv4list self ++ [Py.slice_to (Py.slice_from b 96) d]) (ipv6list self))
    else
      Ok (mk (ipv4list self) (ipv6list self ++ [upto b depth])).

Definition append (self : t) (ip : str) (depth : option Z) : result t :=
  if Py.find ip ":" <? 0 then                     (* IPv4 *)
    b <- to_bitfield_ipv4 ip ;;
    Ok (mk (Py.insort (ipv4list self) (upto b depth)) (ipv6list self))
  else
    b <- to_bitfield_ipv6 ip ;;
    if Py.startswith b ipv4addrmask then
      d <- minus96 depth ;;
      Ok (mk (Py.insort (ipv4list self) (Py.slice_to (Py.slice_from b 96) d))
             (ipv6list self))
    else
      Ok (mk (ipv4list self) (Py.insort (ipv6list self) (upto b depth))).

Definition sorted (self : t) : t :=
  mk (Py.sort (ipv4list self)) (Py.sort (ipv6list self)).

(** [IP_List(entrylist)]; an absent or empty [entrylist] leaves both lists
    empty, which [sorted] does not change. *)
Definition __init__ (entrylist : list (str * option Z)) : result t :=
  self <- foldM (fun self e => _append self (fst e) (snd e)) entrylist (mk [] []) ;;
  Ok (sorted self).

Definition __nonzero__ (self : t) : bool :=
  match ipv4list self, ipv6list self with
  | [], [] => false
  | _, _ => true
  end.

(** The [for map in ...] loop of [includes] *)
Fixpoint scan (b : str) (l : list str) : bool :=
  match l with
  | [] => false
  | map :: l' =>
      if Py.startswith b map then true
      else if Py.gtb map b then false
      else scan b l'
  end.

(** The encoding step of [includes], with the mapped IPv6 form cut down to
    its last 32 bits. *)
Definition query_bits (ip : str) : result str :=
  if Py.find ip ":" <? 0 then                     (* IPv4 *)
    to_bitfield_ipv4 ip
  else
    b <- to_bitfield_ipv6 ip ;;
    Ok (if Py.startswith b ipv4addrmask then Py.slice_from b 96 else b).

(** The list [includes] searches for the bits [b] *)
Definition family (self : t) (b : str) : list str :=
  if Py.len b >? 32 then ipv6list self else ipv4list self.

Definition includes (self : t) (ip : str) : result bool :=
  if negb (__nonzero__ self) then Ok false
  else
    b <- query_bits ip ;;
    let l := family self b in
    Ok (scan b (Py.slice_from l (Z.of_nat (Py.bisect l b) - 1))).

(** [f.readline()] until it returns the empty string: the lines of the
    file, each with its newline, the last one possibly without. *)
Fixpoint readlines (content : str) : list str :=
  match content with
  | [] => []
  | c :: rest =>
      if Ascii.eqb c "010" then [c] :: readlines rest
      else match readlines rest with
           | l :: ls => (c :: l) :: ls
           | [] => [[c]]
           end
  end.

(** [a, b = parts]: only a list of exactly two unpacks *)
Definition unpack2 (parts : list str) : option (str * str) :=
  match parts with
  | [a; b] => Some (a, b)
  | _ => None
  end.

Definition warning : str := "*** WARNING *** could not parse IP range: ".

(** One turn of the [while] loop of [read_fieldlist]; the state is the
    store and the lines printed so far. *)
Definition read_line (st : t * list str) (line : str) : t * list str :=
  let '(self, out) := st in
  let line := Py.expandtabs (Py.strip line) in
  if (Py.str_eqb line "" || Py.str_eqb (Py.slice_to line 1) "#")%bool then st
  else
    let line :=
      match unpack2 (Py.split1 line " ") with
      | Some (line', garbage) => line'
      | None => line
      end in
    let line :=
      match unpack2 (Py.split1 line "#") with
      | Some (line', garbage) => line'
      | None => line
      end in
    let '(ip, depth) :=
      match unpack2 (Py.split line "/") with
      | Some (ip, depth) => (ip, Some depth)
      | None => (line, None)
      end in
    let attempt :=
      depth <- match depth with
               | Some d => n <- Py.int d ;; Ok (Some n)
               | None => Ok None
               end ;;
      _append self ip depth in
    match attempt with
    | Ok self' => (self', out)
    | Raise _ => (self, out ++ [warning ++ line])
    end.

(** [read_fieldlist(file)] on a file with the given content: the store
    after the call, and what was printed. *)
Definition read_fieldlist (self : t) (content : str) : t * list str :=
  let '(self, out) := fold_left read_line (readlines content) (self, []) in
  (sorted self, out).

(** [append], with the first exception ending a sequence of calls *)
Definition appends (self : t) (calls : list (str * option Z)) : result t :=
  foldM (fun self e => append self (fst e) (snd e)) calls self.

Definition set_intranet_addresses (self : t) : result t :=
  appends self
    [ (list_ascii_of_string "127.0.0.1", Some 8);
      (list_ascii_of_string "10.0.0.0", Some 8);
      (list_ascii_of_string "172.16.0.0", Some 12);
      (list_ascii_of_string "192.168.0.0", Some 16);
      (list_ascii_of_string "169.254.0.0", Some 16);
      (list_ascii_of_string "::1", default_depth);
      (list_ascii_of_string "fe80::", Some 16);
      (list_ascii_of_string "fec0::", Some 16) ].

Definition set_ipv4_addresses (self : t) : result t :=
  append self "::ffff:0:0" (Some 96).

End IP_List.

(** ** Conversions and validity checks *)

(** The [for i in range(4)] loop of [ipv6_to_ipv4]; the state is [(x, ip)]. *)
Definition ipv6_to_ipv4_step (st : str * str) (i : Z) : result (str * str) :=
  let '(x, ip) := st in
  n <- Py.int2 (Py.slice_to ip 8) ;;
  let x := x ++ Py.str_of_int n in
  let x := if i <? 3 then x ++ "." else x in
  Ok (x, Py.slice_from ip 8).

(** Lines 166-173 of the source: the dotted text of 32 bits *)
Definition dotted_of_bits (ip : str) : result str :=
  st <- foldM ipv6_to_ipv4_step (xrange 4) (list_ascii_of_string "", ip) ;;
  Ok (fst st).

Definition ipv6_to_ipv4 (ip : str) : result str :=
  ip <- to_bitfield_ipv6 ip ;;
  if negb (Py.startswith ip ipv4addrmask) then Raise ValueError
  else dotted_of_bits (Py.slice_from ip (-32)).

Definition is_ipv4 (ip : str) : bool := Py.find ip ":" <? 0.

Definition _valid_ipv4 (ip : str) : result unit :=
  let ip := Py.split ip "." in
  if negb (Py.len ip =? 4) then Raise ValueError
  else
    _ <- mapM (fun i => n <- Py.int i ;; Py.chr n) ip ;;
    Ok tt.

Definition to_ipv4 (ip : str) : result str :=
  if is_ipv4 ip then
    _ <- _valid_ipv4 ip ;; Ok ip
  else ipv6_to_ipv4 ip.

Definition is_valid_ip (ip : str) : bool :=
  match ip with
  | [] => false
  | _ :: _ =>
      if is_ipv4 ip then succeeds (_valid_ipv4 ip)
      else succeeds (to_bitfield_ipv6 ip)
  end.

(** * Vocabulary of the properties *)

Definition le_str (a b : str) : Prop := Py.leb a b = true.

(** Ascending order, duplicates allowed *)
Definition ascending (l : list str) : Prop := StronglySorted le_str l.

(** No stored prefix is a proper prefix of another one. *)
Definition prefix_free (l : list str) : Prop :=
  forall p q, In p l -> In q l -> Py.startswith q p = true -> p = q.

(** The naive check: does any stored prefix start the query bits? *)
Definition linear_scan (l : list str) (b : str) : bool :=
  existsb (fun p => Py.startswith b p) l.

(** *** The naive check, from the words of the specification

    The specification compares [includes] with a naive linear check:
    "does any configured prefix equal the query's first N bits".  The
    definitions below follow that wording and not the code: the query is
    classified and encoded, an IPv6 address that begins with the
    IPv4-mapped marker counts as the IPv4 address of its last 32 bits, and
    every configured prefix of the family of the query is compared with as
    many leading bits of the query as the prefix has. *)

Inductive address_family : Type := IPv4 | IPv6.

(** Does [p] equal the first [N] bits of [b], [N] being the length of [p]? *)
Definition first_bits_equal (p b : str) : bool :=
  Py.str_eqb p (firstn (length p) b).

(** The family and the bits of a query text; an IPv6 text is one with a
    colon. *)
Definition classify (x : str) : result (address_family * str) :=
  if existsb (Ascii.eqb ":") x then
    b <- to_bitfield_ipv6 x ;;
    if first_bits_equal ipv4addrmask b then Ok (IPv4, skipn 96 b)
    else Ok (IPv6, b)
  else
    b <- to_bitfield_ipv4 x ;; Ok (IPv4, b).

(** The configured prefixes of a family *)
Definition configured (self : IP_List.t) (f : address_family) : list str :=
  match f with
  | IPv4 => IP_List.ipv4list self
  | IPv6 => IP_List.ipv6list self
  end.

Definition naive_contains (self : IP_List.t) (x : str) : result bool :=
  fb <- classify x ;;
  Ok (existsb (fun p => first_bits_equal p (snd fb)) (configured self (fst fb))).

(** The stores a program can build: by the constructor, by [append], and by
    [read_fieldlist]. *)
Inductive built : IP_List.t -> Prop :=
| built_init entrylist self :
    IP_List.__init__ entrylist = Ok self -> built self
| built_append self ip depth self' :
    built self -> IP_List.append self ip depth = Ok self' -> built self'
| built_read self content :
    built self -> built (fst (IP_List.read_fieldlist self content)).

(** A decidable form of [prefix_free], for concrete stores *)
Definition prefix_freeb (l : list str) : bool :=
  forallb (fun p => forallb (fun q => implb (Py.startswith q p) (Py.str_eqb p q)) l) l.


Definition newline : str := ["010"%char].

(** What one line of a bulk load may do to the store and the output *)
Inductive read_line_outcome (self : IP_List.t) (out : list str)
  : IP_List.t * list str -> Prop :=
| line_ignored : read_line_outcome self out (self, out)
| line_skipped text :
    read_line_outcome self out (self, out ++ [IP_List.warning ++ text])
| line_loaded ip depth self' :
    IP_List._append self ip depth = Ok self' ->
    read_line_outcome self out (self', out).

(** A decimal number as it is normally written: digits only, at least one,
    and no leading zero except for the number 0 itself. *)
Definition decimal (ds : str) : bool :=
  match ds with
  | [] => false
  | d :: ds' =>
      forallb Py.isdigit ds && (negb (Ascii.eqb d "0") || Py.str_eqb ds' "")
  end.

(** [d1.d2.d3.d4] *)
Definition dotted (d1 d2 d3 d4 : str) : str :=
  d1 ++ "." ++ d2 ++ "." ++ d3 ++ "." ++ d4.

(** The 8-bit binary form of an octet *)
Definition bits8 (v : Z) : str := _int_to_bitstring v 8.

Definition octet (v : Z) : bool := (0 <=? v) && (v <=? 255).

(** The first character after a number: the end, or no digit and no [x]. *)
Definition ends_number (rest : str) : Prop :=
  match rest with
  | [] => True
  | c :: _ => Py.isdigit c = false /\ Ascii.eqb c "x" = false /\ Ascii.eqb c "X" = false
  end.

Definition result_is (r : result Z) (v : Z) : bool :=
  match r with Ok n => n =? v | Raise _ => false end.

(** What holds of each of the 256 octets, checked one by one *)
Definition octet_check (v : Z) : bool :=
  Py.str_eqb (nth (Z.to_nat (ord (ascii_of_N (Z.to_N v)))) charbinmap []) (bits8 v)
  && decimal (Py.str_of_int v)
  && (Py.dec_val (Py.str_of_int v) =? v)
  && result_is (Py.int2 (bits8 v)) v.


(** A character known by a test differs from a given character that fails
    the test. *)
Ltac char_differs :=
  match goal with
  | H : ?f ?c = true |- Ascii.eqb ?c ?k = false =>
      destruct (Ascii.eqb_spec c k) as [->|]; [vm_compute in H; discriminate H | reflexivity]
  | H : ?f ?c = false |- Ascii.eqb ?c ?k = false =>
      destruct (Ascii.eqb_spec c k) as [->|]; [vm_compute in H; discriminate H | reflexivity]
  end.


(** Does the character [c] occur in [s]? *)
Definition has (c : ascii) (s : str) : bool :=
  existsb (fun x => Ascii.eqb x c) s.


(** Does [int] read the segment as a number that [chr] accepts? *)
Definition int_octet (seg : str) : bool :=
  match Py.int seg with
  | Ok n => octet n
  | Raise _ => false
  end.

(** A lower-case hexadecimal digit, and its value *)
Definition ishex (c : ascii) : bool :=
  let n := N_of_ascii c in
  (Py.isdigit c || (N.leb 97 n && N.leb n 102))%N%bool.

Definition hex_val (c : ascii) : Z :=
  if Py.isdigit c then Py.digit_val c else ord c - 87.

(** A hextet as it is written: one to four lower-case hexadecimal digits *)
Definition hextet (h : str) : bool :=
  (Nat.leb 1 (length h) && Nat.leb (length h) 4 && forallb ishex h)%bool.

Definition hextet_val (h : str) : Z :=
  fold_left (fun acc c => 16 * acc + hex_val c) h 0.

(** The 16-bit binary form of the value of a hextet *)
Definition bits16 (v : Z) : str := _int_to_bitstring v 16.

(** [':'.join(hs)] *)
Fixpoint colon_join (hs : list str) : str :=
  match hs with
  | [] => []
  | [h] => h
  | h :: hs' => h ++ ":" ++ colon_join hs'
  end.

(** The last 32 bits of an IPv6 address written as a dotted quad: four
    decimal texts *)
Record quad : Type := Quad { q1 : str; q2 : str; q3 : str; q4 : str }.

Definition quad_text (q : quad) : str := dotted (q1 q) (q2 q) (q3 q) (q4 q).

(** Four octets, each in decimal as it is normally written *)
Definition quad_ok (q : quad) : bool :=
  forallb (fun d => decimal d && octet (Py.dec_val d)) [q1 q; q2 q; q3 q; q4 q].

(** The two 16-bit values a dotted quad stands for *)
Definition quad_vals (q : quad) : list Z :=
  [256 * Py.dec_val (q1 q) + Py.dec_val (q2 q);
   256 * Py.dec_val (q3 q) + Py.dec_val (q4 q)].

(** The optional dotted tail of a text: its segment, its check, its values
    and the number of hextets it stands for *)
Definition tail_segs (t : option quad) : list str :=
  match t with Some q => [quad_text q] | None => [] end.

Definition tail_ok (t : option quad) : bool :=
  match t with Some q => quad_ok q | None => true end.

Definition tail_vals (t : option quad) : list Z :=
  match t with Some q => quad_vals q | None => [] end.

Definition tail_width (t : option quad) : nat :=
  match t with Some _ => 2 | None => 0 end.

(** The ways of writing an IPv6 address that differ in the use of [::],
    in the leading zeros of the hextets, and in writing the last 32 bits
    as hextets or as a dotted quad: all the hextets, or the hextets before
    and after one [::], each with or without a dotted tail. *)
Inductive ipv6_text : Type :=
| Full (hs : list str) (tail : option quad)
| Elided (pre post : list str) (tail : option quad).

Definition text_of (r : ipv6_text) : str :=
  match r with
  | Full hs t => colon_join (hs ++ tail_segs t)
  | Elided pre post t =>
      colon_join pre ++ "::" ++ colon_join (post ++ tail_segs t)
  end.

(** Eight hextets in the full form, a dotted tail counting for two; in the
    elided form at most eight are written (the source lets [::] stand for
    no hextet at all). *)
Definition well_formed (r : ipv6_text) : bool :=
  match r with
  | Full hs t =>
      Nat.eqb (length hs + tail_width t) 8 && forallb hextet hs && tail_ok t
  | Elided pre post t =>
      Nat.leb (length pre + length post + tail_width t) 8
      && forallb hextet pre && forallb hextet post && tail_ok t
  end.

(** The address a text stands for: its eight 16-bit values *)
Definition address_of (r : ipv6_text) : list Z :=
  match r with
  | Full hs t => map hextet_val hs ++ tail_vals t
  | Elided pre post t =>
      map hextet_val pre
      ++ repeat 0 (8 - length pre - length post - tail_width t)
      ++ map hextet_val post ++ tail_vals t
  end.

(** A colon *)
Definition iscolon (c : ascii) : bool := Ascii.eqb c ":".








(** A segment between colons that is neither empty nor dotted *)
(** A segment between colons: not empty, no colon *)
Definition segment (h : str) : bool :=
  (negb (Py.str_eqb h "") && negb (has ":" h))%bool.

Definition plain (h : str) : bool :=
  (negb (Py.str_eqb h "") && negb (has ":" h) && negb (has "." h))%bool.


(** ** Vocabulary of the further properties *)

(** The value of a run of binary digits, most significant first *)
Definition bin_val (s : str) : Z :=
  fold_left (fun acc c => 2 * acc + Py.digit_val c) s 0.

(** What [_append] and [append] compute before they touch the store: the
    sequence the entry goes to ([true] for IPv4) and the prefix to store. *)
Definition stored_prefix (ip : str) (depth : option Z) : result (bool * str) :=
  if Py.find ip ":" <? 0 then
    b <- to_bitfield_ipv4 ip ;; Ok (true, IP_List.upto b depth)
  else
    b <- to_bitfield_ipv6 ip ;;
    if Py.startswith b ipv4addrmask then
      d <- IP_List.minus96 depth ;;
      Ok (true, Py.slice_to (Py.slice_from b 96) d)
    else Ok (false, IP_List.upto b depth).

(** [list.append] on the sequence of the entry *)
Definition push (self : IP_List.t) (fp : bool * str) : IP_List.t :=
  if fst fp
  then IP_List.mk (IP_List.ipv4list self ++ [snd fp]) (IP_List.ipv6list self)
  else IP_List.mk (IP_List.ipv4list self) (IP_List.ipv6list self ++ [snd fp]).

(** [insort] on the sequence of the entry *)
Definition put (self : IP_List.t) (fp : bool * str) : IP_List.t :=
  if fst fp
  then IP_List.mk (Py.insort (IP_List.ipv4list self) (snd fp)) (IP_List.ipv6list self)
  else IP_List.mk (IP_List.ipv4list self) (Py.insort (IP_List.ipv6list self) (snd fp)).

(** The number of stored prefixes *)
Definition size (self : IP_List.t) : nat :=
  (length (IP_List.ipv4list self) + length (IP_List.ipv6list self))%nat.

(** A bit or the colon mark of the loop of [to_bitfield_ipv6] *)
Definition bit_or_colon (c : ascii) : bool := (Py.isbit c || iscolon c)%bool.

(** The colon marks of a loop state *)
Definition colons (b : str) : nat := length (filter iscolon b).

(** [p] is the greatest entry of [l] not above [b] *)
Definition greatest_below (l : list str) (b p : str) : Prop :=
  In p l /\ le_str p b /\ forall q, In q l -> le_str q b -> le_str q p.

(** A character of the first field of a line: no white space, no [#] *)
Definition field_char (c : ascii) : bool :=
  (negb (Py.isspace c) && negb (Ascii.eqb c "#"))%bool.

(** What may follow the first field of a line: white space only, or a
    text that begins with a blank, a tab or [#] *)
Definition trailer (rest : str) : bool :=
  (forallb Py.isspace rest
   || match rest with
      | c :: _ => Ascii.eqb c " " || Ascii.eqb c "009" || Ascii.eqb c "#"
      | [] => false
      end)%bool.

(** [line, garbage = line.split(sep, 1)] under [try]: the text before the
    first [sep], or the whole line *)
Definition cut_at (line : str) (sep : ascii) : str :=
  match IP_List.unpack2 (Py.split1 line sep) with
  | Some (line', garbage) => line'
  | None => line
  end.
(** * Properties *)

Lemma Ok_inj {A} (a b : A) : Ok a = Ok b -> a = b.
Proof. congruence. Qed.

(** ** The ordering of strings *)

Section Ordering.

Lemma str_eqb_eq (a b : str) : Py.str_eqb a b = true <-> a = b.
Proof.
  revert b; induction a as [|x a IH]; intros [|y b]; simpl; split;
    try congruence; try reflexivity.
  - intros H. apply andb_true_iff in H as [Hx Hab].
    apply Ascii.eqb_eq in Hx. apply IH in Hab. congruence.
  - intros H; injection H as -> ->.
    rewrite Ascii.eqb_refl. simpl. now apply IH.
Qed.

Lemma N_of_ascii_inj (x y : ascii) : N_of_ascii x = N_of_ascii y -> x = y.
Proof.
  intros H. rewrite <- (ascii_N_embedding x), <- (ascii_N_embedding y).
  now rewrite H.
Qed.

Lemma cmp_refl (a : str) : Py.cmp a a = Eq.
Proof.
  induction a as [|x a IH]; simpl; [reflexivity|].
  now rewrite N.compare_refl.
Qed.

Lemma cmp_eq (a b : str) : Py.cmp a b = Eq -> a = b.
Proof.
  revert b; induction a as [|x a IH]; intros [|y b]; simpl; try congruence.
  destruct (N.compare (N_of_ascii x) (N_of_ascii y)) eqn:E; try discriminate.
  intros H. apply N.compare_eq in E. apply N_of_ascii_inj in E.
  f_equal; [assumption | now apply IH].
Qed.

Lemma cmp_antisym (a b : str) : Py.cmp b a = CompOpp (Py.cmp a b).
Proof.
  revert b; induction a as [|x a IH]; intros [|y b]; simpl; try reflexivity.
  rewrite (N.compare_antisym (N_of_ascii x) (N_of_ascii y)).
  destruct (N.compare (N_of_ascii x) (N_of_ascii y)); simpl; auto.
Qed.

Lemma cmp_lt_trans (a b c : str) :
  Py.cmp a b = Lt -> Py.cmp b c = Lt -> Py.cmp a c = Lt.
Proof.
  revert b c; induction a as [|x a IH]; intros [|y b] [|z c]; simpl;
    try congruence.
  destruct (N.compare (N_of_ascii x) (N_of_ascii y)) eqn:Exy; try discriminate;
  destruct (N.compare (N_of_ascii y) (N_of_ascii z)) eqn:Eyz; try discriminate;
  intros Hab Hbc.
  - apply N.compare_eq in Exy, Eyz.
    rewrite Exy, Eyz, N.compare_refl. eauto.
  - apply N.compare_eq in Exy. now rewrite Exy, Eyz.
  - apply N.compare_eq in Eyz. now rewrite <- Eyz, Exy.
  - rewrite N.compare_lt_iff in Exy, Eyz.
    assert (H : (N_of_ascii x < N_of_ascii z)%N) by lia.
    apply N.compare_lt_iff in H. now rewrite H.
Qed.

Lemma ltb_irrefl (a : str) : Py.ltb a a = false.
Proof. unfold Py.ltb. now rewrite cmp_refl. Qed.

Lemma ltb_trans (a b c : str) :
  Py.ltb a b = true -> Py.ltb b c = true -> Py.ltb a c = true.
Proof.
  unfold Py.ltb. intros Hab Hbc.
  destruct (Py.cmp a b) eqn:E1; try discriminate.
  destruct (Py.cmp b c) eqn:E2; try discriminate.
  now rewrite (cmp_lt_trans a b c E1 E2).
Qed.

Lemma ltb_asym (a b : str) : Py.ltb a b = true -> Py.ltb b a = false.
Proof.
  unfold Py.ltb. rewrite (cmp_antisym a b).
  destruct (Py.cmp a b); simpl; congruence.
Qed.

Lemma leb_refl (a : str) : Py.leb a a = true.
Proof. unfold Py.leb. now rewrite ltb_irrefl. Qed.

(** [a <= b] is [a < b] or [a = b]. *)
Lemma leb_cases (a b : str) : Py.leb a b = true -> Py.ltb a b = true \/ a = b.
Proof.
  unfold Py.leb, Py.ltb. rewrite (cmp_antisym a b).
  destruct (Py.cmp a b) eqn:E; simpl; try discriminate; intros _.
  - right. now apply cmp_eq.
  - now left.
Qed.

Lemma ltb_leb (a b : str) : Py.ltb a b = true -> Py.leb a b = true.
Proof. intros H. unfold Py.leb. now rewrite (ltb_asym a b H). Qed.

Lemma leb_trans (a b c : str) :
  Py.leb a b = true -> Py.leb b c = true -> Py.leb a c = true.
Proof.
  intros Hab Hbc.
  destruct (leb_cases _ _ Hab) as [Hlt | ->]; [|assumption].
  destruct (leb_cases _ _ Hbc) as [Hlt' | <-].
  - apply ltb_leb. eapply ltb_trans; eassumption.
  - now apply ltb_leb.
Qed.

Lemma leb_ltb_trans (a b c : str) :
  Py.leb a b = true -> Py.ltb b c = true -> Py.ltb a c = true.
Proof.
  intros Hab Hbc. destruct (leb_cases _ _ Hab) as [Hlt | ->]; [|assumption].
  eapply ltb_trans; eassumption.
Qed.

Lemma ltb_leb_trans (a b c : str) :
  Py.ltb a b = true -> Py.leb b c = true -> Py.ltb a c = true.
Proof.
  intros Hab Hbc. destruct (leb_cases _ _ Hbc) as [Hlt | <-]; [|assumption].
  eapply ltb_trans; eassumption.
Qed.

Lemma leb_antisym (a b : str) :
  Py.leb a b = true -> Py.leb b a = true -> a = b.
Proof.
  intros Hab Hba. destruct (leb_cases _ _ Hab) as [Hlt | ->]; [|reflexivity].
  unfold Py.leb in Hba. rewrite Hlt in Hba. discriminate.
Qed.

(** A prefix sorts at or before every string it starts. *)
Lemma startswith_leb (b p : str) : Py.startswith b p = true -> Py.leb p b = true.
Proof.
  unfold Py.leb, Py.ltb.
  revert b; induction p as [|y p IH]; intros [|x b]; simpl; try congruence;
    try reflexivity.
  intros H. apply andb_true_iff in H as [Hx Hp].
  apply Ascii.eqb_eq in Hx. subst y. rewrite N.compare_refl.
  now apply IH.
Qed.

(** What lies between a prefix and a string it starts begins with that
    prefix too: the ordering fact the forward scan of [includes] rests on. *)
Lemma startswith_between (p q b : str) :
  Py.startswith b p = true -> Py.leb p q = true -> Py.leb q b = true ->
  Py.startswith q p = true.
Proof.
  unfold Py.leb, Py.ltb.
  revert q b; induction p as [|y p IH]; intros q b; [reflexivity|].
  destruct b as [|x b]; simpl; [discriminate|].
  intros H. apply andb_true_iff in H as [Hx Hp].
  apply Ascii.eqb_eq in Hx. subst y.
  destruct q as [|z q]; simpl; [discriminate|].
  destruct (N.compare (N_of_ascii z) (N_of_ascii x)) eqn:Ezx.
  - apply N.compare_eq in Ezx. apply N_of_ascii_inj in Ezx. subst z.
    rewrite N.compare_refl, Ascii.eqb_refl. simpl. now apply IH.
  - discriminate.
  - intros _. rewrite (N.compare_antisym (N_of_ascii z) (N_of_ascii x)), Ezx.
    discriminate.
Qed.

End Ordering.

(** ** Binary search, sorted insertion and sorting *)

Section Bisect.

Local Open Scope nat_scope.

Lemma ascending_nth (l : list str) :
  ascending l ->
  forall i j, i <= j -> j < length l -> le_str (nth i l []) (nth j l []).
Proof.
  induction 1 as [|a l Hs IH Hall]; intros i j Hij Hj; simpl in Hj; [lia|].
  destruct j as [|j].
  - replace i with 0 by lia. apply leb_refl.
  - destruct i as [|i]; simpl.
    + rewrite Forall_nth in Hall. apply Hall. lia.
    + apply IH; lia.
Qed.

(** The loop invariant of the binary search: everything left of [lo] is at
    most [x], everything from [hi] on is greater.  With [hi - lo] steps of
    fuel the loop has run to its end, where [lo = hi]. *)
Lemma bisect_loop_spec (a : list str) (x : str) :
  ascending a ->
  forall fuel lo hi,
    lo <= hi -> hi <= length a -> hi - lo <= fuel ->
    (forall i, i < lo -> le_str (nth i a []) x) ->
    (forall i, hi <= i -> i < length a -> Py.ltb x (nth i a []) = true) ->
    let r := Py.bisect_loop fuel a x lo hi in
    r <= length a /\
    (forall i, i < r -> le_str (nth i a []) x) /\
    (forall i, r <= i -> i < length a -> Py.ltb x (nth i a []) = true).
Proof.
  intros Hasc. induction fuel as [|fuel IH]; intros lo hi Hlo Hhi Hfuel Hl Hr.
  - simpl. replace hi with lo in * by lia. repeat split; auto; lia.
  - cbn [Py.bisect_loop]. destruct (lo <? hi) eqn:Elt.
    + apply Nat.ltb_lt in Elt.
      assert (Hmid : lo <= (lo + hi) / 2 < hi).
      { split.
        - apply Nat.div_le_lower_bound; lia.
        - apply Nat.Div0.div_lt_upper_bound; lia. }
      destruct (Py.ltb x (nth ((lo + hi) / 2) a [])) eqn:Ex.
      * apply IH; try lia; auto.
        intros i Hi Hlen.
        eapply ltb_leb_trans; [exact Ex|].
        apply (ascending_nth a Hasc _ i Hi Hlen).
      * apply IH; try lia; auto.
        intros i Hi.
        apply leb_trans with (nth ((lo + hi) / 2) a []).
        -- apply (ascending_nth a Hasc); lia.
        -- unfold Py.leb. now rewrite Ex.
    + apply Nat.ltb_ge in Elt. replace hi with lo in * by lia.
      repeat split; auto; lia.
Qed.

(** The fuel [hi - lo] is enough: the loop ends by its own test, and more
    fuel gives the same index, whatever the list. *)
Lemma bisect_loop_enough (a : list str) (x : str) :
  forall fuel fuel' lo hi,
    hi - lo <= fuel -> hi - lo <= fuel' ->
    Py.bisect_loop fuel a x lo hi = Py.bisect_loop fuel' a x lo hi.
Proof.
  induction fuel as [|fuel IH]; intros fuel' lo hi Hf Hf'.
  - destruct fuel' as [|fuel']; [reflexivity|].
    cbn [Py.bisect_loop].
    replace (lo <? hi) with false by (symmetry; apply Nat.ltb_ge; lia).
    reflexivity.
  - cbn [Py.bisect_loop]. destruct (lo <? hi) eqn:Elt.
    + apply Nat.ltb_lt in Elt.
      assert (Hmid : lo <= (lo + hi) / 2 < hi).
      { split.
        - apply Nat.div_le_lower_bound; lia.
        - apply Nat.Div0.div_lt_upper_bound; lia. }
      destruct fuel' as [|fuel']; [lia|].
      cbn [Py.bisect_loop].
      replace (lo <? hi) with true by (symmetry; apply Nat.ltb_lt; lia).
      destruct (Py.ltb x (nth ((lo + hi) / 2) a [])); apply IH; lia.
    + destruct fuel' as [|fuel']; [reflexivity|].
      cbn [Py.bisect_loop]. now rewrite Elt.
Qed.

(** [bisect] splits an ascending list into the entries at most [x] and the
    entries greater than [x]. *)
Lemma bisect_spec (a : list str) (x : str) :
  ascending a ->
  Py.bisect a x <= length a /\
  Forall (fun y => le_str y x) (firstn (Py.bisect a x) a) /\
  Forall (fun y => Py.ltb x y = true) (skipn (Py.bisect a x) a).
Proof.
  intros Hasc. unfold Py.bisect.
  destruct (bisect_loop_spec a x Hasc (length a) 0 (length a))
    as (Hlen & Hl & Hr); try lia.
  set (r := Py.bisect_loop (length a) a x 0 (length a)) in *.
  split; [assumption|]. split; apply Forall_nth; intros i d Hi.
  - rewrite length_firstn in Hi.
    rewrite (nth_indep _ d []) by (rewrite length_firstn; lia).
    rewrite nth_firstn.
    replace (i <? r) with true by (symmetry; apply Nat.ltb_lt; lia).
    apply Hl. lia.
  - rewrite length_skipn in Hi.
    rewrite (nth_indep _ d []) by (rewrite length_skipn; lia).
    rewrite nth_skipn. apply Hr; lia.
Qed.

Lemma ascending_app (l1 l2 : list str) :
  ascending l1 -> ascending l2 ->
  (forall a b, In a l1 -> In b l2 -> le_str a b) ->
  ascending (l1 ++ l2).
Proof.
  intros H1 H2 H12. induction H1 as [|a l Hs IH Hall]; simpl; [assumption|].
  constructor.
  - apply IH. intros; apply H12; simpl; auto.
  - apply Forall_app. split; [assumption|].
    apply Forall_forall. intros b Hb. apply H12; simpl; auto.
Qed.

Lemma ascending_app_inv (l1 l2 : list str) :
  ascending (l1 ++ l2) ->
  ascending l1 /\ ascending l2 /\
  (forall a b, In a l1 -> In b l2 -> le_str a b).
Proof.
  induction l1 as [|a l1 IH]; simpl; intros H.
  - repeat split; [constructor | assumption | contradiction].
  - apply StronglySorted_inv in H as [Hs Hall].
    apply IH in Hs as (H1 & H2 & H12).
    apply Forall_app in Hall as [Hall1 Hall2].
    repeat split; [now constructor | assumption |].
    intros x b [<- | Hx] Hb.
    + rewrite Forall_forall in Hall2. now apply Hall2.
    + now apply H12.
Qed.

Lemma insort_ascending (a : list str) (x : str) :
  ascending a -> ascending (Py.insort a x).
Proof.
  intros Hasc. unfold Py.insort.
  destruct (bisect_spec a x Hasc) as (_ & Hl & Hr).
  pose proof (firstn_skipn (Py.bisect a x) a) as Hsplit.
  rewrite <- Hsplit in Hasc.
  apply ascending_app_inv in Hasc as (H1 & H2 & _).
  rewrite Forall_forall in Hl, Hr.
  apply ascending_app; [assumption | |].
  - constructor; [assumption|].
    apply Forall_forall. intros y Hy. apply ltb_leb. now apply Hr.
  - intros y z Hy [<- | Hz]; [now apply Hl|].
    apply leb_trans with x; [now apply Hl | apply ltb_leb; now apply Hr].
Qed.

Lemma insort_In (a : list str) (x y : str) :
  In y (Py.insort a x) <-> y = x \/ In y a.
Proof.
  unfold Py.insort.
  assert (Ha : In y a <->
               In y (firstn (Py.bisect a x) a) \/ In y (skipn (Py.bisect a x) a)).
  { rewrite <- in_app_iff, firstn_skipn. tauto. }
  rewrite Ha, in_app_iff. simpl.
  split; intros H; repeat destruct H as [H | H]; subst; auto.
Qed.

Lemma insort_length (a : list str) (x : str) :
  length (Py.insort a x) = S (length a).
Proof.
  unfold Py.insort.
  pose proof (f_equal (@length str) (firstn_skipn (Py.bisect a x) a)) as Ha.
  rewrite length_app in Ha. rewrite length_app. simpl. lia.
Qed.

Lemma fold_insort_ascending (l acc : list str) :
  ascending acc -> ascending (fold_left Py.insort l acc).
Proof.
  revert acc; induction l as [|x l IH]; simpl; intros acc H; [assumption|].
  apply IH. now apply insort_ascending.
Qed.

Lemma fold_insort_In (l acc : list str) (y : str) :
  In y (fold_left Py.insort l acc) <-> In y l \/ In y acc.
Proof.
  revert acc; induction l as [|x l IH]; simpl; intros acc; [tauto|].
  rewrite IH, insort_In.
  split; intros H; repeat destruct H as [H | H]; subst; auto.
Qed.

Lemma sort_ascending (l : list str) : ascending (Py.sort l).
Proof. apply fold_insort_ascending. constructor. Qed.

Lemma sort_In (l : list str) (y : str) : In y (Py.sort l) <-> In y l.
Proof. unfold Py.sort. rewrite fold_insort_In. simpl. tauto. Qed.

End Bisect.

(** ** Containment over disjoint ranges *)

Section Containment.

Local Open Scope nat_scope.

Lemma skipn_nth_cons (l : list str) (n : nat) :
  n < length l -> skipn n l = nth n l [] :: skipn (S n) l.
Proof.
  revert n; induction l as [|a l IH]; intros n Hn; simpl in Hn; [lia|].
  destruct n as [|n]; [reflexivity|].
  change (skipn n l = nth n l [] :: skipn (S n) l). apply IH. lia.
Qed.

Lemma In_skipn (l : list str) (n : nat) (x : str) : In x (skipn n l) -> In x l.
Proof.
  intros H. rewrite <- (firstn_skipn n l). apply in_or_app. now right.
Qed.

Lemma In_firstn (l : list str) (n : nat) (x : str) : In x (firstn n l) -> In x l.
Proof.
  intros H. rewrite <- (firstn_skipn n l). apply in_or_app. now left.
Qed.

Lemma scan_no_match (b : str) (l : list str) :
  (forall m, In m l -> Py.startswith b m = false) -> IP_List.scan b l = false.
Proof.
  induction l as [|m l IH]; intros H; simpl; [reflexivity|].
  rewrite (H m) by (simpl; auto).
  destruct (Py.gtb m b); [reflexivity|].
  apply IH. intros; apply H; simpl; auto.
Qed.

(** An entry greater than the query cannot start it. *)
Lemma greater_no_match (b m : str) :
  Py.ltb b m = true -> Py.startswith b m = false.
Proof.
  intros Hlt. destruct (Py.startswith b m) eqn:E; [|reflexivity].
  apply startswith_leb in E. unfold Py.leb in E. rewrite Hlt in E. discriminate.
Qed.

(** On an ascending list without nested prefixes, the scan that starts one
    place before the insertion point of the query finds a stored prefix of
    the query whenever there is one. *)
Lemma scan_bisect_linear (l : list str) (b : str) :
  ascending l -> prefix_free l ->
  IP_List.scan b (Py.slice_from l (Z.of_nat (Py.bisect l b) - 1))
  = linear_scan l b.
Proof.
  intros Hasc Hfree.
  destruct (bisect_spec l b Hasc) as (Hlen & Hl & Hr).
  rewrite Forall_forall in Hl, Hr.
  destruct (Py.bisect l b) as [|r] eqn:Er.
  - (* every entry is greater than the query *)
    simpl in Hr.
    assert (Hnone : forall m, In m l -> Py.startswith b m = false)
      by (intros m Hm; apply greater_no_match; auto).
    unfold Py.slice_from. rewrite scan_no_match.
    + symmetry. unfold linear_scan.
      destruct (existsb _ l) eqn:E; [|reflexivity].
      apply existsb_exists in E as (m & Hm & Hs).
      rewrite (Hnone m Hm) in Hs. discriminate.
    + intros m Hm. apply Hnone. eapply In_skipn; eassumption.
  - (* the entry before the insertion point is the last one <= query *)
    assert (Hclamp : Py.clamp (Py.len l) (Z.of_nat (S r) - 1) = r).
    { unfold Py.clamp, Py.len.
      destruct (Z.of_nat (S r) - 1 <? 0)%Z eqn:E; [apply Z.ltb_lt in E|]; lia. }
    unfold Py.slice_from. rewrite Hclamp.
    rewrite (skipn_nth_cons l r) by lia.
    set (m := nth r l []).
    assert (Hm_in : In m (firstn (S r) l)).
    { rewrite <- (firstn_skipn r l).
      rewrite firstn_app, (skipn_nth_cons l r) by lia.
      rewrite length_firstn.
      replace (S r - Nat.min r (length l)) with 1 by lia.
      apply in_or_app. right. simpl. auto. }
    assert (Hm_le : le_str m b) by (apply Hl; assumption).
    assert (Hrest : forall q, In q (skipn (S r) l) -> Py.startswith b q = false)
      by (intros q Hq; apply greater_no_match; auto).
    cbn [IP_List.scan]. destruct (Py.startswith b m) eqn:Esm.
    + symmetry. apply existsb_exists. exists m. split; [|assumption].
      eapply In_firstn; eassumption.
    + replace (Py.gtb m b) with false
        by (unfold le_str, Py.leb in Hm_le; unfold Py.gtb;
            destruct (Py.ltb b m); [discriminate | reflexivity]).
      rewrite (scan_no_match b _ Hrest).
      symmetry. unfold linear_scan.
      destruct (existsb _ l) eqn:E; [|reflexivity].
      apply existsb_exists in E as (p & Hp & Hs).
      pose proof Hasc as Hasc'.
      rewrite <- (firstn_skipn r l), (skipn_nth_cons l r) in Hasc' by lia.
      fold m in Hasc'.
      apply ascending_app_inv in Hasc' as (_ & _ & Hcross).
      rewrite <- (firstn_skipn r l), (skipn_nth_cons l r) in Hp by lia.
      fold m in Hp.
      apply in_app_or in Hp as [Hp | [Hp | Hp]].
      * (* an earlier prefix of the query would be a prefix of [m] *)
        assert (Hpm : le_str p m) by (apply Hcross; simpl; auto).
        pose proof (startswith_between p m b Hs Hpm Hm_le) as Hsm.
        assert (p = m).
        { apply Hfree; try assumption.
          - eapply In_firstn; eassumption.
          - eapply In_firstn; eassumption. }
        subst p. congruence.
      * subst p. congruence.
      * rewrite (Hrest p Hp) in Hs. discriminate.
Qed.

Lemma sorted_ascending (self : IP_List.t) :
  ascending (IP_List.ipv4list (IP_List.sorted self)) /\
  ascending (IP_List.ipv6list (IP_List.sorted self)).
Proof. split; apply sort_ascending. Qed.

Lemma append_ascending (self self' : IP_List.t) ip depth :
  ascending (IP_List.ipv4list self) -> ascending (IP_List.ipv6list self) ->
  IP_List.append self ip depth = Ok self' ->
  ascending (IP_List.ipv4list self') /\ ascending (IP_List.ipv6list self').
Proof.
  intros H4 H6. unfold IP_List.append.
  destruct (Py.find ip ":" <? 0)%Z.
  - destruct (to_bitfield_ipv4 ip); cbn [bind]; [|discriminate].
    intros [= <-]; simpl. split; [now apply insort_ascending | assumption].
  - destruct (to_bitfield_ipv6 ip) as [b|]; cbn [bind]; [|discriminate].
    destruct (Py.startswith b ipv4addrmask).
    + destruct (IP_List.minus96 depth); cbn [bind]; [|discriminate].
      intros [= <-]; simpl. split; [now apply insort_ascending | assumption].
    + intros [= <-]; simpl. split; [assumption | now apply insort_ascending].
Qed.

(** Both sequences of a built store are in ascending order. *)
Lemma built_ascending (self : IP_List.t) :
  built self ->
  ascending (IP_List.ipv4list self) /\ ascending (IP_List.ipv6list self).
Proof.
  induction 1 as [entrylist self Hinit | self ip depth self' Hb IH Happ
                 | self content Hb IH].
  - unfold IP_List.__init__ in Hinit.
    destruct (foldM _ entrylist _); simpl in Hinit; [|discriminate].
    injection Hinit as <-. apply sorted_ascending.
  - destruct IH as [H4 H6]. eapply append_ascending; eassumption.
  - unfold IP_List.read_fieldlist.
    destruct (fold_left _ _ _) as [s out]. simpl. apply sorted_ascending.
Qed.

End Containment.

(** On a built store whose prefixes do not nest, [includes] is the linear
    scan of the sequence it searches. *)
Lemma includes_scan_family (self : IP_List.t) (x b : str) :
  built self ->
  prefix_free (IP_List.ipv4list self) ->
  prefix_free (IP_List.ipv6list self) ->
  IP_List.query_bits x = Ok b ->
  IP_List.includes self x = Ok (linear_scan (IP_List.family self b) b).
Proof.
  intros Hb H4 H6 Hq.
  destruct (built_ascending self Hb) as [A4 A6].
  unfold IP_List.includes. rewrite Hq. simpl.
  destruct (IP_List.__nonzero__ self) eqn:Enz; simpl.
  - f_equal. unfold IP_List.family.
    destruct (Py.len b >? 32); now apply scan_bisect_linear.
  - unfold IP_List.__nonzero__ in Enz. unfold IP_List.family.
    destruct (IP_List.ipv4list self), (IP_List.ipv6list self);
      try discriminate.
    now destruct (Py.len b >? 32).
Qed.

Lemma prefix_freeb_sound (l : list str) : prefix_freeb l = true -> prefix_free l.
Proof.
  unfold prefix_freeb, prefix_free. intros H p q Hp Hq Hs.
  rewrite forallb_forall in H. specialize (H p Hp).
  rewrite forallb_forall in H. specialize (H q Hq).
  rewrite Hs in H. simpl in H. now apply str_eqb_eq.
Qed.

(** ** Queries on an empty store *)

(** C10.  On a store whose IPv4 and IPv6 sequences are both empty,
    [includes] returns false for every query text, also for texts that no
    encoder accepts: the emptiness test comes before any encoding, so no
    exception can be raised. *)
Theorem includes_empty_store (self : IP_List.t) (ip : str) :
  IP_List.ipv4list self = [] -> IP_List.ipv6list self = [] ->
  IP_List.includes self ip = Ok false.
Proof.
  intros H4 H6. unfold IP_List.includes, IP_List.__nonzero__.
  rewrite H4, H6. reflexivity.
Qed.

(** A store that was never loaded, asked about a text no encoder accepts *)
Lemma includes_empty_store_witness :
  exists self,
    IP_List.__init__ [] = Ok self /\
    succeeds (IP_List.query_bits "not-an-ip") = false /\
    IP_List.includes self "not-an-ip" = Ok false.
Proof.
  exists (IP_List.mk [] []).
  split; [reflexivity|]. split; [reflexivity|].
  apply (includes_empty_store (IP_List.mk [] []) "not-an-ip");
    reflexivity.
Defined.

(** ** Overlapping ranges *)

(** C2.  There is a store with nested prefixes on which [includes] misses
    a match: the /2 range 64.0.0.0 ("01") with the two /4 ranges 80.0.0.0
    ("0101") and 96.0.0.0 ("0110") inside it.  The query 112.0.0.1 starts
    with "0111": it lies in the /2 range, but the scan starts at "0110",
    the last entry below the query, and never looks back at "01". *)
Theorem includes_misses_broader_prefix :
  exists (entrylist : list (str * option Z)) (self : IP_List.t) (x b p : str),
    IP_List.__init__ entrylist = Ok self /\
    IP_List.ipv4list self = map list_ascii_of_string ["01"; "0101"; "0110"] /\
    ~ prefix_free (IP_List.ipv4list self) /\
    IP_List.query_bits x = Ok b /\
    In p (IP_List.ipv4list self) /\ length p = 2%nat /\
    Py.startswith b p = true /\
    linear_scan (IP_List.family self b) b = true /\
    IP_List.includes self x = Ok false.
Proof.
  exists [(list_ascii_of_string "64.0.0.0", Some 2);
          (list_ascii_of_string "96.0.0.0", Some 4);
          (list_ascii_of_string "80.0.0.0", Some 4)].
  exists (IP_List.mk (map list_ascii_of_string ["01"; "0101"; "0110"]) []).
  exists (list_ascii_of_string "112.0.0.1").
  exists (list_ascii_of_string "01110000000000000000000000000001").
  exists (list_ascii_of_string "01").
  split; [vm_compute; reflexivity|].
  split; [reflexivity|].
  split.
  { intros Hfree.
    specialize (Hfree (list_ascii_of_string "01") (list_ascii_of_string "0101")).
    simpl in Hfree. discriminate Hfree; auto. }
  split; [vm_compute; reflexivity|].
  split; [simpl; auto|].
  repeat split.
Qed.

(** ** [append] of an IPv4-mapped address *)

(** C3, the claim as stated fails: with depth 95, below 96, [append] of an
    IPv4-mapped address raises nothing; the negative bound [95 - 96] makes
    the slice drop the last bit, and a 31-bit prefix is stored. *)
Lemma append_mapped_depth_below_96 :
  IP_List.append (IP_List.mk [] []) "::ffff:1.2.3.4" (Some 95)
  = Ok (IP_List.mk [list_ascii_of_string "0000000100000010000000110000010"] []).
Proof. vm_compute. reflexivity. Qed.

Lemma slice_to_nonneg (s : str) (n : Z) :
  0 <= n -> Py.slice_to s n = firstn (Z.to_nat n) s.
Proof.
  intros Hn. unfold Py.slice_to, Py.clamp, Py.len.
  destruct (n <? 0) eqn:E; [apply Z.ltb_lt in E; lia|].
  destruct (Z_le_gt_dec n (Z.of_nat (length s))).
  - now rewrite Z.min_l.
  - rewrite Z.min_r, Nat2Z.id by lia.
    rewrite !firstn_all2; auto; lia.
Qed.

Lemma slice_from_nonneg (s : str) (n : Z) :
  0 <= n -> Py.slice_from s n = skipn (Z.to_nat n) s.
Proof.
  intros Hn. unfold Py.slice_from, Py.clamp, Py.len.
  destruct (n <? 0) eqn:E; [apply Z.ltb_lt in E; lia|].
  destruct (Z_le_gt_dec n (Z.of_nat (length s))).
  - now rewrite Z.min_l.
  - rewrite Z.min_r, Nat2Z.id by lia.
    rewrite !skipn_all2; auto; lia.
Qed.

(** C3, amended.  For an address text with a colon whose encoding starts
    with the IPv4-mapped marker, [append] with an integer depth raises
    nothing, whatever the depth: it inserts [b[96:][:depth-96]] at its
    sorted place in the IPv4 sequence and leaves the IPv6 sequence alone.
    From depth 96 on, that entry is the 32 bits after the marker cut to
    [depth - 96] bits. *)
Theorem append_mapped (self : IP_List.t) (ip b : str) (depth : Z) :
  Py.find ip ":" >= 0 ->
  to_bitfield_ipv6 ip = Ok b ->
  Py.startswith b ipv4addrmask = true ->
  IP_List.append self ip (Some depth)
  = Ok (IP_List.mk
          (Py.insort (IP_List.ipv4list self)
                     (Py.slice_to (Py.slice_from b 96) (depth - 96)))
          (IP_List.ipv6list self))
  /\ (96 <= depth ->
      Py.slice_to (Py.slice_from b 96) (depth - 96)
      = firstn (Z.to_nat (depth - 96)) (skipn 96 b)).
Proof.
  intros Hcolon Hb Hmask. split.
  - unfold IP_List.append.
    replace (Py.find ip ":" <? 0) with false by (symmetry; apply Z.ltb_ge; lia).
    rewrite Hb. cbn [bind]. rewrite Hmask. reflexivity.
  - intros Hd. rewrite slice_to_nonneg, slice_from_nonneg by lia. reflexivity.
Qed.

Lemma append_mapped_witness :
  IP_List.append (IP_List.mk [] []) "::ffff:10.0.0.0" (Some 104)
  = Ok (IP_List.mk [list_ascii_of_string "00001010"] []).
Proof.
  refine (proj1 (append_mapped (IP_List.mk [] []) "::ffff:10.0.0.0"
    "00000000000000000000000000000000000000000000000000000000000000000000000000000000111111111111111100001010000000000000000000000000"
    104 _ _ _)).
  - vm_compute. discriminate.
  - vm_compute. reflexivity.
  - vm_compute. reflexivity.
Defined.

(** ** Bulk loading *)

(** The example of the specification: one good line and one bad line give
    one stored entry and one warning. *)
Example read_fieldlist_one_bad_line :
  IP_List.read_fieldlist (IP_List.mk [] [])
    ("192.168.1.0/24" ++ newline ++ "not-an-ip/24" ++ newline)
  = (IP_List.mk [list_ascii_of_string "110000001010100000000001"] [],
     [IP_List.warning ++ "not-an-ip/24"]).
Proof. vm_compute. reflexivity. Qed.

(** Both sequences are ascending when [read_fieldlist] returns. *)
Lemma read_fieldlist_ascending (self : IP_List.t) (content : str) :
  ascending (IP_List.ipv4list (fst (IP_List.read_fieldlist self content))) /\
  ascending (IP_List.ipv6list (fst (IP_List.read_fieldlist self content))).
Proof.
  unfold IP_List.read_fieldlist.
  destruct (fold_left _ _ _) as [s out]. simpl. apply sorted_ascending.
Qed.

(** [_append] adds one entry, at the end of one of the two sequences. *)
Lemma _append_adds_one (self self' : IP_List.t) (ip : str) (depth : option Z) :
  IP_List._append self ip depth = Ok self' ->
  exists p,
    (IP_List.ipv4list self' = IP_List.ipv4list self ++ [p] /\
     IP_List.ipv6list self' = IP_List.ipv6list self) \/
    (IP_List.ipv4list self' = IP_List.ipv4list self /\
     IP_List.ipv6list self' = IP_List.ipv6list self ++ [p]).
Proof.
  unfold IP_List._append.
  destruct (Py.find ip ":" <? 0).
  - destruct (to_bitfield_ipv4 ip) as [b|]; cbn [bind]; [|discriminate].
    intros H. apply Ok_inj in H. subst self'. eexists. left. split; reflexivity.
  - destruct (to_bitfield_ipv6 ip) as [b|]; cbn [bind]; [|discriminate].
    destruct (Py.startswith b ipv4addrmask).
    + destruct (IP_List.minus96 depth) as [d|]; cbn [bind]; [|discriminate].
      intros H. apply Ok_inj in H. subst self'. eexists. left. split; reflexivity.
    + intros H. apply Ok_inj in H. subst self'. eexists. right. split; reflexivity.
Qed.

(** One line of the file does one of three things: nothing (a blank or
    comment line), a warning with the store untouched, or one successful
    [_append] with nothing printed.  No exception leaves the loop. *)
Lemma read_line_effect (self : IP_List.t) (out : list str) (line : str) :
  read_line_outcome self out (IP_List.read_line (self, out) line).
Proof.
  unfold IP_List.read_line.
  destruct (Py.str_eqb _ "" || Py.str_eqb _ "#")%bool; [apply line_ignored|].
  destruct (IP_List.unpack2 (Py.split _ "/")) as [[ip depth]|].
  - destruct (Py.int depth) as [n|]; cbn [bind].
    + destruct (IP_List._append self ip (Some n)) as [self'|] eqn:E.
      * eapply line_loaded; eassumption.
      * apply line_skipped.
    + apply line_skipped.
  - cbn [bind].
    match goal with
    | |- context [IP_List._append self ?ip None] =>
        destruct (IP_List._append self ip None) as [self'|] eqn:E
    end.
    + eapply line_loaded; eassumption.
    + apply line_skipped.
Qed.

(** C9, where the code departs from the claim.  A line that holds an
    IPv4-mapped address and no depth is well formed, and [append] with its
    default depth stores such an address; [read_fieldlist] passes [None] as
    the depth, [None - 96] is a [TypeError], and the line is dropped with a
    warning.  The same address in IPv4 notation is loaded. *)
Theorem read_fieldlist_drops_mapped_without_depth :
  IP_List.read_fieldlist (IP_List.mk [] []) ("::ffff:10.0.0.1" ++ newline)
  = (IP_List.mk [] [], [IP_List.warning ++ "::ffff:10.0.0.1"])
  /\ IP_List.read_fieldlist (IP_List.mk [] []) ("10.0.0.1" ++ newline)
     = (IP_List.mk [list_ascii_of_string "00001010000000000000000000000001"] [], [])
  /\ IP_List.append (IP_List.mk [] []) "::ffff:10.0.0.1" IP_List.default_depth
     = Ok (IP_List.mk [list_ascii_of_string "00001010000000000000000000000001"] []).
Proof. repeat split; vm_compute; reflexivity. Qed.

(** ** Dotted decimal texts *)

Section DottedDecimal.

Lemma isdigit_not_dot c : Py.isdigit c = true -> Ascii.eqb c "." = false.
Proof. intros H. char_differs. Qed.

Lemma isdigit_not_colon c : Py.isdigit c = true -> Ascii.eqb c ":" = false.
Proof. intros H. char_differs. Qed.

Lemma isdigit_not_nul c : Py.isdigit c = true -> Ascii.eqb zero c = false.
Proof. intros H. rewrite Ascii.eqb_sym. char_differs. Qed.

Lemma isdigit_not_space c : Py.isdigit c = true -> Py.isspace c = false.
Proof.
  unfold Py.isdigit, Py.isspace. intros H.
  apply andb_true_iff in H as [H1 H2].
  apply N.leb_le in H1.
  apply orb_false_iff. split.
  - apply N.eqb_neq. lia.
  - apply andb_false_iff. right. apply N.leb_gt. lia.
Qed.

Lemma isodigit_isdigit c : Py.isdigit c = false -> Socket.isodigit c = false.
Proof.
  unfold Py.isdigit, Socket.isodigit. intros H.
  apply andb_false_iff in H as [H | H]; apply andb_false_iff.
  - now left.
  - right. apply N.leb_gt in H. apply N.leb_gt. lia.
Qed.

Lemma digit_val_nonneg c : Py.isdigit c = true -> 0 <= Py.digit_val c <= 9.
Proof.
  unfold Py.isdigit, Py.digit_val. intros H.
  apply andb_true_iff in H as [H1 H2].
  apply N.leb_le in H1, H2. lia.
Qed.

Lemma decimal_digits ds : decimal ds = true -> forallb Py.isdigit ds = true.
Proof.
  destruct ds as [|d ds]; [discriminate|]. unfold decimal.
  intros H. now apply andb_true_iff in H as [H _].
Qed.

Lemma digits_decimal ds rest acc :
  forallb Py.isdigit ds = true -> ends_number rest ->
  Socket.digits Py.isdigit Py.digit_val 10 acc (ds ++ rest)
  = (fold_left (fun acc c => 10 * acc + Py.digit_val c) ds acc, rest).
Proof.
  revert acc; induction ds as [|d ds IH]; intros acc Hds Hrest; simpl.
  - destruct rest as [|c rest]; [reflexivity|].
    simpl. destruct Hrest as (-> & _). reflexivity.
  - simpl in Hds. apply andb_true_iff in Hds as [Hd Hds].
    rewrite Hd. now apply IH.
Qed.

(** [strtoul] reads a decimal number up to its end. *)
Lemma strtoul_decimal ds rest :
  decimal ds = true -> ends_number rest ->
  Socket.strtoul (ds ++ rest) = (Py.dec_val ds, rest).
Proof.
  intros Hdec Hrest. pose proof (decimal_digits ds Hdec) as Hds.
  destruct ds as [|d ds]; [discriminate|].
  unfold decimal in Hdec. apply andb_true_iff in Hdec as [_ Hlead].
  change ((d :: ds) ++ rest) with (d :: (ds ++ rest)).
  unfold Socket.strtoul.
  destruct (Ascii.eqb d "0") eqn:Ed.
  - simpl in Hlead. apply str_eqb_eq in Hlead. subst ds.
    apply Ascii.eqb_eq in Ed. subst d. simpl.
    destruct rest as [|c rest]; [reflexivity|].
    destruct Hrest as (Hc & Hx & HX).
    assert (Ho : Socket.isodigit c = false) by now apply isodigit_isdigit.
    destruct rest as [|h rest]; simpl.
    + now rewrite Ho.
    + rewrite Hx, HX. simpl. now rewrite Ho.
  - change (d :: ds ++ rest) with ((d :: ds) ++ rest).
    now apply digits_decimal.
Qed.

Lemma dec_val_nonneg_from ds acc :
  forallb Py.isdigit ds = true -> 0 <= acc ->
  0 <= fold_left (fun acc c => 10 * acc + Py.digit_val c) ds acc.
Proof.
  revert acc; induction ds as [|d ds IH]; intros acc Hds Hacc;
    cbn [fold_left]; [assumption|].
  simpl in Hds. apply andb_true_iff in Hds as [Hd Hds].
  apply IH; [assumption|]. pose proof (digit_val_nonneg d Hd). lia.
Qed.

Lemma dec_val_nonneg ds : forallb Py.isdigit ds = true -> 0 <= Py.dec_val ds.
Proof. intros H. apply dec_val_nonneg_from; [assumption | lia]. Qed.

Lemma decimal_head ds :
  decimal ds = true -> exists d ds', ds = d :: ds' /\ Py.isdigit d = true.
Proof.
  intros H. pose proof (decimal_digits ds H) as Hds.
  destruct ds as [|d ds']; [discriminate|].
  exists d, ds'. split; [reflexivity|].
  simpl in Hds. now apply andb_true_iff in Hds as [Hd _].
Qed.

Lemma ends_number_dot rest : ends_number ("."%char :: rest).
Proof. simpl. repeat split. Qed.

(** One number followed by a dot, in the loop of [inet_aton] *)
Lemma aton_loop_dot (room : nat) parts ds rest :
  decimal ds = true ->
  Socket.aton_loop (S room) parts (ds ++ "." ++ rest)
  = if Py.dec_val ds >? 255 then None
    else Socket.aton_loop room (parts ++ [Py.dec_val ds]) rest.
Proof.
  intros Hdec. destruct (decimal_head ds Hdec) as (d & ds' & -> & Hd).
  change (((d :: ds') ++ "." ++ rest)) with (d :: (ds' ++ "."%char :: rest)).
  cbn [Socket.aton_loop]. rewrite Hd. cbn [negb].
  change (d :: ds' ++ "."%char :: rest) with ((d :: ds') ++ "."%char :: rest).
  rewrite (strtoul_decimal _ _ Hdec (ends_number_dot rest)).
  rewrite Ascii.eqb_refl.
  destruct (Py.dec_val (d :: ds') >? 4294967295) eqn:Ebig; [|reflexivity].
  apply Z.gtb_lt in Ebig.
  replace (Py.dec_val (d :: ds') >? 255) with true
    by (symmetry; apply Z.gtb_lt; lia).
  reflexivity.
Qed.


(** The last number of a dotted quad *)
Lemma aton_loop_last parts ds :
  decimal ds = true ->
  Socket.aton_loop 0 parts ds
  = if Py.dec_val ds >? 255 then None else Some (parts ++ [Py.dec_val ds]).
Proof.
  intros Hdec. destruct (decimal_head ds Hdec) as (d & ds' & -> & Hd).
  cbn [Socket.aton_loop]. rewrite Hd. cbn [negb].
  pose proof (strtoul_decimal _ [] Hdec I) as Hs. rewrite app_nil_r in Hs.
  rewrite Hs.
  pose proof (dec_val_nonneg _ (decimal_digits _ Hdec)) as Hpos.
  change (256 ^ Z.of_nat 1 - 1) with 255.
  destruct (Py.dec_val (d :: ds') >? 4294967295) eqn:Ebig.
  - apply Z.gtb_lt in Ebig.
    replace (Py.dec_val (d :: ds') >? 255) with true
      by (symmetry; apply Z.gtb_lt; lia).
    reflexivity.
  - destruct (Py.dec_val (d :: ds') >? 255) eqn:E255; [reflexivity|].
    rewrite Z.gtb_ltb in E255. apply Z.ltb_ge in E255.
    cbn [Socket.be_bytes]. change (256 ^ Z.of_nat 0) with 1.
    rewrite Z.div_1_r, Z.mod_small by lia. reflexivity.
Qed.

Lemma c_inet_aton_dotted d1 d2 d3 d4 :
  decimal d1 = true -> decimal d2 = true ->
  decimal d3 = true -> decimal d4 = true ->
  Socket.c_inet_aton (dotted d1 d2 d3 d4)
  = if forallb octet [Py.dec_val d1; Py.dec_val d2; Py.dec_val d3; Py.dec_val d4]
    then Some [Py.dec_val d1; Py.dec_val d2; Py.dec_val d3; Py.dec_val d4]
    else None.
Proof.
  intros H1 H2 H3 H4. unfold Socket.c_inet_aton, dotted.
  pose proof (dec_val_nonneg _ (decimal_digits _ H1)) as P1.
  pose proof (dec_val_nonneg _ (decimal_digits _ H2)) as P2.
  pose proof (dec_val_nonneg _ (decimal_digits _ H3)) as P3.
  pose proof (dec_val_nonneg _ (decimal_digits _ H4)) as P4.
  rewrite aton_loop_dot by assumption.
  cbn [forallb]. unfold octet.
  rewrite !Z.gtb_ltb.
  destruct (Z.ltb_spec 255 (Py.dec_val d1)).
  { replace (Py.dec_val d1 <=? 255) with false by (symmetry; apply Z.leb_gt; lia).
    now rewrite andb_false_r. }
  rewrite aton_loop_dot by assumption. rewrite !Z.gtb_ltb.
  replace (0 <=? Py.dec_val d1) with true by (symmetry; apply Z.leb_le; lia).
  replace (Py.dec_val d1 <=? 255) with true by (symmetry; apply Z.leb_le; lia).
  cbn [andb].
  destruct (Z.ltb_spec 255 (Py.dec_val d2)).
  { replace (Py.dec_val d2 <=? 255) with false by (symmetry; apply Z.leb_gt; lia).
    now rewrite andb_false_r. }
  rewrite aton_loop_dot by assumption. rewrite !Z.gtb_ltb.
  replace (0 <=? Py.dec_val d2) with true by (symmetry; apply Z.leb_le; lia).
  replace (Py.dec_val d2 <=? 255) with true by (symmetry; apply Z.leb_le; lia).
  cbn [andb].
  destruct (Z.ltb_spec 255 (Py.dec_val d3)).
  { replace (Py.dec_val d3 <=? 255) with false by (symmetry; apply Z.leb_gt; lia).
    now rewrite andb_false_r. }
  rewrite aton_loop_last by assumption. rewrite !Z.gtb_ltb.
  replace (0 <=? Py.dec_val d3) with true by (symmetry; apply Z.leb_le; lia).
  replace (Py.dec_val d3 <=? 255) with true by (symmetry; apply Z.leb_le; lia).
  cbn [andb].
  destruct (Z.ltb_spec 255 (Py.dec_val d4)).
  { replace (Py.dec_val d4 <=? 255) with false by (symmetry; apply Z.leb_gt; lia).
    now rewrite andb_false_r. }
  replace (0 <=? Py.dec_val d4) with true by (symmetry; apply Z.leb_le; lia).
  replace (Py.dec_val d4 <=? 255) with true by (symmetry; apply Z.leb_le; lia).
  reflexivity.
Qed.

End DottedDecimal.

(** ** Bit strings of integers *)

Section BitStrings.

Lemma land_1_cases (y : Z) : Z.land y 1 = 0 \/ Z.land y 1 = 1.
Proof.
  replace (Z.land y 1) with (y mod 2).
  - pose proof (Z.mod_pos_bound y 2 ltac:(lia)). lia.
  - change 1 with (Z.ones 1). now rewrite Z.land_ones by lia.
Qed.

(** Each step of [_int_to_bitstring] writes one character, 0 or 1. *)
Lemma bit_char (x i : Z) :
  Py.str_of_int (Z.land (Z.shiftr x i) 1) = ["0"%char] \/
  Py.str_of_int (Z.land (Z.shiftr x i) 1) = ["1"%char].
Proof.
  destruct (land_1_cases (Z.shiftr x i)) as [-> | ->]; [left | right]; reflexivity.
Qed.

Lemma join_bits_length (x : Z) (l : list Z) :
  length (Py.join (map (fun i => Py.str_of_int (Z.land (Z.shiftr x i) 1)) l))
  = length l.
Proof.
  induction l as [|i l IH]; [reflexivity|].
  cbn [map Py.join concat]. fold (Py.join (map (fun i => Py.str_of_int (Z.land (Z.shiftr x i) 1)) l)).
  rewrite length_app, IH.
  destruct (bit_char x i) as [-> | ->]; reflexivity.
Qed.

Lemma int_to_bitstring_length (x : Z) (bits : nat) :
  length (_int_to_bitstring x bits) = bits.
Proof.
  unfold _int_to_bitstring. rewrite join_bits_length.
  unfold xrange_down, xrange. now rewrite length_rev, length_map, length_seq.
Qed.

Lemma join_bits_isbit (x : Z) (l : list Z) :
  forallb Py.isbit (Py.join (map (fun i => Py.str_of_int (Z.land (Z.shiftr x i) 1)) l))
  = true.
Proof.
  induction l as [|i l IH]; [reflexivity|].
  cbn [map Py.join concat]. fold (Py.join (map (fun i => Py.str_of_int (Z.land (Z.shiftr x i) 1)) l)).
  rewrite forallb_app, IH.
  destruct (bit_char x i) as [-> | ->]; reflexivity.
Qed.

Lemma int_to_bitstring_isbit (x : Z) (bits : nat) :
  forallb Py.isbit (_int_to_bitstring x bits) = true.
Proof. apply join_bits_isbit. Qed.

End BitStrings.

(** ** Octets, by table *)

Section Octets.

Lemma octet_table : forallb octet_check (xrange 256) = true.
Proof. vm_compute. reflexivity. Qed.

Lemma octet_in_xrange (v : Z) : octet v = true -> In v (xrange 256).
Proof.
  unfold octet. intros H. apply andb_true_iff in H as [H0 H255].
  apply Z.leb_le in H0, H255.
  unfold xrange. apply in_map_iff. exists (Z.to_nat v). split; [lia|].
  apply in_seq. lia.
Qed.

Lemma octet_checked (v : Z) : octet v = true -> octet_check v = true.
Proof.
  intros H. pose proof octet_table as T. rewrite forallb_forall in T.
  apply T. now apply octet_in_xrange.
Qed.

Lemma charbinmap_octet (v : Z) :
  octet v = true ->
  nth (Z.to_nat (ord (ascii_of_N (Z.to_N v)))) charbinmap [] = bits8 v.
Proof.
  intros H. apply octet_checked in H. unfold octet_check in H.
  repeat (apply andb_true_iff in H as [H ?]). now apply str_eqb_eq.
Qed.

Lemma str_of_int_octet (v : Z) :
  octet v = true ->
  decimal (Py.str_of_int v) = true /\ Py.dec_val (Py.str_of_int v) = v.
Proof.
  intros H. apply octet_checked in H. unfold octet_check in H.
  repeat (apply andb_true_iff in H as [H ?]). split; [assumption|].
  now apply Z.eqb_eq.
Qed.

Lemma int2_bits8 (v : Z) : octet v = true -> Py.int2 (bits8 v) = Ok v.
Proof.
  intros H. apply octet_checked in H. unfold octet_check in H.
  repeat (apply andb_true_iff in H as [H ?]).
  unfold result_is in *. destruct (Py.int2 (bits8 v)); [|discriminate].
  f_equal. now apply Z.eqb_eq.
Qed.

Lemma charbinmap_entry_length (c : ascii) :
  length (nth (Z.to_nat (ord c)) charbinmap []) = 8%nat.
Proof.
  assert (T : forallb (fun n => Nat.eqb (length (nth n charbinmap [])) 8)
                      (seq 0 256) = true) by (vm_compute; reflexivity).
  rewrite forallb_forall in T. apply Nat.eqb_eq. apply T.
  apply in_seq. unfold ord. pose proof (N_ascii_bounded c). lia.
Qed.

End Octets.

(** ** [to_bitfield_ipv4] *)

Section EncodeIPv4.

Lemma decimal_no_nul ds :
  forallb Py.isdigit ds = true -> existsb (Ascii.eqb zero) ds = false.
Proof.
  induction ds as [|d ds IH]; [reflexivity|]. cbn [existsb forallb].
  intros H. apply andb_true_iff in H as [Hd Hds].
  now rewrite (isdigit_not_nul d Hd), IH.
Qed.

Lemma dotted_no_nul d1 d2 d3 d4 :
  decimal d1 = true -> decimal d2 = true ->
  decimal d3 = true -> decimal d4 = true ->
  existsb (Ascii.eqb zero) (dotted d1 d2 d3 d4) = false.
Proof.
  intros H1 H2 H3 H4. unfold dotted.
  rewrite !existsb_app.
  rewrite (decimal_no_nul d1), (decimal_no_nul d2),
    (decimal_no_nul d3), (decimal_no_nul d4) by now apply decimal_digits.
  reflexivity.
Qed.

(** A dotted quad of decimal numbers is encoded exactly when each number
    fits a byte, as the four 8-bit forms in order. *)
Lemma to_bitfield_ipv4_dotted d1 d2 d3 d4 :
  decimal d1 = true -> decimal d2 = true ->
  decimal d3 = true -> decimal d4 = true ->
  to_bitfield_ipv4 (dotted d1 d2 d3 d4)
  = if forallb octet [Py.dec_val d1; Py.dec_val d2; Py.dec_val d3; Py.dec_val d4]
    then Ok (bits8 (Py.dec_val d1) ++ bits8 (Py.dec_val d2)
             ++ bits8 (Py.dec_val d3) ++ bits8 (Py.dec_val d4))
    else Raise ValueError.
Proof.
  intros H1 H2 H3 H4. unfold to_bitfield_ipv4, Socket.inet_aton.
  rewrite dotted_no_nul, c_inet_aton_dotted by assumption.
  destruct (forallb octet _) eqn:E; [|reflexivity].
  cbn [forallb] in E.
  repeat (apply andb_true_iff in E as [? E]).
  cbn [map Py.join concat].
  rewrite !charbinmap_octet by assumption.
  now rewrite app_nil_r.
Qed.

Lemma be_bytes_length n val : length (Socket.be_bytes n val) = n.
Proof. induction n as [|n IH]; cbn [Socket.be_bytes length]; congruence. Qed.

Lemma aton_loop_length room parts cp bytes :
  Socket.aton_loop room parts cp = Some bytes ->
  length bytes = (length parts + S room)%nat.
Proof.
  revert parts cp; induction room as [|room IH]; intros parts cp;
    (destruct cp as [|c cp]; [discriminate|]); cbn [Socket.aton_loop];
    destruct (negb (Py.isdigit c)); try discriminate;
    destruct (Socket.strtoul (c :: cp)) as [val rest];
    destruct (val >? 4294967295); try discriminate.
  - destruct (val >? 256 ^ Z.of_nat 1 - 1).
    + destruct rest as [|c' rest']; [discriminate|].
      destruct (Ascii.eqb c' "."); [discriminate|].
      destruct (Py.isspace c'); discriminate.
    + assert (Hlast : forall r, Some (parts ++ Socket.be_bytes 1 val) = Some r ->
                                length r = (length parts + 1)%nat).
      { intros r Hr.
        assert (r = parts ++ Socket.be_bytes 1 val) by congruence.
        subst r. now rewrite length_app, be_bytes_length. }
      destruct rest as [|c' rest']; [apply Hlast|].
      destruct (Ascii.eqb c' "."); [discriminate|].
      destruct (Py.isspace c'); [apply Hlast | discriminate].
  - assert (Hlast : forall r,
      (if val >? 256 ^ Z.of_nat (S (S room)) - 1 then None
       else Some (parts ++ Socket.be_bytes (S (S room)) val)) = Some r ->
      length r = (length parts + S (S room))%nat).
    { intros r. destruct (val >? _); [discriminate|].
      intros Hr.
      assert (r = parts ++ Socket.be_bytes (S (S room)) val) by congruence.
      subst r. now rewrite length_app, be_bytes_length. }
    destruct rest as [|c' rest']; [apply Hlast|].
    destruct (Ascii.eqb c' ".").
    + destruct (val >? 255); [discriminate|].
      intros H. apply IH in H. rewrite length_app in H. simpl in H. lia.
    + destruct (Py.isspace c'); [apply Hlast | discriminate].
Qed.

(** Every successful encoding has 32 characters. *)
Lemma to_bitfield_ipv4_length ip b :
  to_bitfield_ipv4 ip = Ok b -> length b = 32%nat.
Proof.
  unfold to_bitfield_ipv4, Socket.inet_aton.
  destruct (existsb (Ascii.eqb zero) ip); [discriminate|].
  destruct (Socket.c_inet_aton ip) as [bytes|] eqn:E; [|discriminate].
  apply aton_loop_length in E. simpl in E.
  intros Hb. apply Ok_inj in Hb. subst b.
  destruct bytes as [|b1 [|b2 [|b3 [|b4 [|b5 bytes]]]]]; try discriminate.
  cbn [map Py.join concat]. rewrite !length_app, !charbinmap_entry_length.
  reflexivity.
Qed.



End EncodeIPv4.

(** ** Searching and splitting *)

Section Strings.

Lemma has_app c a b : has c (a ++ b) = has c a || has c b.
Proof. apply existsb_app. Qed.

Lemma find_from_absent c s i : has c s = false -> Py.find_from c s i = -1.
Proof.
  revert i; induction s as [|x s IH]; intros i; [reflexivity|].
  cbn [has existsb Py.find_from]. intros H.
  apply orb_false_iff in H as [Hx Hs]. rewrite Hx. now apply IH.
Qed.

Lemma find_from_present c s i :
  has c s = true -> i <= Py.find_from c s i < i + Py.len s.
Proof.
  revert i; induction s as [|x s IH]; intros i; [discriminate|].
  cbn [has existsb Py.find_from]. unfold Py.len. cbn [length].
  destruct (Ascii.eqb x c); [lia|]. cbn [orb]. intros H.
  specialize (IH (i + 1) H). unfold Py.len in IH. lia.
Qed.

Lemma find_absent c s : has c s = false -> Py.find s c = -1.
Proof. apply find_from_absent. Qed.

Lemma find_present c s : has c s = true -> 0 <= Py.find s c.
Proof. intros H. apply (find_from_present c s 0) in H. unfold Py.find. lia. Qed.

Lemma find_has c s : 0 <= Py.find s c -> has c s = true.
Proof.
  intros H. destruct (has c s) eqn:E; [reflexivity|].
  rewrite (find_absent c s E) in H. lia.
Qed.

(** A text without the separator is one segment. *)
Lemma split_none s sep : has sep s = false -> Py.split s sep = [s].
Proof.
  induction s as [|x s IH]; [reflexivity|].
  cbn [has existsb Py.split]. intros H.
  apply orb_false_iff in H as [Hx Hs]. rewrite Hx, (IH Hs). reflexivity.
Qed.

(** The first segment ends at the first separator. *)
Lemma split_app a b sep :
  has sep a = false -> Py.split (a ++ sep :: b) sep = a :: Py.split b sep.
Proof.
  induction a as [|x a IH]; intros H.
  - cbn [app Py.split]. now rewrite Ascii.eqb_refl.
  - cbn [has existsb] in H. apply orb_false_iff in H as [Hx Ha].
    cbn [app Py.split]. rewrite Hx, (IH Ha). reflexivity.
Qed.

Lemma digits_have_not c ds :
  forallb Py.isdigit ds = true -> Py.isdigit c = false -> has c ds = false.
Proof.
  intros Hds Hc. induction ds as [|d ds IH]; [reflexivity|].
  cbn [forallb] in Hds. apply andb_true_iff in Hds as [Hd Hds].
  cbn [has existsb]. fold (has c ds). rewrite (IH Hds).
  destruct (Ascii.eqb_spec d c) as [->|]; [congruence | reflexivity].
Qed.

Lemma lstrip_digit ds :
  forallb Py.isdigit ds = true -> Py.lstrip ds = ds.
Proof.
  destruct ds as [|d ds]; [reflexivity|]. cbn [forallb Py.lstrip].
  intros H. apply andb_true_iff in H as [Hd _].
  now rewrite (isdigit_not_space d Hd).
Qed.

Lemma strip_digits ds : forallb Py.isdigit ds = true -> Py.strip ds = ds.
Proof.
  intros H. unfold Py.strip, Py.rstrip.
  rewrite (lstrip_digit ds H), lstrip_digit, rev_involutive; [reflexivity|].
  rewrite forallb_forall in *. intros c Hc. apply H. now apply in_rev.
Qed.

(** [int] reads a run of digits as its decimal value. *)
Lemma int_digits ds :
  ds <> [] -> forallb Py.isdigit ds = true -> Py.int ds = Ok (Py.dec_val ds).
Proof.
  intros Hne Hds. unfold Py.int. rewrite (strip_digits ds Hds).
  destruct ds as [|d ds]; [congruence|].
  pose proof Hds as Hd. cbn [forallb] in Hd. apply andb_true_iff in Hd as [Hd _].
  assert (Hm : Ascii.eqb d "-" = false) by char_differs.
  assert (Hp : Ascii.eqb d "+" = false) by char_differs.
  cbn [Py.startswith list_ascii_of_string]. rewrite Hm, Hp. cbn [andb orb].
  now rewrite Hds.
Qed.

Lemma decimal_nonempty ds : decimal ds = true -> ds <> [].
Proof. destruct ds; [discriminate | congruence]. Qed.

Lemma split_dotted d1 d2 d3 d4 :
  decimal d1 = true -> decimal d2 = true ->
  decimal d3 = true -> decimal d4 = true ->
  Py.split (dotted d1 d2 d3 d4) "." = [d1; d2; d3; d4].
Proof.
  intros H1 H2 H3 H4. unfold dotted.
  assert (N : forall d, decimal d = true -> has "." d = false)
    by (intros d Hd; apply digits_have_not;
        [now apply decimal_digits | reflexivity]).
  change (list_ascii_of_string ".") with ["."%char]. cbn [app].
  rewrite !split_app by auto. now rewrite split_none by auto.
Qed.

Lemma has_dotted c d1 d2 d3 d4 :
  has c (dotted d1 d2 d3 d4)
  = has c d1 || (Ascii.eqb "." c || (has c d2 || (Ascii.eqb "." c
    || (has c d3 || (Ascii.eqb "." c || has c d4))))).
Proof.
  unfold dotted. rewrite !has_app.
  change (has c ".") with (Ascii.eqb "." c || false). now rewrite !orb_false_r.
Qed.

End Strings.

(** ** The encoder of IPv4 texts *)




(** ** [is_valid_ip] *)

Section Validity.

Lemma succeeds_mapM {A B} (f : A -> result B) (l : list A) :
  succeeds (mapM f l) = forallb (fun a => succeeds (f a)) l.
Proof.
  induction l as [|a l IH]; [reflexivity|].
  cbn [mapM forallb]. destruct (f a); [|reflexivity].
  cbn [bind succeeds andb]. rewrite <- IH.
  now destruct (mapM f l).
Qed.

Lemma forallb_eq {A} (f g : A -> bool) (l : list A) :
  (forall a, f a = g a) -> forallb f l = forallb g l.
Proof.
  intros H. induction l as [|a l IH]; [reflexivity|].
  cbn [forallb]. now rewrite H, IH.
Qed.

Lemma succeeds_int_chr seg :
  succeeds (n <- Py.int seg ;; Py.chr n) = int_octet seg.
Proof.
  unfold int_octet. destruct (Py.int seg) as [n|]; [|reflexivity].
  cbn [bind]. unfold Py.chr, octet.
  replace (n <? 256) with (n <=? 255)
    by (destruct (Z.leb_spec n 255), (Z.ltb_spec n 256); lia || reflexivity).
  now destruct ((0 <=? n) && (n <=? 255)).
Qed.

(** [_valid_ipv4] accepts exactly four segments that [int] reads as bytes. *)
Lemma valid_ipv4_spec ip :
  succeeds (_valid_ipv4 ip)
  = (Py.len (Py.split ip ".") =? 4) && forallb int_octet (Py.split ip ".").
Proof.
  unfold _valid_ipv4.
  destruct (Py.len (Py.split ip ".") =? 4); [|reflexivity].
  cbn [negb andb].
  transitivity (succeeds (mapM (fun i => n <- Py.int i ;; Py.chr n)
                               (Py.split ip "."))).
  - now destruct (mapM _ (Py.split ip ".")).
  - rewrite succeeds_mapM. apply forallb_eq. intros. apply succeeds_int_chr.
Qed.

Lemma int_octet_decimal d :
  decimal d = true -> int_octet d = octet (Py.dec_val d).
Proof.
  intros H. unfold int_octet.
  now rewrite int_digits by (apply decimal_nonempty || apply decimal_digits; assumption).
Qed.

Lemma is_valid_ip_colon ip :
  Py.find ip ":" >= 0 -> is_valid_ip ip = succeeds (to_bitfield_ipv6 ip).
Proof.
  intros H. unfold is_valid_ip, is_ipv4.
  destruct ip as [|c ip]; [vm_compute in H; congruence|].
  now replace (Py.find (c :: ip) ":" <? 0) with false
    by (symmetry; apply Z.ltb_ge; lia).
Qed.

Lemma is_valid_ip_no_colon ip :
  Py.find ip ":" < 0 ->
  is_valid_ip ip
  = negb (Py.str_eqb ip "")
    && ((Py.len (Py.split ip ".") =? 4) && forallb int_octet (Py.split ip ".")).
Proof.
  intros H. unfold is_valid_ip, is_ipv4.
  destruct ip as [|c ip]; [reflexivity|].
  replace (Py.find (c :: ip) ":" <? 0) with true
    by (symmetry; apply Z.ltb_lt; lia).
  apply valid_ipv4_spec.
Qed.

Lemma dotted_no_colon d1 d2 d3 d4 :
  decimal d1 = true -> decimal d2 = true ->
  decimal d3 = true -> decimal d4 = true ->
  has ":" (dotted d1 d2 d3 d4) = false.
Proof.
  intros H1 H2 H3 H4. rewrite has_dotted.
  rewrite !digits_have_not by (reflexivity || now apply decimal_digits).
  reflexivity.
Qed.

Lemma is_valid_ip_dotted d1 d2 d3 d4 :
  decimal d1 = true -> decimal d2 = true ->
  decimal d3 = true -> decimal d4 = true ->
  is_valid_ip (dotted d1 d2 d3 d4)
  = succeeds (to_bitfield_ipv4 (dotted d1 d2 d3 d4)).
Proof.
  intros H1 H2 H3 H4.
  rewrite is_valid_ip_no_colon
    by (rewrite find_absent; [lia | now apply dotted_no_colon]).
  rewrite to_bitfield_ipv4_dotted, split_dotted by assumption.
  replace (Py.str_eqb (dotted d1 d2 d3 d4) "") with false.
  2:{ destruct (decimal_head d1 H1) as (d & ds & -> & _). reflexivity. }
  cbn [forallb]. rewrite !int_octet_decimal by assumption.
  cbn [negb andb Py.len length Z.of_nat Z.eqb Pos.of_succ_nat Pos.succ Pos.eqb].
  now destruct (octet (Py.dec_val d1) && _).
Qed.

End Validity.

(** C5, the claim as stated fails for texts without a colon, both ways:
    127.1 is encoded by [to_bitfield_ipv4] and is not valid for
    [is_valid_ip], which wants four segments; 1.2.3.08 is valid for
    [is_valid_ip], whose [int] reads 08 as 8, and is refused by the
    encoder, where a leading 0 announces an octal number. *)
Lemma is_valid_ip_differs_from_encoder :
  Py.find "127.1" ":" < 0 /\
  is_valid_ip "127.1" = false /\ succeeds (to_bitfield_ipv4 "127.1") = true /\
  Py.find "1.2.3.08" ":" < 0 /\
  is_valid_ip "1.2.3.08" = true /\ succeeds (to_bitfield_ipv4 "1.2.3.08") = false.
Proof. repeat split; vm_compute; reflexivity. Qed.

(** C5, amended.  For a text with a colon, [is_valid_ip] is true exactly
    when [to_bitfield_ipv6] succeeds.  For a text without a colon the
    encoder is not asked: [is_valid_ip] is true exactly when the text is
    not empty and splits at the dots into four segments that [int] reads as
    numbers in 0-255.  On four dot-separated decimal numbers without
    leading zeros this is the same as [to_bitfield_ipv4] succeeding. *)
Theorem is_valid_ip_spec (ip d1 d2 d3 d4 : str) :
  decimal d1 = true -> decimal d2 = true ->
  decimal d3 = true -> decimal d4 = true ->
  (Py.find ip ":" >= 0 -> is_valid_ip ip = succeeds (to_bitfield_ipv6 ip))
  /\ (Py.find ip ":" < 0 ->
      is_valid_ip ip
      = negb (Py.str_eqb ip "")
        && ((Py.len (Py.split ip ".") =? 4)
            && forallb int_octet (Py.split ip ".")))
  /\ is_valid_ip (dotted d1 d2 d3 d4)
     = succeeds (to_bitfield_ipv4 (dotted d1 d2 d3 d4)).
Proof.
  intros H1 H2 H3 H4. split; [|split].
  - apply is_valid_ip_colon.
  - apply is_valid_ip_no_colon.
  - now apply is_valid_ip_dotted.
Qed.

Lemma is_valid_ip_spec_witness :
  is_valid_ip "fe80::1" = true /\ is_valid_ip "10.0.0.1" = true.
Proof.
  pose proof (is_valid_ip_spec "fe80::1" "10" "0" "0" "1"
                eq_refl eq_refl eq_refl eq_refl) as (Hcolon & _ & Hquad).
  split.
  - rewrite Hcolon; [reflexivity | vm_compute; discriminate].
  - exact Hquad.
Defined.

(** ** Slices at a known place *)

Section Slices.

Lemma slice_to_app (a b : str) (n : Z) :
  n = Py.len a -> Py.slice_to (a ++ b) n = a.
Proof.
  intros ->. unfold Py.len. rewrite slice_to_nonneg by lia.
  rewrite Nat2Z.id, firstn_app, Nat.sub_diag, firstn_all. cbn [firstn].
  apply app_nil_r.
Qed.

Lemma slice_from_app (a b : str) (n : Z) :
  n = Py.len a -> Py.slice_from (a ++ b) n = b.
Proof.
  intros ->. unfold Py.len. rewrite slice_from_nonneg by lia.
  rewrite Nat2Z.id, skipn_app, Nat.sub_diag, skipn_all. reflexivity.
Qed.

(** [s[-n:]] of a string that ends with [n] known characters *)
Lemma slice_from_end (a b : str) (n : Z) :
  n = Py.len b -> 0 < n -> Py.slice_from (a ++ b) (- n) = b.
Proof.
  intros -> Hpos. unfold Py.slice_from, Py.clamp, Py.len in *.
  replace (- Z.of_nat (length b) <? 0) with true
    by (symmetry; apply Z.ltb_lt; lia).
  rewrite length_app.
  replace (Z.to_nat (Z.max (- Z.of_nat (length b) + Z.of_nat (length a + length b)) 0))
    with (length a) by lia.
  rewrite skipn_app, Nat.sub_diag, skipn_all. reflexivity.
Qed.

Lemma startswith_app (p s : str) : Py.startswith (p ++ s) p = true.
Proof.
  induction p as [|x p IH]; [reflexivity|].
  cbn [app Py.startswith]. now rewrite Ascii.eqb_refl.
Qed.

End Slices.

(** ** IPv4-mapped texts and the way back to dotted decimal *)

Section Mapped.

(** A leading [::] loses its first colon. *)
Lemma ipv6_boundary_leading (rest : str) :
  rest <> [] -> ipv6_boundary ("::" ++ rest) = Ok (":" ++ rest).
Proof.
  intros Hne. destruct rest as [|c rest]; [congruence|].
  unfold ipv6_boundary.
  rewrite slice_to_nonneg, slice_from_nonneg by lia.
  reflexivity.
Qed.

(** The step of the loop of [to_bitfield_ipv6] on a dotted segment *)
Lemma ipv6_segment_dotted (b : str) (dc : bool) (n b32 : str) :
  has "." n = true -> to_bitfield_ipv4 n = Ok b32 ->
  ipv6_segment (b, dc) n = Ok (b ++ b32, dc).
Proof.
  intros Hdot Hb. unfold ipv6_segment.
  destruct n as [|c n]; [discriminate|].
  cbn [Py.str_eqb list_ascii_of_string].
  replace (Py.find (c :: n) "." >=? 0) with true
    by (symmetry; rewrite Z.geb_leb; apply Z.leb_le; now apply find_present).
  rewrite Hb. cbn [bind].
  apply to_bitfield_ipv4_length in Hb.
  unfold Py.len. rewrite Hb. cbn [Py.times Z.of_nat Z.sub Z.to_nat repeat].
  change (Py.times "0" (32 - Z.of_nat 32)) with (@nil ascii).
  now rewrite app_nil_r.
Qed.

(** [::ffff:] before an IPv4 text gives the marker and the 32 bits. *)
Lemma to_bitfield_ipv6_mapped (a b32 : str) :
  has ":" a = false -> has "." a = true ->
  to_bitfield_ipv4 a = Ok b32 ->
  to_bitfield_ipv6 ("::ffff:" ++ a) = Ok (ipv4addrmask ++ b32).
Proof.
  intros Hcolon Hdot Hb. unfold to_bitfield_ipv6.
  change ("::ffff:" ++ a) with ("::" ++ ("ffff:" ++ a)).
  rewrite ipv6_boundary_leading by discriminate. cbn [bind].
  change (":" ++ "ffff:" ++ a) with ([] ++ ":"%char :: ("ffff" ++ ":"%char :: a)).
  rewrite (split_app [] _ ":") by reflexivity.
  rewrite (split_app "ffff" a ":") by reflexivity.
  rewrite (split_none a ":" Hcolon).
  cbn [foldM].
  change (ipv6_segment (list_ascii_of_string "", false) [])
    with (Ok (list_ascii_of_string ":", true)).
  cbn [bind].
  change (ipv6_segment (list_ascii_of_string ":", true) "ffff")
    with (Ok (list_ascii_of_string ":1111111111111111", true)).
  cbn [bind].
  rewrite (ipv6_segment_dotted _ _ a b32 Hdot Hb). cbn [bind].
  apply to_bitfield_ipv4_length in Hb.
  do 32 (destruct b32 as [|? b32]; [discriminate|]).
  destruct b32; [|discriminate].
  vm_compute. reflexivity.
Qed.

(** One turn of the loop of [ipv6_to_ipv4] on the bits of an octet *)
Lemma ipv6_to_ipv4_step_octet (x rest : str) (v i : Z) :
  octet v = true ->
  ipv6_to_ipv4_step (x, bits8 v ++ rest) i
  = Ok (if i <? 3 then (x ++ Py.str_of_int v) ++ "." else x ++ Py.str_of_int v,
        rest).
Proof.
  intros Hv. unfold ipv6_to_ipv4_step.
  assert (Hlen : 8 = Py.len (bits8 v))
    by (unfold Py.len, bits8; now rewrite int_to_bitstring_length).
  rewrite (slice_to_app _ _ 8 Hlen), (slice_from_app _ _ 8 Hlen).
  rewrite (int2_bits8 v Hv). reflexivity.
Qed.

(** The loop of [ipv6_to_ipv4] writes the four octets in decimal. *)
Lemma dotted_of_bits_octets (o1 o2 o3 o4 : Z) :
  octet o1 = true -> octet o2 = true -> octet o3 = true -> octet o4 = true ->
  dotted_of_bits (bits8 o1 ++ bits8 o2 ++ bits8 o3 ++ bits8 o4)
  = Ok (dotted (Py.str_of_int o1) (Py.str_of_int o2)
               (Py.str_of_int o3) (Py.str_of_int o4)).
Proof.
  intros H1 H2 H3 H4. unfold dotted_of_bits.
  change (xrange 4) with [0; 1; 2; 3]. cbn [foldM].
  rewrite (ipv6_to_ipv4_step_octet _ _ o1 0 H1). cbn [bind].
  rewrite (ipv6_to_ipv4_step_octet _ _ o2 1 H2). cbn [bind].
  rewrite (ipv6_to_ipv4_step_octet _ _ o3 2 H3). cbn [bind].
  rewrite <- (app_nil_r (bits8 o4)).
  rewrite (ipv6_to_ipv4_step_octet _ _ o4 3 H4). cbn [bind fst].
  f_equal. unfold dotted.
  change (0 <? 3) with true. change (1 <? 3) with true.
  change (2 <? 3) with true. change (3 <? 3) with false.
  cbv iota. cbn [list_ascii_of_string app].
  now rewrite <- !app_assoc.
Qed.

End Mapped.

(** C8.  For every canonical dotted quad [a] (four octets 0-255 in decimal
    without leading zeros), the encoding of [a] decodes to [a] again, and
    [ipv6_to_ipv4] of the IPv4-mapped text [::ffff:a] gives back exactly
    [a]. *)
Theorem ipv4_round_trip (o1 o2 o3 o4 : Z) :
  octet o1 = true -> octet o2 = true -> octet o3 = true -> octet o4 = true ->
  let a := dotted (Py.str_of_int o1) (Py.str_of_int o2)
                  (Py.str_of_int o3) (Py.str_of_int o4) in
  exists b,
    to_bitfield_ipv4 a = Ok b /\
    dotted_of_bits b = Ok a /\
    ipv6_to_ipv4 ("::ffff:" ++ a) = Ok a.
Proof.
  intros H1 H2 H3 H4 a.
  destruct (str_of_int_octet o1 H1) as [D1 V1].
  destruct (str_of_int_octet o2 H2) as [D2 V2].
  destruct (str_of_int_octet o3 H3) as [D3 V3].
  destruct (str_of_int_octet o4 H4) as [D4 V4].
  exists (bits8 o1 ++ bits8 o2 ++ bits8 o3 ++ bits8 o4).
  assert (Hb : to_bitfield_ipv4 a
               = Ok (bits8 o1 ++ bits8 o2 ++ bits8 o3 ++ bits8 o4)).
  { unfold a. rewrite to_bitfield_ipv4_dotted by assumption.
    rewrite V1, V2, V3, V4. cbn [forallb]. now rewrite H1, H2, H3, H4. }
  split; [exact Hb|].
  split; [now apply dotted_of_bits_octets|].
  unfold ipv6_to_ipv4.
  rewrite (to_bitfield_ipv6_mapped a (bits8 o1 ++ bits8 o2 ++ bits8 o3 ++ bits8 o4)
             (dotted_no_colon _ _ _ _ D1 D2 D3 D4)).
  - cbn [bind]. rewrite startswith_app. cbn [negb].
    rewrite (slice_from_end ipv4addrmask _ 32).
    + now apply dotted_of_bits_octets.
    + apply to_bitfield_ipv4_length in Hb. unfold Py.len. now rewrite Hb.
    + lia.
  - unfold a. rewrite has_dotted. cbn. now rewrite !orb_true_r.
  - exact Hb.
Qed.

Lemma ipv4_round_trip_witness :
  exists b,
    to_bitfield_ipv4 "192.168.1.20" = Ok b /\
    dotted_of_bits b = Ok (list_ascii_of_string "192.168.1.20") /\
    ipv6_to_ipv4 "::ffff:192.168.1.20" = Ok (list_ascii_of_string "192.168.1.20").
Proof.
  exact (ipv4_round_trip 192 168 1 20 eq_refl eq_refl eq_refl eq_refl).
Defined.

(** ** Nibbles and hextets *)

Section Hextets.

Lemma int_to_bitstring_S (x : Z) (n : nat) :
  _int_to_bitstring x (S n)
  = Py.str_of_int (Z.land (Z.shiftr x (Z.of_nat n)) 1) ++ _int_to_bitstring x n.
Proof.
  unfold _int_to_bitstring, xrange_down, xrange.
  rewrite seq_S, map_app, rev_app_distr. reflexivity.
Qed.

Lemma bit_div (y i : Z) : 0 <= i -> Z.land (Z.shiftr y i) 1 = (y / 2 ^ i) mod 2.
Proof.
  intros Hi. rewrite Z.shiftr_div_pow2 by assumption.
  change 1 with (Z.ones 1). now rewrite Z.land_ones by lia.
Qed.

(** The low four bits of [16 * x + v] are those of [v]. *)
Lemma int_to_bitstring_low4 (x v : Z) :
  0 <= x -> 0 <= v < 16 ->
  _int_to_bitstring (16 * x + v) 4 = _int_to_bitstring v 4.
Proof.
  intros Hx Hv. rewrite !int_to_bitstring_S.
  cbn [Z.of_nat Pos.of_succ_nat Pos.succ].
  rewrite !bit_div by lia.
  change (2 ^ 3) with 8. change (2 ^ 2) with 4.
  change (2 ^ 1) with 2. change (2 ^ 0) with 1.
  replace (((16 * x + v) / 8) mod 2) with ((v / 8) mod 2)
    by (Z.div_mod_to_equations; lia).
  replace (((16 * x + v) / 4) mod 2) with ((v / 4) mod 2)
    by (Z.div_mod_to_equations; lia).
  replace (((16 * x + v) / 2) mod 2) with ((v / 2) mod 2)
    by (Z.div_mod_to_equations; lia).
  replace (((16 * x + v) / 1) mod 2) with ((v / 1) mod 2)
    by (Z.div_mod_to_equations; lia).
  reflexivity.
Qed.

(** Four more bits to the right: the bits of [x], then those of [v]. *)
Lemma int_to_bitstring_nibble (x v : Z) (n : nat) :
  0 <= x -> 0 <= v < 16 ->
  _int_to_bitstring (16 * x + v) (n + 4)
  = _int_to_bitstring x n ++ _int_to_bitstring v 4.
Proof.
  intros Hx Hv. induction n as [|n IH].
  - now apply int_to_bitstring_low4.
  - change (S n + 4)%nat with (S (n + 4)).
    rewrite (int_to_bitstring_S x n), (int_to_bitstring_S _ (n + 4)), IH.
    rewrite <- app_assoc. f_equal. f_equal.
    rewrite !bit_div by lia.
    replace (Z.of_nat (n + 4)) with (4 + Z.of_nat n) by lia.
    rewrite Z.pow_add_r by lia. change (2 ^ 4) with 16.
    rewrite <- Z.div_div by lia.
    replace ((16 * x + v) / 16) with x by (Z.div_mod_to_equations; lia).
    reflexivity.
Qed.

Lemma bits16_nibbles (v1 v2 v3 v4 V : Z) :
  0 <= v1 < 16 -> 0 <= v2 < 16 -> 0 <= v3 < 16 -> 0 <= v4 < 16 ->
  V = 16 * (16 * (16 * v1 + v2) + v3) + v4 ->
  bits16 V = _int_to_bitstring v1 4 ++ _int_to_bitstring v2 4
             ++ _int_to_bitstring v3 4 ++ _int_to_bitstring v4 4.
Proof.
  intros H1 H2 H3 H4 ->. unfold bits16.
  rewrite (int_to_bitstring_nibble _ v4 12) by lia.
  rewrite (int_to_bitstring_nibble _ v3 8) by lia.
  rewrite (int_to_bitstring_nibble _ v2 4) by lia.
  now rewrite <- !app_assoc.
Qed.

Lemma hex_val_range c : ishex c = true -> 0 <= hex_val c < 16.
Proof.
  unfold ishex, hex_val, Py.isdigit, Py.digit_val, ord.
  destruct (N.leb 48 (N_of_ascii c) && N.leb (N_of_ascii c) 57)%bool eqn:E.
  - apply andb_true_iff in E as [E1 E2]. apply N.leb_le in E1, E2. lia.
  - cbn [orb]. intros H. apply andb_true_iff in H as [H1 H2].
    apply N.leb_le in H1, H2. lia.
Qed.

(** The sixteen digits of [hexbinmap], one by one *)
Lemma getitem_hex c :
  ishex c = true -> getitem hexbinmap c = Ok (_int_to_bitstring (hex_val c) 4).
Proof.
  intros H.
  destruct c as [[] [] [] [] [] [] [] []];
    try (vm_compute in H; discriminate H); vm_compute; reflexivity.
Qed.

Lemma getitem_x : getitem hexbinmap "x" = Ok (_int_to_bitstring 0 4).
Proof. reflexivity. Qed.

Lemma ishex_not_dot c : ishex c = true -> Ascii.eqb c "." = false.
Proof. intros H. char_differs. Qed.

Lemma ishex_not_colon c : ishex c = true -> Ascii.eqb c ":" = false.
Proof. intros H. char_differs. Qed.

Lemma hextet_has_not c h :
  forallb ishex h = true -> ishex c = false -> has c h = false.
Proof.
  intros Hh Hc. induction h as [|d h IH]; [reflexivity|].
  cbn [forallb] in Hh. apply andb_true_iff in Hh as [Hd Hh].
  cbn [has existsb]. fold (has c h). rewrite (IH Hh).
  destruct (Ascii.eqb_spec d c) as [->|]; [congruence | reflexivity].
Qed.

(** The step of the loop of [to_bitfield_ipv6] on a hextet: sixteen bits,
    those of its value. *)
Lemma ipv6_segment_hextet (b : str) (dc : bool) (h : str) :
  hextet h = true ->
  ipv6_segment (b, dc) h = Ok (b ++ bits16 (hextet_val h), dc).
Proof.
  unfold hextet. intros H.
  apply andb_true_iff in H as [H Hhex]. apply andb_true_iff in H as [Hlo Hhi].
  assert (Hdot : (Py.find h "." >=? 0) = false).
  { rewrite find_absent; [reflexivity|]. now apply hextet_has_not. }
  unfold ipv6_segment. rewrite Hdot.
  destruct h as [|c1 [|c2 [|c3 [|c4 [|c5 h]]]]]; try discriminate;
    cbn [forallb] in Hhex;
    repeat (apply andb_true_iff in Hhex as [?Hc Hhex]);
    cbn [Py.str_eqb list_ascii_of_string andb];
    try rewrite (ishex_not_colon _ Hc) in *.
  all: repeat match goal with
         | H : ishex ?c = true |- _ =>
             pose proof (hex_val_range c H); revert H
         end; intros.
  - change (Py.times "x" (4 - Py.len [c1]) ++ [c1])
      with ["x"%char; "x"%char; "x"%char; c1].
    cbn [mapM]. rewrite !getitem_x, !getitem_hex by assumption. cbn [bind].
    do 3 f_equal. cbn [Py.join concat]. rewrite app_nil_r. symmetry.
    unfold hextet_val. cbn [fold_left].
    apply (bits16_nibbles 0 0 0 (hex_val c1)); lia.
  - change (Py.times "x" (4 - Py.len [c1; c2]) ++ [c1; c2])
      with ["x"%char; "x"%char; c1; c2].
    cbn [mapM]. rewrite !getitem_x, !getitem_hex by assumption. cbn [bind].
    do 3 f_equal. cbn [Py.join concat]. rewrite app_nil_r. symmetry.
    unfold hextet_val. cbn [fold_left].
    apply (bits16_nibbles 0 0 (hex_val c1) (hex_val c2)); lia.
  - change (Py.times "x" (4 - Py.len [c1; c2; c3]) ++ [c1; c2; c3])
      with ["x"%char; c1; c2; c3].
    cbn [mapM]. rewrite !getitem_x, !getitem_hex by assumption. cbn [bind].
    do 3 f_equal. cbn [Py.join concat]. rewrite app_nil_r. symmetry.
    unfold hextet_val. cbn [fold_left].
    apply (bits16_nibbles 0 (hex_val c1) (hex_val c2) (hex_val c3)); lia.
  - change (Py.times "x" (4 - Py.len [c1; c2; c3; c4]) ++ [c1; c2; c3; c4])
      with [c1; c2; c3; c4].
    cbn [mapM]. rewrite !getitem_hex by assumption. cbn [bind].
    do 3 f_equal. cbn [Py.join concat]. rewrite app_nil_r. symmetry.
    unfold hextet_val. cbn [fold_left].
    apply (bits16_nibbles (hex_val c1) (hex_val c2) (hex_val c3) (hex_val c4));
      lia.
Qed.

End Hextets.

(** ** Texts of IPv6 addresses *)

Section IPv6Texts.

Lemma hextet_inv h :
  hextet h = true ->
  forallb ishex h = true /\
  exists c s, h = c :: s /\ ishex c = true.
Proof.
  unfold hextet. intros H.
  apply andb_true_iff in H as [H Hhex]. apply andb_true_iff in H as [Hlo _].
  split; [assumption|].
  destruct h as [|c s]; [discriminate|]. exists c, s. split; [reflexivity|].
  cbn [forallb] in Hhex. now apply andb_true_iff in Hhex as [Hc _].
Qed.

Lemma hextet_no_colon h : hextet h = true -> has ":" h = false.
Proof.
  intros H. destruct (hextet_inv h H) as [Hhex _].
  now apply hextet_has_not.
Qed.

Lemma hextet_plain h : hextet h = true -> plain h = true.
Proof.
  intros H. destruct (hextet_inv h H) as (Hhex & c & s & -> & _).
  unfold plain. rewrite !hextet_has_not by (assumption || reflexivity).
  reflexivity.
Qed.

Lemma hextets_plain hs : forallb hextet hs = true -> forallb plain hs = true.
Proof.
  rewrite !forallb_forall. intros H h Hh. apply hextet_plain. now apply H.
Qed.


Lemma segment_inv h :
  segment h = true -> has ":" h = false /\ exists c s, h = c :: s.
Proof.
  unfold segment. intros H. apply andb_true_iff in H as [Hne Hcolon].
  apply negb_true_iff in Hcolon. split; [assumption|].
  destruct h as [|c s]; [discriminate|]. now exists c, s.
Qed.

Lemma plain_segment h : plain h = true -> segment h = true.
Proof.
  unfold plain, segment. intros H.
  apply andb_true_iff in H as [H _]. exact H.
Qed.

Lemma plains_segments hs : forallb plain hs = true -> forallb segment hs = true.
Proof.
  rewrite !forallb_forall. intros H h Hh. apply plain_segment. now apply H.
Qed.

Lemma has_false_eqb c x s : has c (x :: s) = false -> Ascii.eqb x c = false.
Proof. cbn [has existsb]. intros H. now apply orb_false_iff in H as [H _]. Qed.

Lemma has_false_In c s x : has c s = false -> In x s -> Ascii.eqb x c = false.
Proof.
  unfold has. intros H Hx.
  destruct (Ascii.eqb x c) eqn:E; [|reflexivity].
  assert (existsb (fun y => Ascii.eqb y c) s = true)
    by (apply existsb_exists; now exists x).
  congruence.
Qed.

Lemma colon_join_cons h hs :
  hs <> [] -> colon_join (h :: hs) = h ++ ":" ++ colon_join hs.
Proof. destruct hs; [congruence | reflexivity]. Qed.

(** Splitting a joined list of hextets gives the hextets back. *)
Lemma split_colon_join hs :
  hs <> [] -> forallb segment hs = true ->
  Py.split (colon_join hs) ":" = hs.
Proof.
  induction hs as [|h hs IH]; [congruence|]. intros _ H.
  cbn [forallb] in H. apply andb_true_iff in H as [Hh Hhs].
  destruct hs as [|h' hs].
  - cbn [colon_join]. apply split_none. now apply segment_inv.
  - rewrite colon_join_cons by discriminate.
    change (list_ascii_of_string ":") with [":"%char]. cbn [app].
    rewrite split_app by now apply segment_inv.
    f_equal. apply IH; [discriminate | assumption].
Qed.

Lemma split_colon_join_app hs rest :
  hs <> [] -> forallb segment hs = true ->
  Py.split (colon_join hs ++ ":" ++ rest) ":" = hs ++ Py.split rest ":".
Proof.
  induction hs as [|h hs IH]; [congruence|]. intros _ H.
  cbn [forallb] in H. apply andb_true_iff in H as [Hh Hhs].
  change (list_ascii_of_string ":") with [":"%char]. cbn [app].
  destruct hs as [|h' hs].
  - cbn [colon_join app]. now rewrite split_app by now apply segment_inv.
  - rewrite colon_join_cons by discriminate.
    change (list_ascii_of_string ":") with [":"%char]. cbn [app].
    rewrite <- app_assoc. cbn [app].
    rewrite split_app by now apply segment_inv.
    f_equal. apply (IH ltac:(discriminate) Hhs).
Qed.

(** A joined list of hextets starts and ends with a hexadecimal digit. *)
Lemma colon_join_head hs :
  hs <> [] -> forallb segment hs = true ->
  exists c s, colon_join hs = c :: s /\ Ascii.eqb c ":" = false.
Proof.
  destruct hs as [|h hs]; [congruence|]. intros _ H.
  cbn [forallb] in H. apply andb_true_iff in H as [Hh _].
  destruct (segment_inv h Hh) as (Hcolon & c & s & ->).
  apply has_false_eqb in Hcolon.
  destruct hs as [|h' hs].
  - exists c, s. now split.
  - rewrite colon_join_cons by discriminate.
    exists c, (s ++ ":" ++ colon_join (h' :: hs)). now split.
Qed.

Lemma segment_last h :
  segment h = true -> exists s c, h = s ++ [c] /\ Ascii.eqb c ":" = false.
Proof.
  intros H. destruct (segment_inv h H) as (Hcolon & c0 & s0 & Hh).
  assert (Hne : h <> []) by (rewrite Hh; discriminate).
  destruct (exists_last Hne) as (s & c & E).
  exists s, c. split; [assumption|].
  apply (has_false_In ":" h c Hcolon).
  rewrite E. apply in_or_app. right. simpl. auto.
Qed.

Lemma colon_join_last hs :
  hs <> [] -> forallb segment hs = true ->
  exists s c, colon_join hs = s ++ [c] /\ Ascii.eqb c ":" = false.
Proof.
  induction hs as [|h hs IH]; [congruence|]. intros _ H.
  cbn [forallb] in H. apply andb_true_iff in H as [Hh Hhs].
  destruct hs as [|h' hs].
  - cbn [colon_join]. now apply segment_last.
  - destruct (IH ltac:(discriminate) Hhs) as (s & c & E & Hc).
    rewrite colon_join_cons by discriminate. rewrite E.
    exists (h ++ ":" ++ s), c. split; [|assumption].
    now rewrite <- !app_assoc.
Qed.

Lemma slice_from_neg (s : str) (k : nat) :
  (0 < k)%nat -> Py.slice_from s (- Z.of_nat k) = skipn (length s - k) s.
Proof.
  intros Hk. unfold Py.slice_from, Py.clamp, Py.len.
  replace (- Z.of_nat k <? 0) with true by (symmetry; apply Z.ltb_lt; lia).
  f_equal. lia.
Qed.

Lemma slice_to_neg (s : str) (k : nat) :
  (0 < k)%nat -> Py.slice_to s (- Z.of_nat k) = firstn (length s - k) s.
Proof.
  intros Hk. unfold Py.slice_to, Py.clamp, Py.len.
  replace (- Z.of_nat k <? 0) with true by (symmetry; apply Z.ltb_lt; lia).
  f_equal. lia.
Qed.

(** The last one or two characters of a text that ends with [c] *)
Lemma slice_from_last1 (s : str) (c : ascii) :
  Py.slice_from (s ++ [c]) (-1) = [c].
Proof.
  rewrite (slice_from_neg _ 1) by lia. rewrite length_app. cbn [length].
  replace (length s + 1 - 1)%nat with (length s) by lia.
  now rewrite skipn_app, Nat.sub_diag, skipn_all.
Qed.

Lemma slice_from_last2 (s : str) (c : ascii) :
  exists t, Py.slice_from (s ++ [c]) (-2) = t ++ [c] /\ (length t <= 1)%nat.
Proof.
  rewrite (slice_from_neg _ 2) by lia. rewrite length_app. cbn [length].
  destruct s as [|x0 s0] eqn:Es.
  - exists []. split; [reflexivity | simpl; lia].
  - assert (Hne : s <> []) by (rewrite Es; discriminate).
    rewrite <- Es. destruct (exists_last Hne) as (s' & x & ->).
    exists [x]. split; [|simpl; lia].
    rewrite length_app. cbn [length].
    replace (length s' + 1 + 1 - 2)%nat with (length s') by lia.
    rewrite <- app_assoc.
    now rewrite skipn_app, Nat.sub_diag, skipn_all.
Qed.

Lemma slice_to_last1 (s : str) (c : ascii) :
  Py.slice_to (s ++ [c]) (-1) = s.
Proof.
  rewrite (slice_to_neg _ 1) by lia. rewrite length_app. cbn [length].
  replace (length s + 1 - 1)%nat with (length s) by lia.
  rewrite firstn_app, Nat.sub_diag, firstn_all. cbn [firstn]. apply app_nil_r.
Qed.

(** A text that begins and ends with something other than a colon passes
    the boundary handling unchanged. *)
Lemma ipv6_boundary_plain (ip : str) :
  (exists c s, ip = c :: s /\ Ascii.eqb c ":" = false) ->
  (exists s c, ip = s ++ [c] /\ Ascii.eqb c ":" = false) ->
  ipv6_boundary ip = Ok ip.
Proof.
  intros (c & s & Hhead & Hc) (s' & c' & Hlast & Hc').
  unfold ipv6_boundary.
  assert (E1 : Py.str_eqb ip "" = false) by (rewrite Hhead; reflexivity).
  assert (E2 : Py.str_eqb ip "::" = false)
    by (rewrite Hhead; cbn [Py.str_eqb list_ascii_of_string]; now rewrite Hc).
  assert (E3 : Py.str_eqb (Py.slice_to ip 2) "::" = false).
  { rewrite slice_to_nonneg by lia. rewrite Hhead.
    change (Z.to_nat 2) with 2%nat.
    cbn [firstn Py.str_eqb list_ascii_of_string]. now rewrite Hc. }
  assert (E4 : Py.str_eqb (Py.slice_to ip 1) ":" = false).
  { rewrite slice_to_nonneg by lia. rewrite Hhead.
    change (Z.to_nat 1) with 1%nat.
    cbn [firstn Py.str_eqb list_ascii_of_string]. now rewrite Hc. }
  assert (E5 : Py.str_eqb (Py.slice_from ip (-2)) "::" = false).
  { rewrite Hlast. destruct (slice_from_last2 s' c') as (t & -> & Ht).
    destruct t as [|x [|y t]]; cbn [length] in Ht; try lia;
      cbn [app Py.str_eqb list_ascii_of_string]; rewrite Hc';
      now rewrite ?andb_false_r. }
  assert (E6 : Py.str_eqb (Py.slice_from ip (-1)) ":" = false).
  { rewrite Hlast, slice_from_last1.
    cbn [Py.str_eqb list_ascii_of_string]. now rewrite Hc'. }
  now rewrite E1, E2, E3, E4, E5, E6.
Qed.

(** A trailing [::] loses its last colon. *)
Lemma ipv6_boundary_trailing (q : str) :
  (exists c s, q = c :: s /\ Ascii.eqb c ":" = false) ->
  ipv6_boundary (q ++ "::") = Ok (q ++ ":").
Proof.
  intros (c & s & -> & Hc). unfold ipv6_boundary.
  assert (E2 : Py.str_eqb ((c :: s) ++ "::") "::" = false)
    by (cbn [app Py.str_eqb list_ascii_of_string]; now rewrite Hc).
  assert (E3 : Py.str_eqb (Py.slice_to ((c :: s) ++ "::") 2) "::" = false).
  { rewrite slice_to_nonneg by lia. change (Z.to_nat 2) with 2%nat.
    cbn [app firstn]. destruct (s ++ "::"); 
      cbn [firstn Py.str_eqb list_ascii_of_string]; now rewrite Hc. }
  assert (E4 : Py.str_eqb (Py.slice_to ((c :: s) ++ "::") 1) ":" = false).
  { rewrite slice_to_nonneg by lia. change (Z.to_nat 1) with 1%nat.
    cbn [app firstn Py.str_eqb list_ascii_of_string]. now rewrite Hc. }
  assert (E5 : Py.slice_from ((c :: s) ++ "::") (-2) = "::").
  { apply (slice_from_end (c :: s) "::" 2); [reflexivity | lia]. }
  assert (E6 : Py.slice_to ((c :: s) ++ "::") (-1) = (c :: s) ++ ":").
  { change (list_ascii_of_string "::") with ([":"%char] ++ [":"%char]).
    rewrite app_assoc. apply slice_to_last1. }
  cbn [app Py.str_eqb list_ascii_of_string] in *.
  rewrite E2, E3, E4, E5, E6. reflexivity.
Qed.

End IPv6Texts.

(** ** The encoder on well-formed IPv6 texts *)

Section EncodeIPv6.

Lemma foldM_app {A S} (f : S -> A -> result S) (l1 l2 : list A) (s : S) :
  foldM f (l1 ++ l2) s = (s' <- foldM f l1 s ;; foldM f l2 s').
Proof.
  revert s; induction l1 as [|a l1 IH]; intros s; [reflexivity|].
  cbn [app foldM]. destruct (f s a); [apply IH | reflexivity].
Qed.

Lemma foldM_hextets (hs : list str) (b : str) (dc : bool) :
  forallb hextet hs = true ->
  foldM ipv6_segment hs (b, dc)
  = Ok (b ++ Py.join (map bits16 (map hextet_val hs)), dc).
Proof.
  revert b; induction hs as [|h hs IH]; intros b H.
  - cbn [foldM map Py.join concat]. now rewrite app_nil_r.
  - cbn [forallb] in H. apply andb_true_iff in H as [Hh Hhs].
    cbn [foldM]. rewrite (ipv6_segment_hextet b dc h Hh). cbn [bind].
    rewrite (IH _ Hhs). cbn [map Py.join concat].
    now rewrite <- app_assoc.
Qed.

Lemma join_bits16_length (vs : list Z) :
  length (Py.join (map bits16 vs)) = (16 * length vs)%nat.
Proof.
  induction vs as [|v vs IH]; [reflexivity|].
  cbn [map Py.join concat length].
  fold (Py.join (map bits16 vs)).
  rewrite length_app, IH. unfold bits16.
  rewrite int_to_bitstring_length. lia.
Qed.

Lemma isbit_not_colon (s : str) : forallb Py.isbit s = true -> has ":" s = false.
Proof.
  induction s as [|c s IH]; [reflexivity|]. cbn [forallb has existsb].
  intros H. apply andb_true_iff in H as [Hc Hs]. fold (has ":" s).
  rewrite (IH Hs). assert (E : Ascii.eqb c ":" = false) by char_differs.
  now rewrite E.
Qed.

Lemma join_bits16_no_colon (vs : list Z) :
  has ":" (Py.join (map bits16 vs)) = false.
Proof.
  induction vs as [|v vs IH]; [reflexivity|].
  cbn [map Py.join concat]. fold (Py.join (map bits16 vs)).
  rewrite has_app, IH, orb_false_r.
  apply isbit_not_colon. apply int_to_bitstring_isbit.
Qed.

Lemma join_bits16_zeros (k : nat) :
  Py.join (map bits16 (repeat 0 k)) = repeat "0"%char (16 * k).
Proof.
  induction k as [|k IH]; [reflexivity|].
  cbn [repeat map Py.join concat]. fold (Py.join (map bits16 (repeat 0 k))).
  rewrite IH. replace (16 * S k)%nat with (16 + 16 * k)%nat by lia.
  now rewrite repeat_app.
Qed.

Lemma find_from_app (c : ascii) (a r : str) (i : Z) :
  has c a = false -> Py.find_from c (a ++ c :: r) i = i + Py.len a.
Proof.
  revert i; induction a as [|x a IH]; intros i H.
  - cbn [app Py.find_from]. rewrite Ascii.eqb_refl. unfold Py.len. simpl. lia.
  - cbn [has existsb] in H. apply orb_false_iff in H as [Hx Ha].
    cbn [app Py.find_from]. rewrite Hx, (IH _ Ha).
    unfold Py.len. cbn [length]. lia.
Qed.

(** The closing steps of [to_bitfield_ipv6] after a [::]: the colon mark
    gives way to the zero bits that fill the address to 128 bits. *)
Lemma expand_double_colon (b1 b2 : str) (k : nat) :
  has ":" b1 = false ->
  (length b1 + 16 * k + length b2 = 128)%nat ->
  (let b := (b1 ++ ":") ++ b2 in
   let pos := Py.find b ":" in
   let b' := Py.slice_to b pos ++ Py.times "0" (129 - Py.len b)
             ++ Py.slice_from b (pos + 1) in
   if negb (Py.len b' =? 128) then Raise ValueError else Ok b')
  = Ok (b1 ++ repeat "0"%char (16 * k) ++ b2).
Proof.
  intros Hb1 Hlen. cbv zeta.
  assert (Hpos : Py.find ((b1 ++ ":") ++ b2) ":" = Py.len b1).
  { unfold Py.find. rewrite <- app_assoc.
    change (list_ascii_of_string ":" ++ b2) with (":"%char :: b2).
    rewrite find_from_app by assumption. lia. }
  rewrite Hpos.
  assert (Hto : Py.slice_to ((b1 ++ ":") ++ b2) (Py.len b1) = b1)
    by (rewrite <- app_assoc; now apply slice_to_app).
  rewrite Hto.
  rewrite (slice_from_app (b1 ++ ":") b2)
    by (unfold Py.len; rewrite length_app; cbn [length list_ascii_of_string]; lia).
  replace (Py.times "0" (129 - Py.len ((b1 ++ ":") ++ b2)))
    with (repeat "0"%char (16 * k)).
  2:{ unfold Py.times, Py.len. f_equal. rewrite !length_app.
      cbn [length list_ascii_of_string]. lia. }
  replace (Py.len (b1 ++ repeat "0"%char (16 * k) ++ b2) =? 128) with true.
  - reflexivity.
  - symmetry. apply Z.eqb_eq. unfold Py.len.
    rewrite !length_app, repeat_length. lia.
Qed.

(** *** Texts of segments *)

(** A text of segments without [::] is encoded as the loop leaves it. *)
Lemma encode_full (segs : list str) (bits : str) :
  segs <> [] -> forallb segment segs = true ->
  foldM ipv6_segment segs ([], false) = Ok (bits, false) ->
  length bits = 128%nat ->
  to_bitfield_ipv6 (colon_join segs) = Ok bits.
Proof.
  intros Hne Hs Hf Hl. unfold to_bitfield_ipv6.
  rewrite ipv6_boundary_plain
    by (apply colon_join_head || apply colon_join_last; assumption).
  cbn [bind]. rewrite split_colon_join by assumption.
  change (list_ascii_of_string "") with (@nil ascii). rewrite Hf. cbn [bind].
  replace (Py.len bits =? 128) with true; [reflexivity|].
  symmetry. apply Z.eqb_eq. unfold Py.len. lia.
Qed.

(** The boundary handling and the split of a text with one [::] *)
Lemma split_elided (pre post : list str) :
  forallb segment pre = true -> forallb segment post = true ->
  exists t, ipv6_boundary (colon_join pre ++ "::" ++ colon_join post) = Ok t
            /\ Py.split t ":" = pre ++ [[]] ++ post.
Proof.
  intros Ppre Ppost.
  destruct pre as [|p pre'], post as [|q post'].
  - exists []. split; reflexivity.
  - exists (":" ++ colon_join (q :: post')). split.
    + apply (ipv6_boundary_leading (colon_join (q :: post'))).
      destruct (colon_join_head (q :: post') ltac:(discriminate) Ppost)
        as (c & s & -> & _). discriminate.
    + change (":" ++ colon_join (q :: post'))
        with ([] ++ ":"%char :: colon_join (q :: post')).
      rewrite split_app by reflexivity.
      now rewrite split_colon_join by (discriminate || assumption).
  - exists (colon_join (p :: pre') ++ ":"). split.
    + change (colon_join []) with (@nil ascii). rewrite app_nil_r.
      apply ipv6_boundary_trailing.
      now apply colon_join_head.
    + change (colon_join (p :: pre') ++ ":")
        with (colon_join (p :: pre') ++ ":" ++ []).
      now rewrite split_colon_join_app by (discriminate || assumption).
  - exists (colon_join (p :: pre') ++ "::" ++ colon_join (q :: post')). split.
    + apply ipv6_boundary_plain.
      * destruct (colon_join_head (p :: pre') ltac:(discriminate) Ppre)
          as (c & s & -> & Hc).
        exists c, (s ++ "::" ++ colon_join (q :: post')). now split.
      * destruct (colon_join_last (q :: post') ltac:(discriminate) Ppost)
          as (s & c & -> & Hc).
        exists (colon_join (p :: pre') ++ "::" ++ s), c.
        split; [now rewrite <- !app_assoc | assumption].
    + change ("::" ++ colon_join (q :: post'))
        with (":" ++ ([] ++ ":"%char :: colon_join (q :: post'))).
      rewrite split_colon_join_app by (discriminate || assumption).
      rewrite split_app by reflexivity.
      now rewrite split_colon_join by (discriminate || assumption).
Qed.

(** A text of segments around one [::] is encoded as what the loop writes
    before the mark, the zero fill, and what it writes after. *)
Lemma encode_elided (pre post : list str) (b1 b2 : str) (k : nat) :
  forallb segment pre = true -> forallb segment post = true ->
  foldM ipv6_segment pre ([], false) = Ok (b1, false) ->
  foldM ipv6_segment post (b1 ++ ":", true) = Ok ((b1 ++ ":") ++ b2, true) ->
  has ":" b1 = false ->
  (length b1 + 16 * k + length b2 = 128)%nat ->
  to_bitfield_ipv6 (colon_join pre ++ "::" ++ colon_join post)
  = Ok (b1 ++ repeat "0"%char (16 * k) ++ b2).
Proof.
  intros Ppre Ppost Hpre Hpost Hcolon Hlen.
  destruct (split_elided pre post Ppre Ppost) as (t & Hbound & Hsplit).
  unfold to_bitfield_ipv6. rewrite Hbound. cbn [bind]. rewrite Hsplit.
  change (list_ascii_of_string "") with (@nil ascii).
  rewrite foldM_app, Hpre. cbn [bind foldM app].
  change (ipv6_segment (b1, false) []) with (Ok (b1 ++ ":", true)).
  cbn [bind]. rewrite Hpost. cbn [bind].
  now apply expand_double_colon.
Qed.

(** *** The dotted tail *)

(** Two octets side by side are the sixteen bits of their joint value. *)
Lemma bits16_octets (o1 o2 : Z) :
  octet o1 = true -> octet o2 = true ->
  bits16 (256 * o1 + o2) = bits8 o1 ++ bits8 o2.
Proof.
  unfold octet. intros H1 H2.
  apply andb_true_iff in H1 as [L1 U1]. apply andb_true_iff in H2 as [L2 U2].
  apply Z.leb_le in L1, U1, L2, U2.
  assert (E2 : o2 = 16 * (o2 / 16) + o2 mod 16) by (apply Z.div_mod; lia).
  pose proof (Z.mod_pos_bound o2 16 ltac:(lia)) as Hd.
  assert (Hc : 0 <= o2 / 16) by (apply Z.div_pos; lia).
  unfold bits16, bits8.
  replace (256 * o1 + o2) with (16 * (16 * o1 + o2 / 16) + o2 mod 16) by lia.
  pose proof (int_to_bitstring_nibble (16 * o1 + o2 / 16) (o2 mod 16) 12
                ltac:(lia) Hd) as Hlow.
  pose proof (int_to_bitstring_nibble o1 (o2 / 16) 8 L1) as Hhigh.
  pose proof (int_to_bitstring_nibble (o2 / 16) (o2 mod 16) 4 Hc Hd) as Hoct.
  rewrite <- E2 in Hoct.
  change (12 + 4)%nat with 16%nat in Hlow.
  change (8 + 4)%nat with 12%nat in Hhigh.
  change (4 + 4)%nat with 8%nat in Hoct.
  rewrite Hlow, Hhigh, Hoct, <- app_assoc; [reflexivity|].
  assert (o2 / 16 < 16) by (apply Z.div_lt_upper_bound; lia). lia.
Qed.

Lemma quad_ok_inv (q : quad) :
  quad_ok q = true ->
  (decimal (q1 q) = true /\ decimal (q2 q) = true /\
   decimal (q3 q) = true /\ decimal (q4 q) = true) /\
  (octet (Py.dec_val (q1 q)) = true /\ octet (Py.dec_val (q2 q)) = true /\
   octet (Py.dec_val (q3 q)) = true /\ octet (Py.dec_val (q4 q)) = true).
Proof.
  unfold quad_ok. cbn [forallb]. intros H.
  repeat (apply andb_true_iff in H as [?H H]).
  repeat match goal with
         | H : (_ && _)%bool = true |- _ => apply andb_true_iff in H as [? ?]
         end.
  repeat split; assumption.
Qed.

Lemma quad_segment (q : quad) : quad_ok q = true -> segment (quad_text q) = true.
Proof.
  intros H. destruct (quad_ok_inv q H) as ((D1 & D2 & D3 & D4) & _).
  unfold segment, quad_text.
  rewrite (dotted_no_colon _ _ _ _ D1 D2 D3 D4).
  unfold dotted. now destruct (q1 q).
Qed.

(** The loop on the dotted tail *)
Lemma foldM_tail (t : option quad) (b : str) (dc : bool) :
  tail_ok t = true ->
  foldM ipv6_segment (tail_segs t) (b, dc)
  = Ok (b ++ Py.join (map bits16 (tail_vals t)), dc).
Proof.
  destruct t as [q|]; cbn [tail_ok tail_segs tail_vals foldM]; intros H.
  - destruct (quad_ok_inv q H) as ((D1 & D2 & D3 & D4) & (O1 & O2 & O3 & O4)).
    assert (Hb : to_bitfield_ipv4 (quad_text q)
                 = Ok (bits8 (Py.dec_val (q1 q)) ++ bits8 (Py.dec_val (q2 q))
                       ++ bits8 (Py.dec_val (q3 q)) ++ bits8 (Py.dec_val (q4 q)))).
    { unfold quad_text. rewrite to_bitfield_ipv4_dotted by assumption.
      cbn [forallb]. now rewrite O1, O2, O3, O4. }
    assert (Hdot : has "." (quad_text q) = true).
    { unfold quad_text. rewrite has_dotted.
      change (Ascii.eqb "." ".") with true. cbn [orb]. apply orb_true_r. }
    rewrite (ipv6_segment_dotted b dc _ _ Hdot Hb). cbn [bind].
    unfold quad_vals. cbn [map Py.join concat].
    rewrite !bits16_octets by assumption.
    now rewrite app_nil_r, <- !app_assoc.
  - cbn [map Py.join concat]. now rewrite app_nil_r.
Qed.

Lemma join_bits16_app (vs ws : list Z) :
  Py.join (map bits16 (vs ++ ws))
  = Py.join (map bits16 vs) ++ Py.join (map bits16 ws).
Proof. unfold Py.join. now rewrite map_app, concat_app. Qed.

(** The loop on hextets followed by the optional dotted tail *)
Lemma foldM_groups (hs : list str) (t : option quad) (b : str) (dc : bool) :
  forallb hextet hs = true -> tail_ok t = true ->
  foldM ipv6_segment (hs ++ tail_segs t) (b, dc)
  = Ok (b ++ Py.join (map bits16 (map hextet_val hs ++ tail_vals t)), dc).
Proof.
  intros Hhs Ht. rewrite foldM_app, foldM_hextets by assumption. cbn [bind].
  rewrite foldM_tail by assumption.
  now rewrite join_bits16_app, <- app_assoc.
Qed.

Lemma groups_segments (hs : list str) (t : option quad) :
  forallb hextet hs = true -> tail_ok t = true ->
  forallb segment (hs ++ tail_segs t) = true.
Proof.
  intros Hhs Ht. rewrite forallb_app.
  rewrite (plains_segments hs (hextets_plain hs Hhs)).
  destruct t as [q|]; [|reflexivity].
  cbn [tail_segs forallb andb]. now rewrite quad_segment.
Qed.

Lemma tail_vals_length (t : option quad) : length (tail_vals t) = tail_width t.
Proof. now destruct t. Qed.

(** Every well-formed text is encoded, as the 16-bit forms of the eight
    values of its address. *)
Lemma to_bitfield_ipv6_text (r : ipv6_text) :
  well_formed r = true ->
  to_bitfield_ipv6 (text_of r) = Ok (Py.join (map bits16 (address_of r))).
Proof.
  destruct r as [hs t | pre post t]; cbn [well_formed text_of address_of];
    intros H.
  - (* all the hextets *)
    apply andb_true_iff in H as [H Ht]. apply andb_true_iff in H as [Hlen Hhs].
    apply Nat.eqb_eq in Hlen.
    apply encode_full.
    + destruct hs, t; cbn [length tail_width] in Hlen; discriminate.
    + now apply groups_segments.
    + now rewrite (foldM_groups hs t [] false Hhs Ht).
    + rewrite join_bits16_length, length_app, length_map, tail_vals_length. lia.
  - (* hextets around one double colon *)
    apply andb_true_iff in H as [H Ht]. apply andb_true_iff in H as [H Hpost].
    apply andb_true_iff in H as [Hlen Hpre]. apply Nat.leb_le in Hlen.
    rewrite !join_bits16_app, join_bits16_zeros, <- join_bits16_app.
    apply encode_elided.
    + apply (plains_segments pre (hextets_plain pre Hpre)).
    + now apply groups_segments.
    + now rewrite foldM_hextets.
    + now rewrite foldM_groups.
    + apply join_bits16_no_colon.
    + rewrite !join_bits16_length, length_app, !length_map, tail_vals_length.
      lia.
Qed.

Lemma address_of_length (r : ipv6_text) :
  well_formed r = true -> length (address_of r) = 8%nat.
Proof.
  destruct r as [hs t | pre post t]; cbn [well_formed address_of]; intros H.
  - apply andb_true_iff in H as [H _]. apply andb_true_iff in H as [Hlen _].
    apply Nat.eqb_eq in Hlen.
    now rewrite length_app, length_map, tail_vals_length.
  - apply andb_true_iff in H as [H _]. apply andb_true_iff in H as [H _].
    apply andb_true_iff in H as [Hlen _]. apply Nat.leb_le in Hlen.
    rewrite !length_app, !length_map, repeat_length, tail_vals_length. lia.
Qed.

End EncodeIPv6.

(** C6, the claim as stated fails for the letter case: [hexbinmap] has
    the lower-case digits only, and an upper-case digit is a missing key.
    FE80::1 raises [KeyError] where fe80::1 is encoded. *)
Lemma to_bitfield_ipv6_upper_case :
  to_bitfield_ipv6 "FE80::1" = Raise KeyError /\
  succeeds (to_bitfield_ipv6 "fe80::1") = true.
Proof. split; vm_compute; reflexivity. Qed.

(** C6, amended.  Two texts of the same IPv6 address that differ only in
    the use of the [::] elision, in the leading zeros of their hextets, and
    in writing the last 32 bits as two hextets or as a dotted quad of
    decimal octets, written with lower-case digits, are both encoded, to
    the same 128 bits. *)
Theorem to_bitfield_ipv6_same_address (r1 r2 : ipv6_text) :
  well_formed r1 = true -> well_formed r2 = true ->
  address_of r1 = address_of r2 ->
  exists b,
    to_bitfield_ipv6 (text_of r1) = Ok b /\
    to_bitfield_ipv6 (text_of r2) = Ok b /\
    length b = 128%nat.
Proof.
  intros H1 H2 Haddr.
  exists (Py.join (map bits16 (address_of r1))). split; [|split].
  - now apply to_bitfield_ipv6_text.
  - rewrite Haddr. now apply to_bitfield_ipv6_text.
  - rewrite join_bits16_length, address_of_length by assumption. reflexivity.
Qed.

Lemma to_bitfield_ipv6_same_address_witness :
  exists b,
    to_bitfield_ipv6 "0:0:0:0:0:ffff:0a01:203" = Ok b /\
    to_bitfield_ipv6 "::ffff:10.1.2.3" = Ok b /\
    length b = 128%nat.
Proof.
  exact (to_bitfield_ipv6_same_address
           (Full (map list_ascii_of_string
                      ["0"; "0"; "0"; "0"; "0"; "ffff"; "0a01"; "203"]) None)
           (Elided [] [list_ascii_of_string "ffff"]
                   (Some (Quad "10" "1" "2" "3")))
           eq_refl eq_refl eq_refl).
Defined.

(** ** Texts [to_bitfield_ipv6] refuses *)

Section Rejects.

Local Open Scope nat_scope.
















(** *** Characters outside [hexbinmap] *)

Lemma has_false_intro (c : ascii) (s : str) :
  (forall x, In x s -> Ascii.eqb x c = false) -> has c s = false.
Proof.
  intros H. unfold has. destruct (existsb _ s) eqn:E; [|reflexivity].
  apply existsb_exists in E as (x & Hx & Ex). rewrite (H x Hx) in Ex.
  discriminate.
Qed.








(** *** Hextets of more than four digits *)








End Rejects.




(** ** The presets and a depth boundary, computed *)

Example depth_boundary :
  exists self,
    IP_List.append (IP_List.mk [] []) "10.0.0.0" (Some 8) = Ok self /\
    IP_List.includes self "10.255.255.255" = Ok true /\
    IP_List.includes self "11.0.0.0" = Ok false.
Proof.
  exists (IP_List.mk [list_ascii_of_string "00001010"] []).
  repeat split; vm_compute; reflexivity.
Qed.

Example ipv4_preset :
  exists self,
    IP_List.set_ipv4_addresses (IP_List.mk [] []) = Ok self /\
    IP_List.ipv4list self = [[]] /\
    IP_List.includes self "203.0.113.5" = Ok true.
Proof.
  exists (IP_List.mk [[]] []).
  repeat split; vm_compute; reflexivity.
Qed.

Example intranet_preset :
  exists self,
    IP_List.set_intranet_addresses (IP_List.mk [] []) = Ok self /\
    map (IP_List.includes self)
        (map list_ascii_of_string
             ["127.0.0.1"; "10.1.2.3"; "::1"; "fe80::1"; "8.8.8.8"])
    = [Ok true; Ok true; Ok true; Ok true; Ok false].
Proof.
  eexists. split; [vm_compute; reflexivity|]. vm_compute. reflexivity.
Qed.

(** * Further properties *)

(** ** [_int_to_bitstring] as a binary numeral *)

Section BinaryNumerals.

Lemma bin_val_app (a b : str) :
  bin_val (a ++ b) = bin_val a * 2 ^ Z.of_nat (length b) + bin_val b.
Proof.
  unfold bin_val.
  assert (G : forall s acc,
             fold_left (fun acc c => 2 * acc + Py.digit_val c) s acc
             = acc * 2 ^ Z.of_nat (length s)
               + fold_left (fun acc c => 2 * acc + Py.digit_val c) s 0).
  { induction s as [|c s IH]; intros acc.
    - cbn [fold_left length Z.of_nat]. change (2 ^ 0) with 1. lia.
    - cbn [fold_left length]. rewrite IH, (IH (2 * 0 + Py.digit_val c)).
      rewrite Nat2Z.inj_succ, Z.pow_succ_r by lia. ring. }
  rewrite fold_left_app, G. reflexivity.
Qed.

Lemma int2_bin_val (s : str) :
  s <> [] -> forallb Py.isbit s = true -> Py.int2 s = Ok (bin_val s).
Proof.
  intros Hne Hs. unfold Py.int2. destruct s; [congruence|]. now rewrite Hs.
Qed.

Lemma bit_char_val (x i : Z) :
  0 <= i ->
  bin_val (Py.str_of_int (Z.land (Z.shiftr x i) 1)) = (x / 2 ^ i) mod 2.
Proof.
  intros Hi. rewrite <- (bit_div x i Hi).
  destruct (land_1_cases (Z.shiftr x i)) as [-> | ->]; reflexivity.
Qed.

Lemma bin_val_int_to_bitstring (x : Z) (bits : nat) :
  bin_val (_int_to_bitstring x bits) = x mod 2 ^ Z.of_nat bits.
Proof.
  induction bits as [|n IH].
  - cbn. now rewrite Z.mod_1_r.
  - rewrite int_to_bitstring_S, bin_val_app, IH, int_to_bitstring_length.
    rewrite bit_char_val by lia.
    rewrite Nat2Z.inj_succ, Z.pow_succ_r by lia.
    rewrite (Z.mul_comm 2), Z.rem_mul_r by lia. ring.
Qed.

End BinaryNumerals.

(** X1.  [_int_to_bitstring(x, bits)] writes [bits] binary digits, and
    read back as a binary numeral they give [x] modulo [2 ** bits]: the
    value itself when [0 <= x < 2 ** bits], its two's complement otherwise. *)
Theorem int_to_bitstring_numeral (x : Z) (bits : nat) :
  (0 < bits)%nat ->
  length (_int_to_bitstring x bits) = bits /\
  Py.int2 (_int_to_bitstring x bits) = Ok (x mod 2 ^ Z.of_nat bits).
Proof.
  intros Hbits. split; [apply int_to_bitstring_length|].
  rewrite int2_bin_val.
  - now rewrite bin_val_int_to_bitstring.
  - intros E. apply (f_equal (@length ascii)) in E.
    rewrite int_to_bitstring_length in E. cbn in E. lia.
  - apply int_to_bitstring_isbit.
Qed.

Lemma int_to_bitstring_numeral_witness :
  length (_int_to_bitstring (-3) 8) = 8%nat /\
  Py.int2 (_int_to_bitstring (-3) 8) = Ok 253.
Proof. exact (int_to_bitstring_numeral (-3) 8 ltac:(lia)). Defined.

(** ** Bit strings sort as the numbers they write *)

Section BitOrder.

Lemma bit_testbit (a n : Z) :
  0 <= n -> Z.land (Z.shiftr a n) 1 = Z.b2z (Z.testbit a n).
Proof.
  intros Hn. rewrite bit_div by assumption. symmetry.
  now apply Z.testbit_spec'.
Qed.

Lemma int_to_bitstring_mod (x : Z) (m n : nat) :
  (n <= m)%nat ->
  _int_to_bitstring (x mod 2 ^ Z.of_nat m) n = _int_to_bitstring x n.
Proof.
  induction n as [|n IH]; intros Hn; [reflexivity|].
  rewrite !int_to_bitstring_S, IH by lia.
  rewrite !bit_testbit by lia.
  now rewrite Z.mod_pow2_bits_low by lia.
Qed.

(** The leading character of a bit string of [S n] bits *)
Lemma int_to_bitstring_top (x : Z) (n : nat) :
  0 <= x < 2 ^ Z.of_nat (S n) ->
  _int_to_bitstring x (S n)
  = (if x <? 2 ^ Z.of_nat n then "0"%char else "1"%char)
    :: _int_to_bitstring (x mod 2 ^ Z.of_nat n) n.
Proof.
  intros Hx. rewrite int_to_bitstring_S, (int_to_bitstring_mod x n n) by lia.
  rewrite bit_div by lia.
  rewrite Nat2Z.inj_succ, Z.pow_succ_r in Hx by lia.
  assert (Hp : 0 < 2 ^ Z.of_nat n) by (apply Z.pow_pos_nonneg; lia).
  destruct (Z.ltb_spec x (2 ^ Z.of_nat n)).
  - rewrite Z.div_small by lia. reflexivity.
  - replace (x / 2 ^ Z.of_nat n) with 1; [reflexivity|].
    apply Z.div_unique with (r := x - 2 ^ Z.of_nat n); lia.
Qed.

Lemma cmp_int_to_bitstring (n : nat) :
  forall x y,
    0 <= x < 2 ^ Z.of_nat n -> 0 <= y < 2 ^ Z.of_nat n ->
    Py.cmp (_int_to_bitstring x n) (_int_to_bitstring y n) = Z.compare x y.
Proof.
  induction n as [|n IH]; intros x y Hx Hy.
  - change (2 ^ Z.of_nat 0) with 1 in *.
    replace x with 0 by lia. replace y with 0 by lia. reflexivity.
  - rewrite !int_to_bitstring_top by assumption.
    rewrite Nat2Z.inj_succ, Z.pow_succ_r in Hx, Hy by lia.
    assert (Hp : 0 < 2 ^ Z.of_nat n) by (apply Z.pow_pos_nonneg; lia).
    pose proof (Z.mod_pos_bound x _ Hp) as Bx.
    pose proof (Z.mod_pos_bound y _ Hp) as By.
    cbn [Py.cmp].
    destruct (Z.ltb_spec x (2 ^ Z.of_nat n)), (Z.ltb_spec y (2 ^ Z.of_nat n));
      cbn [N_of_ascii N.compare].
    + rewrite N.compare_refl, IH by assumption.
      now rewrite !Z.mod_small by lia.
    + change (N.compare (N_of_ascii "0") (N_of_ascii "1")) with Lt.
      symmetry. apply Z.compare_lt_iff. lia.
    + change (N.compare (N_of_ascii "1") (N_of_ascii "0")) with Gt.
      symmetry. apply Z.compare_gt_iff. lia.
    + rewrite N.compare_refl, IH by assumption.
      replace (x mod 2 ^ Z.of_nat n) with (x - 2 ^ Z.of_nat n)
        by (apply Z.mod_unique with (q := 1); lia).
      replace (y mod 2 ^ Z.of_nat n) with (y - 2 ^ Z.of_nat n)
        by (apply Z.mod_unique with (q := 1); lia).
      destruct (Z.compare_spec x y), (Z.compare_spec (x - 2 ^ Z.of_nat n)
                                                     (y - 2 ^ Z.of_nat n));
        try reflexivity; lia.
Qed.

End BitOrder.

(** X2.  Among numbers that fit [bits] bits, the bit strings of
    [_int_to_bitstring] are ordered as the numbers are: the string order in
    which [IP_List] keeps and searches its sequences is the numeric order
    of the addresses. *)
Theorem int_to_bitstring_order (x y : Z) (bits : nat) :
  0 <= x < 2 ^ Z.of_nat bits -> 0 <= y < 2 ^ Z.of_nat bits ->
  Py.ltb (_int_to_bitstring x bits) (_int_to_bitstring y bits) = (x <? y).
Proof.
  intros Hx Hy. unfold Py.ltb, Z.ltb.
  now rewrite cmp_int_to_bitstring by assumption.
Qed.

Lemma int_to_bitstring_order_witness :
  Py.ltb (_int_to_bitstring 9 8) (_int_to_bitstring 10 8) = true.
Proof.
  exact (int_to_bitstring_order 9 10 8 ltac:(cbn; lia) ltac:(cbn; lia)).
Defined.

(** ** The shape of the encodings *)

Section EncodingShape.

Lemma pair_inj {A B} (a c : A) (b d : B) : (a, b) = (c, d) -> a = c /\ b = d.
Proof. intros H. split; congruence. Qed.

Lemma charbinmap_entry_isbit (n : nat) :
  forallb Py.isbit (nth n charbinmap []) = true.
Proof.
  unfold charbinmap.
  destruct (nth_in_or_default n (map (fun n => _int_to_bitstring n 8)
                                     (xrange 256)) []) as [Hin | ->];
    [|reflexivity].
  apply in_map_iff in Hin as (v & <- & _).
  apply int_to_bitstring_isbit.
Qed.

Lemma to_bitfield_ipv4_isbit (ip b : str) :
  to_bitfield_ipv4 ip = Ok b -> forallb Py.isbit b = true.
Proof.
  unfold to_bitfield_ipv4.
  destruct (Socket.inet_aton ip) as [packed| |]; try discriminate.
  intros H. apply Ok_inj in H. subst b.
  induction packed as [|c packed IH]; [reflexivity|].
  cbn [map Py.join concat]. rewrite forallb_app, charbinmap_entry_isbit.
  exact IH.
Qed.

Lemma getitem_isbit (c : ascii) (v : str) :
  getitem hexbinmap c = Ok v -> forallb Py.isbit v = true.
Proof.
  assert (T : Forall (fun kv => forallb Py.isbit (snd kv) = true) hexbinmap)
    by (repeat constructor).
  induction T as [|[k w] d Hw T IH]; [discriminate|].
  cbn [getitem]. destruct (Ascii.eqb k c); [|assumption].
  intros H. apply Ok_inj in H. now subst v.
Qed.

Lemma mapM_getitem_isbit (n : str) (bits : list str) :
  mapM (getitem hexbinmap) n = Ok bits ->
  forallb Py.isbit (Py.join bits) = true.
Proof.
  revert bits; induction n as [|c n IH]; intros bits.
  - cbn [mapM]. intros H. apply Ok_inj in H. now subst bits.
  - cbn [mapM]. destruct (getitem hexbinmap c) as [v|] eqn:Ev; [|discriminate].
    cbn [bind]. destruct (mapM (getitem hexbinmap) n) as [vs|]; [|discriminate].
    cbn [bind]. intros H. apply Ok_inj in H. subst bits.
    cbn [Py.join concat]. fold (Py.join vs).
    now rewrite forallb_app, (getitem_isbit c v Ev), (IH vs eq_refl).
Qed.

Lemma isbit_marks (s : str) :
  forallb Py.isbit s = true ->
  forallb bit_or_colon s = true /\ colons s = 0%nat.
Proof.
  induction s as [|c s IH]; [now split|].
  cbn [forallb]. intros H. apply andb_true_iff in H as [Hc Hs].
  destruct (IH Hs) as [IH1 IH2].
  assert (E : iscolon c = false) by (unfold iscolon; char_differs).
  unfold bit_or_colon at 1, colons. cbn [filter].
  rewrite Hc, E. cbn [orb andb]. split; assumption.
Qed.

Lemma colons_app (a b : str) : colons (a ++ b) = (colons a + colons b)%nat.
Proof. unfold colons. now rewrite filter_app, length_app. Qed.

(** The loop keeps its text made of bits, with one colon mark exactly when
    a double colon has been met. *)
Lemma ipv6_segment_marks (b b' : str) (dc dc' : bool) (n : str) :
  forallb bit_or_colon b = true ->
  colons b = (if dc then 1 else 0)%nat ->
  ipv6_segment (b, dc) n = Ok (b', dc') ->
  forallb bit_or_colon b' = true /\ colons b' = (if dc' then 1 else 0)%nat.
Proof.
  intros Hb Hc. unfold ipv6_segment.
  destruct (Py.str_eqb n "").
  - destruct dc; [discriminate|]. intros H. apply Ok_inj in H.
    apply pair_inj in H as [<- <-].
    rewrite forallb_app, colons_app, Hb, Hc. now split.
  - destruct (Py.find n "." >=? 0).
    + destruct (to_bitfield_ipv4 n) as [n'|] eqn:E4; cbn [bind]; [|discriminate].
      intros H. apply Ok_inj in H. apply pair_inj in H as [<- <-].
      assert (Hz : forallb Py.isbit (Py.times "0" (32 - Py.len n')) = true).
      { unfold Py.times. generalize (Z.to_nat (32 - Py.len n')) as k.
        induction k; [reflexivity | assumption]. }
      apply to_bitfield_ipv4_isbit, isbit_marks in E4 as [E4a E4b].
      apply isbit_marks in Hz as [Hza Hzb].
      rewrite !forallb_app, !colons_app, Hb, E4a, Hza, Hc, E4b, Hzb.
      split; [reflexivity | lia].
    + destruct (mapM _ _) as [bits|] eqn:Em; cbn [bind]; [|discriminate].
      intros H. apply Ok_inj in H. apply pair_inj in H as [<- <-].
      apply mapM_getitem_isbit, isbit_marks in Em as [Ea Eb].
      rewrite forallb_app, colons_app, Hb, Ea, Hc, Eb.
      split; [reflexivity | lia].
Qed.

Lemma foldM_marks (l : list str) (b b' : str) (dc dc' : bool) :
  forallb bit_or_colon b = true ->
  colons b = (if dc then 1 else 0)%nat ->
  foldM ipv6_segment l (b, dc) = Ok (b', dc') ->
  forallb bit_or_colon b' = true /\ colons b' = (if dc' then 1 else 0)%nat.
Proof.
  revert b dc; induction l as [|n l IH]; intros b dc Hb Hc H.
  - cbn [foldM] in H. apply Ok_inj in H. apply pair_inj in H as [<- <-]. now split.
  - cbn [foldM] in H.
    destruct (ipv6_segment (b, dc) n) as [[b1 dc1]|] eqn:E; [|discriminate].
    cbn [bind] in H.
    destruct (ipv6_segment_marks _ _ _ _ _ Hb Hc E) as [Hb1 Hc1].
    exact (IH _ _ Hb1 Hc1 H).
Qed.

Lemma no_marks_isbit (s : str) :
  forallb bit_or_colon s = true -> colons s = 0%nat ->
  forallb Py.isbit s = true.
Proof.
  induction s as [|c s IH]; [reflexivity|].
  cbn [forallb]. unfold colons, bit_or_colon at 1. cbn [filter].
  intros H Hc. apply andb_true_iff in H as [H1 H2].
  destruct (iscolon c); [discriminate|].
  rewrite orb_false_r in H1. rewrite H1. now apply IH.
Qed.

(** A text with one colon mark: bits, the mark, bits *)
Lemma one_mark_split (s : str) :
  forallb bit_or_colon s = true -> colons s = 1%nat ->
  exists b1 b2,
    s = b1 ++ ":"%char :: b2 /\
    forallb Py.isbit b1 = true /\ forallb Py.isbit b2 = true.
Proof.
  induction s as [|c s IH]; [discriminate|].
  cbn [forallb]. unfold colons, bit_or_colon at 1. cbn [filter].
  intros H Hc. apply andb_true_iff in H as [H1 H2].
  destruct (iscolon c) eqn:E.
  - unfold iscolon in E. apply Ascii.eqb_eq in E. subst c.
    exists [], s. split; [reflexivity|]. split; [reflexivity|].
    apply no_marks_isbit; [assumption|]. cbn [length] in Hc.
    unfold colons. lia.
  - rewrite orb_false_r in H1.
    destruct (IH H2 Hc) as (b1 & b2 & -> & Hb1 & Hb2).
    exists (c :: b1), b2. split; [reflexivity|].
    split; [|assumption]. cbn [forallb]. now rewrite H1.
Qed.

Lemma forallb_repeat (f : ascii -> bool) (c : ascii) (k : nat) :
  f c = true -> forallb f (repeat c k) = true.
Proof. intros H. induction k; cbn [repeat forallb]; [|rewrite H]; auto. Qed.

Lemma to_bitfield_ipv6_isbit (ip b : str) :
  to_bitfield_ipv6 ip = Ok b -> forallb Py.isbit b = true.
Proof.
  unfold to_bitfield_ipv6.
  destruct (ipv6_boundary ip) as [t|]; cbn [bind]; [|discriminate].
  destruct (foldM ipv6_segment (Py.split t ":") _) as [[b0 dc]|] eqn:E;
    cbn [bind]; [|discriminate].
  apply foldM_marks in E as [Hb Hc]; [|reflexivity|reflexivity].
  destruct dc.
  - destruct (one_mark_split b0 Hb Hc) as (b1 & b2 & -> & Hb1 & Hb2).
    assert (Hpos : Py.find (b1 ++ ":"%char :: b2) ":" = Py.len b1).
    { unfold Py.find. rewrite find_from_app; [lia|].
      apply isbit_not_colon. assumption. }
    rewrite Hpos.
    rewrite (slice_to_app b1 (":"%char :: b2)) by reflexivity.
    replace (Py.slice_from (b1 ++ ":"%char :: b2) (Py.len b1 + 1)) with b2.
    2:{ change (b1 ++ ":"%char :: b2) with (b1 ++ [":"%char] ++ b2).
        rewrite app_assoc. symmetry. apply slice_from_app.
        unfold Py.len. rewrite length_app. cbn [length]. lia. }
    destruct (negb _); [discriminate|].
    intros H. apply Ok_inj in H. subst b.
    rewrite !forallb_app, Hb1, Hb2. unfold Py.times.
    now rewrite forallb_repeat.
  - destruct (negb _); [discriminate|].
    intros H. apply Ok_inj in H. subst b. now apply no_marks_isbit.
Qed.

Lemma to_bitfield_ipv6_length (ip b : str) :
  to_bitfield_ipv6 ip = Ok b -> length b = 128%nat.
Proof.
  unfold to_bitfield_ipv6.
  destruct (ipv6_boundary ip) as [t|]; cbn [bind]; [|discriminate].
  destruct (foldM ipv6_segment (Py.split t ":") _) as [[b0 dc]|];
    cbn [bind]; [|discriminate].
  match goal with
  | |- (if negb (Py.len ?x =? 128) then _ else _) = _ -> _ =>
      generalize x; intros X
  end.
  destruct (Z.eqb_spec (Py.len X) 128) as [E|E]; cbn [negb]; [|discriminate].
  intros H. apply Ok_inj in H. subst b. unfold Py.len in E. lia.
Qed.

(** The bits [includes] searches for, and the sequence it searches *)
Lemma query_bits_shape (ip b : str) :
  IP_List.query_bits ip = Ok b ->
  forallb Py.isbit b = true /\
  ((length b = 32%nat /\ forall self, IP_List.family self b = IP_List.ipv4list self)
   \/ (length b = 128%nat /\ Py.startswith b ipv4addrmask = false
       /\ forall self, IP_List.family self b = IP_List.ipv6list self)).
Proof.
  unfold IP_List.query_bits.
  assert (F4 : forall s : str, length s = 32%nat ->
                 forall self, IP_List.family self s = IP_List.ipv4list self).
  { intros s Hs self. unfold IP_List.family, Py.len. now rewrite Hs. }
  assert (F6 : forall s : str, length s = 128%nat ->
                 forall self, IP_List.family self s = IP_List.ipv6list self).
  { intros s Hs self. unfold IP_List.family, Py.len. now rewrite Hs. }
  destruct (Py.find ip ":" <? 0).
  - intros H. split; [eapply to_bitfield_ipv4_isbit; eassumption|].
    left. apply to_bitfield_ipv4_length in H. auto.
  - destruct (to_bitfield_ipv6 ip) as [b6|] eqn:E; cbn [bind]; [|discriminate].
    pose proof (to_bitfield_ipv6_isbit _ _ E) as Hbits.
    pose proof (to_bitfield_ipv6_length _ _ E) as Hlen.
    intros H. apply Ok_inj in H. subst b.
    destruct (Py.startswith b6 ipv4addrmask) eqn:Em.
    + rewrite slice_from_nonneg by lia. change (Z.to_nat 96) with 96%nat.
      assert (L : length (skipn 96 b6) = 32%nat)
        by (rewrite length_skipn; lia).
      split.
      * rewrite <- (firstn_skipn 96 b6), forallb_app in Hbits.
        now apply andb_true_iff in Hbits as [_ Hbits].
      * left. auto.
    + split; [assumption|]. right. auto.
Qed.

End EncodingShape.

(** X3.  Whatever text [to_bitfield_ipv6] accepts, its result is 128
    characters, each 0 or 1: the colon mark and the letters of the text
    never reach the output. *)
Theorem to_bitfield_ipv6_bits (ip b : str) :
  to_bitfield_ipv6 ip = Ok b ->
  length b = 128%nat /\ forallb Py.isbit b = true.
Proof.
  intros H. split.
  - eapply to_bitfield_ipv6_length; eassumption.
  - eapply to_bitfield_ipv6_isbit; eassumption.
Qed.

Lemma to_bitfield_ipv6_bits_witness :
  exists b,
    to_bitfield_ipv6 "fe80::1.2.3.4" = Ok b /\
    length b = 128%nat /\ forallb Py.isbit b = true.
Proof.
  eexists. split; [vm_compute; reflexivity|].
  apply (to_bitfield_ipv6_bits "fe80::1.2.3.4"). vm_compute. reflexivity.
Defined.



(** ** The two ways of filling a store *)

Section Filling.

Lemma _append_stored (self : IP_List.t) (ip : str) (depth : option Z) :
  IP_List._append self ip depth
  = (fp <- stored_prefix ip depth ;; Ok (push self fp)).
Proof.
  unfold IP_List._append, stored_prefix, push.
  destruct (Py.find ip ":" <? 0).
  - now destruct (to_bitfield_ipv4 ip).
  - destruct (to_bitfield_ipv6 ip) as [b|]; [|reflexivity]. cbn [bind].
    destruct (Py.startswith b ipv4addrmask); [|reflexivity].
    now destruct (IP_List.minus96 depth).
Qed.

Lemma append_stored (self : IP_List.t) (ip : str) (depth : option Z) :
  IP_List.append self ip depth
  = (fp <- stored_prefix ip depth ;; Ok (put self fp)).
Proof.
  unfold IP_List.append, stored_prefix, put.
  destruct (Py.find ip ":" <? 0).
  - now destruct (to_bitfield_ipv4 ip).
  - destruct (to_bitfield_ipv6 ip) as [b|]; [|reflexivity]. cbn [bind].
    destruct (Py.startswith b ipv4addrmask); [|reflexivity].
    now destruct (IP_List.minus96 depth).
Qed.

Lemma sort_snoc (l : list str) (x : str) :
  Py.sort (l ++ [x]) = Py.insort (Py.sort l) x.
Proof. unfold Py.sort. now rewrite fold_left_app. Qed.

Lemma sorted_push (self : IP_List.t) (fp : bool * str) :
  IP_List.sorted (push self fp) = put (IP_List.sorted self) fp.
Proof.
  unfold IP_List.sorted, push, put. destruct fp as [[] p]; cbn [fst snd];
    cbn [IP_List.ipv4list IP_List.ipv6list]; now rewrite sort_snoc.
Qed.

Lemma init_as_appends (l : list (str * option Z)) (s : IP_List.t) :
  (s' <- foldM (fun self e => IP_List._append self (fst e) (snd e)) l s ;;
   Ok (IP_List.sorted s'))
  = foldM (fun self e => IP_List.append self (fst e) (snd e)) l
          (IP_List.sorted s).
Proof.
  revert s; induction l as [|e l IH]; intros s; [reflexivity|].
  cbn [foldM]. rewrite _append_stored, append_stored.
  destruct (stored_prefix (fst e) (snd e)) as [fp|]; [|reflexivity].
  cbn [bind]. rewrite IH, sorted_push. reflexivity.
Qed.

(** *** Ascending lists are determined by their entries *)

Lemma insort_perm (a : list str) (x : str) : Permutation (x :: a) (Py.insort a x).
Proof.
  unfold Py.insort.
  rewrite <- (firstn_skipn (Py.bisect a x) a) at 1.
  apply Permutation_middle.
Qed.

Lemma fold_insort_perm (l acc : list str) :
  Permutation (l ++ acc) (fold_left Py.insort l acc).
Proof.
  revert acc; induction l as [|x l IH]; intros acc; [reflexivity|].
  cbn [fold_left app]. rewrite <- IH.
  rewrite <- insort_perm. apply Permutation_middle.
Qed.

Lemma sort_perm (l : list str) : Permutation l (Py.sort l).
Proof.
  unfold Py.sort. rewrite <- fold_insort_perm. now rewrite app_nil_r.
Qed.

Lemma ascending_unique (l1 l2 : list str) :
  ascending l1 -> ascending l2 -> Permutation l1 l2 -> l1 = l2.
Proof.
  intros H1. revert l2. induction H1 as [|a l1 Hs IH Hall]; intros l2 H2 Hp.
  - symmetry. now apply Permutation_nil.
  - destruct H2 as [|b l2 Hs2 Hall2].
    + apply Permutation_sym, Permutation_nil in Hp. discriminate.
    + rewrite Forall_forall in Hall, Hall2.
      assert (Hab : a = b).
      { apply leb_antisym.
        - assert (Hb : In b (a :: l1))
            by (apply (Permutation_in _ (Permutation_sym Hp)); now left).
          destruct Hb as [<- | Hb]; [apply leb_refl | now apply Hall].
        - assert (Ha : In a (b :: l2))
            by (apply (Permutation_in _ Hp); now left).
          destruct Ha as [<- | Ha]; [apply leb_refl | now apply Hall2]. }
      subst b. f_equal. apply IH; [assumption|].
      eapply Permutation_cons_inv; eassumption.
Qed.

(** Whatever method sorts the list, the result is [Py.sort]. *)
Lemma sort_unique (l l' : list str) :
  Permutation l l' -> ascending l' -> l' = Py.sort l.
Proof.
  intros Hp Ha. apply ascending_unique; [assumption | apply sort_ascending|].
  rewrite <- Hp. apply sort_perm.
Qed.

Lemma sort_perm_eq (l l' : list str) :
  Permutation l l' -> Py.sort l = Py.sort l'.
Proof.
  intros Hp. apply ascending_unique; try apply sort_ascending.
  rewrite <- !sort_perm. assumption.
Qed.

Lemma sort_length (l : list str) : length (Py.sort l) = length l.
Proof. symmetry. apply Permutation_length, sort_perm. Qed.

(** *** The entries, one by one *)

Lemma foldM_append_pushes (l : list (str * option Z)) (s : IP_List.t) :
  foldM (fun self e => IP_List._append self (fst e) (snd e)) l s
  = (fps <- mapM (fun e => stored_prefix (fst e) (snd e)) l ;;
     Ok (fold_left push fps s)).
Proof.
  revert s; induction l as [|e l IH]; intros s; [reflexivity|].
  cbn [foldM mapM]. rewrite _append_stored.
  destruct (stored_prefix (fst e) (snd e)) as [fp|]; [|reflexivity].
  cbn [bind]. rewrite IH.
  now destruct (mapM _ l).
Qed.

Lemma pushes_lists (fps : list (bool * str)) (s : IP_List.t) :
  IP_List.ipv4list (fold_left push fps s)
  = IP_List.ipv4list s ++ map snd (filter (fun fp => fst fp) fps)
  /\ IP_List.ipv6list (fold_left push fps s)
     = IP_List.ipv6list s ++ map snd (filter (fun fp => negb (fst fp)) fps).
Proof.
  revert s; induction fps as [|[f p] fps IH]; intros s.
  - cbn. now rewrite !app_nil_r.
  - cbn [fold_left]. destruct (IH (push s (f, p))) as [-> ->].
    unfold push. cbn [fst snd filter]. destruct f;
      cbn [negb map IP_List.ipv4list IP_List.ipv6list];
      now rewrite <- ?app_assoc.
Qed.

Lemma mapM_perm {A B} (f : A -> result B) (l l' : list A) (r : list B) :
  Permutation l l' -> mapM f l = Ok r ->
  exists r', mapM f l' = Ok r' /\ Permutation r r'.
Proof.
  intros Hp. revert r.
  induction Hp as [|x l l' Hp IH|x y l|l l' l'' Hp1 IH1 Hp2 IH2]; intros r.
  - intros H. exists r. split; [assumption | reflexivity].
  - cbn [mapM]. destruct (f x) as [b|]; [|discriminate]. cbn [bind].
    destruct (mapM f l) as [bs|]; [|discriminate]. cbn [bind].
    intros H. apply Ok_inj in H. subst r.
    destruct (IH bs eq_refl) as (bs' & -> & Hbs).
    exists (b :: bs'). split; [reflexivity | now constructor].
  - cbn [mapM]. destruct (f y) as [b|]; [|discriminate]. cbn [bind].
    destruct (f x) as [a|]; [|discriminate]. cbn [bind].
    destruct (mapM f l) as [bs|]; [|discriminate]. cbn [bind].
    intros H. apply Ok_inj in H. subst r.
    exists (a :: b :: bs). split; [reflexivity | apply perm_swap].
  - intros H. destruct (IH1 r H) as (r1 & H1 & P1).
    destruct (IH2 r1 H1) as (r2 & H2 & P2).
    exists r2. split; [assumption | now transitivity r1].
Qed.

Lemma filter_perm {A} (f : A -> bool) (l l' : list A) :
  Permutation l l' -> Permutation (filter f l) (filter f l').
Proof.
  induction 1 as [|x l l' Hp IH|x y l|l l' l'' Hp1 IH1 Hp2 IH2].
  - reflexivity.
  - cbn [filter]. destruct (f x); [now constructor | assumption].
  - cbn [filter]. destruct (f x), (f y); try reflexivity. apply perm_swap.
  - now transitivity (filter f l').
Qed.

End Filling.

(** X5.  The constructor gives the store that [append], called on each
    entry in turn from an empty store, gives: sorting once at the end and
    inserting in order build the same sequences, and the first entry that
    cannot be encoded raises the same exception either way. *)
Theorem init_is_appends (entrylist : list (str * option Z)) :
  IP_List.__init__ entrylist
  = IP_List.appends (IP_List.mk [] []) entrylist.
Proof.
  unfold IP_List.__init__, IP_List.appends.
  exact (init_as_appends entrylist (IP_List.mk [] [])).
Qed.

(** X6.  The store the constructor builds does not depend on the order of
    its entries. *)
Theorem init_order_irrelevant (l l' : list (str * option Z)) (self : IP_List.t) :
  Permutation l l' ->
  IP_List.__init__ l = Ok self -> IP_List.__init__ l' = Ok self.
Proof.
  intros Hp. unfold IP_List.__init__. rewrite !foldM_append_pushes.
  destruct (mapM _ l) as [fps|] eqn:E; [|discriminate].
  destruct (mapM_perm _ l l' fps Hp E) as (fps' & -> & Pf).
  cbn [bind]. intros H. apply Ok_inj in H. subst self. f_equal.
  unfold IP_List.sorted.
  destruct (pushes_lists fps (IP_List.mk [] [])) as [-> ->].
  destruct (pushes_lists fps' (IP_List.mk [] [])) as [-> ->].
  cbn [IP_List.ipv4list IP_List.ipv6list app].
  f_equal; apply sort_perm_eq, Permutation_map, filter_perm;
    now apply Permutation_sym.
Qed.

Lemma init_order_irrelevant_witness :
  IP_List.__init__ [(list_ascii_of_string "10.0.0.0", Some 8);
                    (list_ascii_of_string "fe80::", Some 16);
                    (list_ascii_of_string "192.168.0.0", Some 16)]
  = Ok (IP_List.mk (map list_ascii_of_string ["00001010"; "1100000010101000"])
                   [list_ascii_of_string "1111111010000000"]).
Proof.
  apply (init_order_irrelevant
           [(list_ascii_of_string "192.168.0.0", Some 16);
            (list_ascii_of_string "10.0.0.0", Some 8);
            (list_ascii_of_string "fe80::", Some 16)]).
  - exact (Permutation_cons_append
             [(list_ascii_of_string "10.0.0.0", Some 8);
              (list_ascii_of_string "fe80::", Some 16)]
             (list_ascii_of_string "192.168.0.0", Some 16)).
  - vm_compute. reflexivity.
Defined.

(** ** What [append] keeps and what [includes] finds *)

Section Lookup.

Local Open Scope nat_scope.

Lemma put_ascending (self : IP_List.t) (fp : bool * str) :
  ascending (IP_List.ipv4list self) -> ascending (IP_List.ipv6list self) ->
  ascending (IP_List.ipv4list (put self fp)) /\
  ascending (IP_List.ipv6list (put self fp)).
Proof.
  intros H4 H6. unfold put. destruct (fst fp);
    cbn [IP_List.ipv4list IP_List.ipv6list];
    split; try assumption; now apply insort_ascending.
Qed.

Lemma put_size (self : IP_List.t) (fp : bool * str) :
  size (put self fp) = S (size self).
Proof.
  unfold put, size. destruct (fst fp);
    cbn [IP_List.ipv4list IP_List.ipv6list]; rewrite insort_length; lia.
Qed.

Lemma put_keeps (self : IP_List.t) (fp : bool * str) (p : str) :
  (In p (IP_List.ipv4list self) -> In p (IP_List.ipv4list (put self fp))) /\
  (In p (IP_List.ipv6list self) -> In p (IP_List.ipv6list (put self fp))).
Proof.
  unfold put. destruct (fst fp); cbn [IP_List.ipv4list IP_List.ipv6list];
    split; intros H; try assumption; apply insort_In; now right.
Qed.

Lemma size_nonzero (self : IP_List.t) :
  0 < size self -> IP_List.__nonzero__ self = true.
Proof.
  unfold size, IP_List.__nonzero__.
  destruct (IP_List.ipv4list self), (IP_List.ipv6list self);
    cbn [length]; intros H; try reflexivity; lia.
Qed.

Lemma scan_true (b : str) (l : list str) :
  IP_List.scan b l = true -> exists p, In p l /\ Py.startswith b p = true.
Proof.
  induction l as [|m l IH]; [discriminate|]. cbn [IP_List.scan].
  destruct (Py.startswith b m) eqn:E.
  - intros _. exists m. split; [now left | assumption].
  - destruct (Py.gtb m b); [discriminate|].
    intros H. destruct (IH H) as (p & Hp & Hs).
    exists p. split; [now right | assumption].
Qed.

(** The scan from one place before the insertion point decides by the
    entry it starts at, the greatest one not above the query. *)
Lemma scan_bisect_greatest (l : list str) (b : str) :
  ascending l ->
  (IP_List.scan b (Py.slice_from l (Z.of_nat (Py.bisect l b) - 1)) = true
   <-> exists p, greatest_below l b p /\ Py.startswith b p = true).
Proof.
  intros Hasc.
  destruct (bisect_spec l b Hasc) as (Hlen & Hl & Hr).
  rewrite Forall_forall in Hl, Hr.
  assert (Hside : forall q, In q l -> le_str q b ->
                            In q (firstn (Py.bisect l b) l)).
  { intros q Hq Hqb. rewrite <- (firstn_skipn (Py.bisect l b) l) in Hq.
    apply in_app_or in Hq as [Hq | Hq]; [assumption|].
    apply Hr in Hq. unfold le_str, Py.leb in Hqb. rewrite Hq in Hqb.
    discriminate. }
  destruct (Py.bisect l b) as [|r] eqn:Er.
  - (* every entry is above the query *)
    split.
    + unfold Py.slice_from. intros H. apply scan_true in H as (p & Hp & Hs).
      apply In_skipn in Hp. apply (Hr p) in Hp.
      rewrite (greater_no_match b p Hp) in Hs. discriminate.
    + intros (p & (Hp & Hpb & _) & _). apply Hside in Hp; [|assumption].
      contradiction.
  - assert (Hclamp : Py.clamp (Py.len l) (Z.of_nat (S r) - 1) = r).
    { unfold Py.clamp, Py.len.
      destruct (Z.of_nat (S r) - 1 <? 0)%Z eqn:E; [apply Z.ltb_lt in E|]; lia. }
    unfold Py.slice_from. rewrite Hclamp.
    rewrite (skipn_nth_cons l r) by lia.
    set (m := nth r l []).
    assert (Hsplit : firstn (S r) l = firstn r l ++ [m]).
    { rewrite <- (firstn_skipn r l) at 1.
      rewrite firstn_app, (skipn_nth_cons l r) by lia.
      rewrite length_firstn.
      replace (S r - Nat.min r (length l)) with 1 by lia.
      rewrite firstn_firstn. replace (Nat.min (S r) r) with r by lia.
      reflexivity. }
    assert (Hm_in : In m (firstn (S r) l))
      by (rewrite Hsplit; apply in_or_app; right; now left).
    assert (Hm_le : le_str m b) by (apply Hl; assumption).
    assert (Hgreat : greatest_below l b m).
    { split; [eapply In_firstn; eassumption|]. split; [assumption|].
      intros q Hq Hqb. apply Hside in Hq; [|assumption].
      rewrite Hsplit in Hq. apply in_app_or in Hq as [Hq | [<- | []]];
        [|apply leb_refl].
      pose proof Hasc as Hasc'.
      rewrite <- (firstn_skipn r l), (skipn_nth_cons l r) in Hasc' by lia.
      apply ascending_app_inv in Hasc' as (_ & _ & Hcross).
      apply Hcross; [assumption | now left]. }
    assert (Hrest : forall q, In q (skipn (S r) l) -> Py.startswith b q = false)
      by (intros q Hq; apply greater_no_match; auto).
    cbn [IP_List.scan]. split.
    + intros H. exists m. split; [assumption|].
      destruct (Py.startswith b m); [reflexivity|].
      destruct (Py.gtb m b); [discriminate|].
      rewrite (scan_no_match b _ Hrest) in H. discriminate.
    + intros (p & (Hp & Hpb & Hmax) & Hs).
      assert (p = m).
      { apply leb_antisym.
        - destruct Hgreat as (_ & _ & Hmmax). now apply Hmmax.
        - apply Hmax; [eapply In_firstn; eassumption | assumption]. }
      subst p. now rewrite Hs.
Qed.

Lemma startswith_refl (b : str) : Py.startswith b b = true.
Proof.
  induction b as [|c b IH]; [reflexivity|].
  cbn [Py.startswith]. now rewrite Ascii.eqb_refl.
Qed.

(** With the default depth the stored prefix is the query itself. *)
Lemma stored_prefix_default (ip b : str) :
  IP_List.query_bits ip = Ok b ->
  exists f, stored_prefix ip IP_List.default_depth = Ok (f, b) /\
            forall self, IP_List.family self b
                         = if f then IP_List.ipv4list self
                           else IP_List.ipv6list self.
Proof.
  intros Hq. pose proof (query_bits_shape ip b Hq) as Hshape.
  unfold IP_List.query_bits in Hq. unfold stored_prefix, IP_List.default_depth.
  assert (Hall : forall s : str, length s <= 256 -> Py.slice_to s 256%Z = s).
  { intros s Hs. rewrite slice_to_nonneg by lia.
    apply firstn_all2. lia. }
  destruct (Py.find ip ":" <? 0)%Z.
  - rewrite Hq. cbn [bind IP_List.upto].
    pose proof (to_bitfield_ipv4_length _ _ Hq) as L.
    exists true. split; [now rewrite Hall by lia|].
    destruct Hshape as (_ & [[_ F] | [L' _]]); [exact F | lia].
  - destruct (to_bitfield_ipv6 ip) as [b6|] eqn:E; cbn [bind] in *;
      [|discriminate].
    pose proof (to_bitfield_ipv6_length _ _ E) as L6.
    apply Ok_inj in Hq.
    destruct (Py.startswith b6 ipv4addrmask) eqn:Em.
    + cbn [IP_List.minus96 bind]. subst b.
      exists true. split.
      * change (256 - 96)%Z with 160%Z.
        rewrite (slice_to_nonneg _ 160) by lia.
        rewrite firstn_all2; [reflexivity|].
        rewrite slice_from_nonneg, length_skipn by lia. lia.
      * destruct Hshape as (_ & [[_ F] | [L' _]]); [exact F|].
        rewrite slice_from_nonneg, length_skipn in L' by lia. lia.
    + subst b. cbn [IP_List.upto]. exists false.
      split; [now rewrite Hall by lia|].
      destruct Hshape as (_ & [[L' _] | (_ & _ & F)]); [lia | exact F].
Qed.

Lemma includes_nonzero (self : IP_List.t) (x b : str) :
  IP_List.__nonzero__ self = true -> IP_List.query_bits x = Ok b ->
  IP_List.includes self x
  = Ok (IP_List.scan b (Py.slice_from (IP_List.family self b)
          (Z.of_nat (Py.bisect (IP_List.family self b) b) - 1))).
Proof.
  intros Hn Hq. unfold IP_List.includes. now rewrite Hn, Hq.
Qed.

Lemma family_ascending (self : IP_List.t) (b : str) :
  built self -> ascending (IP_List.family self b).
Proof.
  intros Hb. destruct (built_ascending self Hb) as [A4 A6].
  unfold IP_List.family. now destruct (_ >? _)%Z.
Qed.

Lemma family_nonzero (self : IP_List.t) (b p : str) :
  In p (IP_List.family self b) -> IP_List.__nonzero__ self = true.
Proof.
  unfold IP_List.family, IP_List.__nonzero__.
  destruct (_ >? _)%Z, (IP_List.ipv4list self), (IP_List.ipv6list self);
    intros H; try reflexivity; contradiction.
Qed.

End Lookup.

(** X7.  [append] keeps a store in order: on ascending sequences it
    leaves both sequences ascending, adds exactly one prefix, drops none,
    and the store is non-empty afterwards. *)
Theorem append_keeps_order (self self' : IP_List.t) (ip : str) (depth : option Z) :
  ascending (IP_List.ipv4list self) -> ascending (IP_List.ipv6list self) ->
  IP_List.append self ip depth = Ok self' ->
  ascending (IP_List.ipv4list self') /\ ascending (IP_List.ipv6list self') /\
  size self' = S (size self) /\
  (forall p, In p (IP_List.ipv4list self) -> In p (IP_List.ipv4list self')) /\
  (forall p, In p (IP_List.ipv6list self) -> In p (IP_List.ipv6list self')) /\
  IP_List.__nonzero__ self' = true.
Proof.
  intros H4 H6. rewrite append_stored.
  destruct (stored_prefix ip depth) as [fp|]; [|discriminate]. cbn [bind].
  intros H. apply Ok_inj in H. subst self'.
  destruct (put_ascending self fp H4 H6) as [A4 A6].
  repeat split; try assumption.
  - apply put_size.
  - intros p. apply put_keeps.
  - intros p. apply put_keeps.
  - apply size_nonzero. rewrite put_size. apply Nat.lt_0_succ.
Qed.

Lemma append_keeps_order_witness :
  ascending (map list_ascii_of_string ["00001010"; "1100000010101000"]).
Proof.
  refine (proj1 (append_keeps_order
            (IP_List.mk [list_ascii_of_string "1100000010101000"] [])
            (IP_List.mk (map list_ascii_of_string
                             ["00001010"; "1100000010101000"]) [])
            "10.0.0.0" (Some 8) _ _ _)).
  - repeat constructor.
  - constructor.
  - vm_compute. reflexivity.
Defined.

(** X8.  [includes] never reports a range that is not there: whenever it
    returns true, some prefix stored in the sequence of the query's family
    starts the query bits.  This holds of every store, sorted or not,
    nested or not. *)
Theorem includes_sound (self : IP_List.t) (x : str) :
  IP_List.includes self x = Ok true ->
  exists b p,
    IP_List.query_bits x = Ok b /\
    In p (IP_List.family self b) /\ Py.startswith b p = true.
Proof.
  unfold IP_List.includes.
  destruct (negb (IP_List.__nonzero__ self)); [discriminate|].
  destruct (IP_List.query_bits x) as [b|]; cbn [bind]; [|discriminate].
  intros H. apply Ok_inj in H. apply scan_true in H as (p & Hp & Hs).
  exists b, p. split; [reflexivity|]. split; [|assumption].
  unfold Py.slice_from in Hp. eapply In_skipn. eassumption.
Qed.

Lemma includes_sound_witness :
  exists b p,
    IP_List.query_bits "64.0.0.1" = Ok b /\
    In p (IP_List.family
            (IP_List.mk (map list_ascii_of_string ["01"; "0101"; "0110"]) [])
            b) /\
    Py.startswith b p = true.
Proof.
  exact (includes_sound
           (IP_List.mk (map list_ascii_of_string ["01"; "0101"; "0110"]) [])
           "64.0.0.1" ltac:(vm_compute; reflexivity)).
Defined.



(** X10.  What is appended with the default depth is found: after
    [append(ip)] on a built store, [includes(ip)] is true, whatever else the
    store holds. *)
Theorem append_then_includes (self self' : IP_List.t) (ip : str) :
  built self ->
  IP_List.append self ip IP_List.default_depth = Ok self' ->
  IP_List.includes self' ip = Ok true.
Proof.
  intros Hb Happ.
  assert (Hb' : built self') by (eapply built_append; eassumption).
  rewrite append_stored in Happ.
  destruct (stored_prefix ip IP_List.default_depth) as [[f p]|] eqn:Es;
    [|discriminate].
  cbn [bind] in Happ. apply Ok_inj in Happ.
  assert (Hq : exists b, IP_List.query_bits ip = Ok b).
  { unfold stored_prefix in Es. unfold IP_List.query_bits.
    destruct (Py.find ip ":" <? 0).
    - destruct (to_bitfield_ipv4 ip); [eexists; reflexivity | discriminate].
    - destruct (to_bitfield_ipv6 ip); [eexists; reflexivity | discriminate]. }
  destruct Hq as (b & Hq).
  destruct (stored_prefix_default ip b Hq) as (f' & Es' & Hfam).
  rewrite Es in Es'. apply Ok_inj in Es'. apply pair_inj in Es' as [<- ->].
  assert (Hin : In b (IP_List.family self' b)).
  { rewrite Hfam, <- Happ. unfold put. cbn [fst snd].
    destruct f; cbn [IP_List.ipv4list IP_List.ipv6list];
      apply insort_In; now left. }
  rewrite (includes_nonzero self' ip b (family_nonzero self' b b Hin) Hq).
  f_equal. apply scan_bisect_greatest; [now apply family_ascending|].
  exists b. split; [|apply startswith_refl].
  split; [assumption|]. split; [apply leb_refl | auto].
Qed.

Lemma append_then_includes_witness :
  IP_List.includes
    (IP_List.mk (map list_ascii_of_string
                     ["01"; "01110000000000000000000000000001"]) [])
    "112.0.0.1" = Ok true.
Proof.
  apply (append_then_includes
           (IP_List.mk [list_ascii_of_string "01"] [])).
  - apply (built_init [(list_ascii_of_string "64.0.0.0", Some 2)]).
    vm_compute. reflexivity.
  - vm_compute. reflexivity.
Defined.

(** ** The presets and the bulk load *)

Section Load.

Local Open Scope nat_scope.

Lemma nil_least (q : str) : Py.leb [] q = true.
Proof. now destruct q. Qed.

(** The empty prefix goes to the head of an ascending sequence. *)
Lemma insort_nil (l : list str) : ascending l -> Py.insort l [] = [] :: l.
Proof.
  intros Ha. apply ascending_unique.
  - now apply insort_ascending.
  - constructor; [assumption|]. apply Forall_forall. intros q _. apply nil_least.
  - symmetry. apply insort_perm.
Qed.

Lemma read_line_keeps (self : IP_List.t) (out : list str) (line : str) :
  let st := IP_List.read_line (self, out) line in
  (forall p, In p (IP_List.ipv4list self) -> In p (IP_List.ipv4list (fst st))) /\
  (forall p, In p (IP_List.ipv6list self) -> In p (IP_List.ipv6list (fst st))) /\
  size self <= size (fst st) /\
  size (fst st) + length (snd st) <= S (size self + length out) /\
  (Forall (fun w => Py.startswith w IP_List.warning = true) out ->
   Forall (fun w => Py.startswith w IP_List.warning = true) (snd st)).
Proof.
  cbv zeta. destruct (read_line_effect self out line) as [|text|ip depth self' E];
    cbn [fst snd].
  - repeat split; auto.
  - rewrite length_app. cbn [length]. repeat split; auto; try lia.
    intros H. apply Forall_app. split; [assumption|].
    constructor; [apply startswith_app | constructor].
  - unfold size.
    destruct (_append_adds_one _ _ _ _ E) as (p & [[-> ->] | [-> ->]]);
      rewrite length_app; cbn [length];
      repeat split; auto; try lia; intros q Hq; apply in_or_app; now left.
Qed.

Lemma read_lines_keep (lines : list str) (self : IP_List.t) (out : list str) :
  let st := fold_left IP_List.read_line lines (self, out) in
  (forall p, In p (IP_List.ipv4list self) -> In p (IP_List.ipv4list (fst st))) /\
  (forall p, In p (IP_List.ipv6list self) -> In p (IP_List.ipv6list (fst st))) /\
  size self <= size (fst st) /\
  size (fst st) + length (snd st) <= size self + length out + length lines /\
  (Forall (fun w => Py.startswith w IP_List.warning = true) out ->
   Forall (fun w => Py.startswith w IP_List.warning = true) (snd st)).
Proof.
  cbv zeta. revert self out. induction lines as [|line lines IH]; intros self out.
  - cbn [fold_left fst snd length]. repeat split; auto; lia.
  - cbn [fold_left length].
    pose proof (read_line_keeps self out line) as H. cbv zeta in H.
    destruct (IP_List.read_line (self, out) line) as [s1 o1].
    cbn [fst snd] in H. destruct H as (K4 & K6 & Hle & Hsz & Hw).
    destruct (IH s1 o1) as (K4' & K6' & Hle' & Hsz' & Hw').
    repeat split; auto; lia.
Qed.

Lemma sorted_size (self : IP_List.t) : size (IP_List.sorted self) = size self.
Proof.
  unfold size, IP_List.sorted. cbn [IP_List.ipv4list IP_List.ipv6list].
  now rewrite !sort_length.
Qed.

End Load.

(** X11.  [set_ipv4_addresses] puts the empty prefix at the head of an
    ascending IPv4 sequence, and after it [includes] is true for every
    query of 32 bits that sorts below all the IPv4 prefixes the store held
    before; when it held none, that is every IPv4 and every IPv4-mapped
    address. *)
Theorem set_ipv4_addresses_covers (self : IP_List.t) :
  ascending (IP_List.ipv4list self) ->
  let self' := IP_List.mk ([] :: IP_List.ipv4list self) (IP_List.ipv6list self) in
  IP_List.set_ipv4_addresses self = Ok self' /\
  forall x b,
    IP_List.query_bits x = Ok b -> length b = 32%nat ->
    Forall (fun p => Py.ltb b p = true) (IP_List.ipv4list self) ->
    IP_List.includes self' x = Ok true.
Proof.
  intros Ha self'. split.
  - unfold IP_List.set_ipv4_addresses. rewrite append_stored.
    replace (stored_prefix "::ffff:0:0" (Some 96))
      with (Ok (true, list_ascii_of_string "")) by (vm_compute; reflexivity).
    cbn [bind]. unfold put. cbn [fst snd]. now rewrite insort_nil.
  - intros x b Hq Hlen Habove.
    assert (Hfam : IP_List.family self' b = [] :: IP_List.ipv4list self).
    { unfold IP_List.family, Py.len. rewrite Hlen. reflexivity. }
    rewrite (includes_nonzero self' x b eq_refl Hq). f_equal.
    rewrite Hfam.
    apply scan_bisect_greatest.
    + constructor; [assumption|]. apply Forall_forall. intros q _. apply nil_least.
    + exists []. split; [|reflexivity].
      split; [now left|]. split; [apply nil_least|].
      intros q [<- | Hq'] Hqb; [reflexivity|].
      rewrite Forall_forall in Habove. apply Habove in Hq'.
      unfold le_str, Py.leb in Hqb. rewrite Hq' in Hqb. discriminate.
Qed.

Lemma set_ipv4_addresses_covers_witness :
  IP_List.includes (IP_List.mk [[]] []) "::ffff:203.0.113.9" = Ok true.
Proof.
  refine (proj2 (set_ipv4_addresses_covers (IP_List.mk [] []) _)
            "::ffff:203.0.113.9" "11001011000000000111000100001001" _ _ _).
  - constructor.
  - vm_compute. reflexivity.
  - reflexivity.
  - constructor.
Defined.

(** X12.  [read_fieldlist] only adds: every prefix held before the call is
    held after it, both sequences are ascending when it returns, each line
    of the file accounts for at most one new prefix or one printed
    warning, and every printed line begins with the warning text. *)
Theorem read_fieldlist_only_adds (self : IP_List.t) (content : str) :
  let self' := fst (IP_List.read_fieldlist self content) in
  let out := snd (IP_List.read_fieldlist self content) in
  (forall p, In p (IP_List.ipv4list self) -> In p (IP_List.ipv4list self')) /\
  (forall p, In p (IP_List.ipv6list self) -> In p (IP_List.ipv6list self')) /\
  ascending (IP_List.ipv4list self') /\ ascending (IP_List.ipv6list self') /\
  (size self <= size self')%nat /\
  (size self' + length out
   <= size self + length (IP_List.readlines content))%nat /\
  Forall (fun w => Py.startswith w IP_List.warning = true) out.
Proof.
  cbv zeta. pose proof (read_fieldlist_ascending self content) as [A4 A6].
  unfold IP_List.read_fieldlist in *.
  pose proof (read_lines_keep (IP_List.readlines content) self []) as H.
  cbv zeta in H.
  destruct (fold_left IP_List.read_line (IP_List.readlines content) (self, []))
    as [s1 o1].
  cbn [fst snd length] in *. destruct H as (K4 & K6 & Hle & Hsz & Hw).
  rewrite sorted_size.
  repeat split; auto; try lia.
  - intros p Hp. unfold IP_List.sorted. cbn [IP_List.ipv4list].
    apply sort_In. auto.
  - intros p Hp. unfold IP_List.sorted. cbn [IP_List.ipv6list].
    apply sort_In. auto.
Qed.

(** ** IPv4-mapped texts, both ways *)

Section MappedBothWays.

(** [::ffff:] before a dotted text encodes as the marker and what the IPv4
    encoder makes of the text, its exception included. *)
Lemma to_bitfield_ipv6_mapped_any (a : str) :
  has ":" a = false -> has "." a = true ->
  to_bitfield_ipv6 ("::ffff:" ++ a)
  = (b <- to_bitfield_ipv4 a ;; Ok (ipv4addrmask ++ b)).
Proof.
  intros Hcolon Hdot.
  destruct (to_bitfield_ipv4 a) as [b32|e] eqn:Hb; cbn [bind].
  - now apply to_bitfield_ipv6_mapped.
  - unfold to_bitfield_ipv6.
    change ("::ffff:" ++ a) with ("::" ++ ("ffff:" ++ a)).
    rewrite ipv6_boundary_leading by discriminate. cbn [bind].
    change (":" ++ "ffff:" ++ a) with ([] ++ ":"%char :: ("ffff" ++ ":"%char :: a)).
    rewrite (split_app [] _ ":") by reflexivity.
    rewrite (split_app "ffff" a ":") by reflexivity.
    rewrite (split_none a ":" Hcolon).
    cbn [foldM].
    change (ipv6_segment (list_ascii_of_string "", false) [])
      with (Ok (list_ascii_of_string ":", true)).
    cbn [bind].
    change (ipv6_segment (list_ascii_of_string ":", true) "ffff")
      with (Ok (list_ascii_of_string ":1111111111111111", true)).
    cbn [bind].
    unfold ipv6_segment.
    destruct a as [|c a]; [discriminate|].
    cbn [Py.str_eqb list_ascii_of_string].
    replace (Py.find (c :: a) "." >=? 0) with true
      by (symmetry; rewrite Z.geb_leb; apply Z.leb_le; now apply find_present).
    rewrite Hb. reflexivity.
Qed.

Lemma find_colon_mapped (a : str) : (Py.find ("::ffff:" ++ a) ":" <? 0) = false.
Proof. reflexivity. Qed.

Lemma find_colon_none (a : str) : has ":" a = false -> (Py.find a ":" <? 0) = true.
Proof. intros H. now rewrite (find_absent ":" a H). Qed.

Lemma mask_length : length ipv4addrmask = 96%nat.
Proof. reflexivity. Qed.

Lemma query_bits_mapped (a : str) :
  has ":" a = false -> has "." a = true ->
  IP_List.query_bits ("::ffff:" ++ a) = IP_List.query_bits a.
Proof.
  intros Hcolon Hdot. unfold IP_List.query_bits.
  rewrite find_colon_mapped, (find_colon_none a Hcolon).
  rewrite (to_bitfield_ipv6_mapped_any a Hcolon Hdot).
  destruct (to_bitfield_ipv4 a) as [b|e]; [|reflexivity]. cbn [bind].
  rewrite startswith_app. now rewrite (slice_from_app ipv4addrmask b 96).
Qed.

Lemma stored_prefix_mapped (a : str) (d : Z) :
  has ":" a = false -> has "." a = true ->
  stored_prefix ("::ffff:" ++ a) (Some (d + 96)) = stored_prefix a (Some d).
Proof.
  intros Hcolon Hdot. unfold stored_prefix.
  rewrite find_colon_mapped, (find_colon_none a Hcolon).
  rewrite (to_bitfield_ipv6_mapped_any a Hcolon Hdot).
  destruct (to_bitfield_ipv4 a) as [b|e]; [|reflexivity]. cbn [bind].
  rewrite startswith_app. cbn [IP_List.minus96 bind IP_List.upto].
  rewrite (slice_from_app ipv4addrmask b 96) by reflexivity.
  now replace (d + 96 - 96) with d by lia.
Qed.

(** *** Bit strings are numerals *)

Lemma bin_val_bound (s : str) :
  forallb Py.isbit s = true -> 0 <= bin_val s < 2 ^ Z.of_nat (length s).
Proof.
  induction s as [|c s IH] using rev_ind; [intros _; cbn; lia|].
  rewrite forallb_app. intros H. apply andb_true_iff in H as [Hs Hc].
  specialize (IH Hs). rewrite bin_val_app, length_app.
  cbn [length forallb] in *. rewrite andb_true_r in Hc.
  rewrite Nat2Z.inj_add, Z.pow_add_r by lia.
  change (2 ^ Z.of_nat 1) with 2.
  assert (Hv : bin_val [c] = 0 \/ bin_val [c] = 1).
  { unfold Py.isbit in Hc. apply orb_true_iff in Hc as [E | E];
      apply Ascii.eqb_eq in E; subst c; [left | right]; reflexivity. }
  lia.
Qed.

(** A bit string is the [_int_to_bitstring] of its value at its own width. *)
Lemma bits_numeral (s : str) :
  forallb Py.isbit s = true -> _int_to_bitstring (bin_val s) (length s) = s.
Proof.
  induction s as [|c s IH]; [reflexivity|].
  cbn [forallb length]. intros H. apply andb_true_iff in H as [Hc Hs].
  pose proof (bin_val_bound s Hs) as Hb.
  assert (Hx : bin_val (c :: s)
               = bin_val [c] * 2 ^ Z.of_nat (length s) + bin_val s)
    by apply (bin_val_app [c] s).
  assert (Hv : (c = "0"%char /\ bin_val [c] = 0) \/ (c = "1"%char /\ bin_val [c] = 1)).
  { unfold Py.isbit in Hc. apply orb_true_iff in Hc as [E | E];
      apply Ascii.eqb_eq in E; subst c; [left | right]; split; reflexivity. }
  assert (Hpos : 0 < 2 ^ Z.of_nat (length s)) by (apply Z.pow_pos_nonneg; lia).
  rewrite int_to_bitstring_top.
  - f_equal.
    + destruct Hv as [[-> Hv] | [-> Hv]]; rewrite Hx, Hv.
      * replace (0 * 2 ^ Z.of_nat (length s) + bin_val s <? 2 ^ Z.of_nat (length s))
          with true by (symmetry; apply Z.ltb_lt; lia). reflexivity.
      * replace (1 * 2 ^ Z.of_nat (length s) + bin_val s <? 2 ^ Z.of_nat (length s))
          with false by (symmetry; apply Z.ltb_ge; lia). reflexivity.
    + rewrite Hx, Z.add_comm, Z.mod_add by lia.
      rewrite Z.mod_small by lia. now apply IH.
  - rewrite Hx, Nat2Z.inj_succ, Z.pow_succ_r by lia.
    destruct Hv as [[_ ->] | [_ ->]]; lia.
Qed.

Lemma bits8_of_bits (c : str) :
  length c = 8%nat -> forallb Py.isbit c = true ->
  exists v, octet v = true /\ c = bits8 v.
Proof.
  intros Hl Hc. exists (bin_val c).
  pose proof (bin_val_bound c Hc) as Hb. rewrite Hl in Hb.
  change (2 ^ Z.of_nat 8) with 256 in Hb.
  split.
  - unfold octet. apply andb_true_iff. split; apply Z.leb_le; lia.
  - pose proof (bits_numeral c Hc) as E. rewrite Hl in E. now symmetry.
Qed.

Lemma startswith_cut (s p : str) :
  Py.startswith s p = true -> s = p ++ skipn (length p) s.
Proof.
  revert s; induction p as [|y p IH]; intros s; [reflexivity|].
  destruct s as [|x s]; [discriminate|]. cbn [Py.startswith length skipn app].
  intros H. apply andb_true_iff in H as [Hx Hp].
  apply Ascii.eqb_eq in Hx. subst y. f_equal. now apply IH.
Qed.

Lemma four_octets (b32 : str) :
  length b32 = 32%nat -> forallb Py.isbit b32 = true ->
  exists o1 o2 o3 o4,
    octet o1 = true /\ octet o2 = true /\ octet o3 = true /\ octet o4 = true /\
    b32 = bits8 o1 ++ bits8 o2 ++ bits8 o3 ++ bits8 o4.
Proof.
  intros Hl Hb.
  rewrite <- (firstn_skipn 8 b32) in Hb |- *.
  rewrite <- (firstn_skipn 8 (skipn 8 b32)) in Hb |- *.
  rewrite <- (firstn_skipn 8 (skipn 8 (skipn 8 b32))) in Hb |- *.
  rewrite !forallb_app in Hb.
  apply andb_true_iff in Hb as [H1 Hb].
  apply andb_true_iff in Hb as [H2 Hb].
  apply andb_true_iff in Hb as [H3 H4].
  destruct (bits8_of_bits (firstn 8 b32)) as (o1 & O1 & ->);
    [rewrite length_firstn; lia | assumption |].
  destruct (bits8_of_bits (firstn 8 (skipn 8 b32))) as (o2 & O2 & ->);
    [rewrite length_firstn, length_skipn; lia | assumption |].
  destruct (bits8_of_bits (firstn 8 (skipn 8 (skipn 8 b32)))) as (o3 & O3 & ->);
    [rewrite length_firstn, !length_skipn; lia | assumption |].
  destruct (bits8_of_bits (skipn 8 (skipn 8 (skipn 8 b32)))) as (o4 & O4 & ->);
    [rewrite !length_skipn; lia | assumption |].
  exists o1, o2, o3, o4. repeat split; assumption.
Qed.

(** The IPv4 encoder on the dotted text of four octets *)
Lemma to_bitfield_ipv4_octets (o1 o2 o3 o4 : Z) :
  octet o1 = true -> octet o2 = true -> octet o3 = true -> octet o4 = true ->
  to_bitfield_ipv4 (dotted (Py.str_of_int o1) (Py.str_of_int o2)
                           (Py.str_of_int o3) (Py.str_of_int o4))
  = Ok (bits8 o1 ++ bits8 o2 ++ bits8 o3 ++ bits8 o4).
Proof.
  intros H1 H2 H3 H4.
  destruct (str_of_int_octet o1 H1) as [D1 V1].
  destruct (str_of_int_octet o2 H2) as [D2 V2].
  destruct (str_of_int_octet o3 H3) as [D3 V3].
  destruct (str_of_int_octet o4 H4) as [D4 V4].
  rewrite to_bitfield_ipv4_dotted by assumption.
  rewrite V1, V2, V3, V4. cbn [forallb]. now rewrite H1, H2, H3, H4.
Qed.

Lemma octets_dotted_valid (o1 o2 o3 o4 : Z) :
  octet o1 = true -> octet o2 = true -> octet o3 = true -> octet o4 = true ->
  let a := dotted (Py.str_of_int o1) (Py.str_of_int o2)
                  (Py.str_of_int o3) (Py.str_of_int o4) in
  has ":" a = false /\ is_valid_ip a = true.
Proof.
  intros H1 H2 H3 H4 a.
  destruct (str_of_int_octet o1 H1) as [D1 V1].
  destruct (str_of_int_octet o2 H2) as [D2 V2].
  destruct (str_of_int_octet o3 H3) as [D3 V3].
  destruct (str_of_int_octet o4 H4) as [D4 V4].
  split; [now apply dotted_no_colon|].
  unfold a. rewrite is_valid_ip_dotted by assumption.
  now rewrite to_bitfield_ipv4_octets.
Qed.

(** The last 32 bits of a marked address decode to the dotted text of
    the four octets they spell. *)
Lemma decode_mapped (b : str) :
  length b = 128%nat -> forallb Py.isbit b = true ->
  Py.startswith b ipv4addrmask = true ->
  exists o1 o2 o3 o4,
    octet o1 = true /\ octet o2 = true /\ octet o3 = true /\ octet o4 = true /\
    b = ipv4addrmask ++ bits8 o1 ++ bits8 o2 ++ bits8 o3 ++ bits8 o4 /\
    dotted_of_bits (Py.slice_from b (-32))
    = Ok (dotted (Py.str_of_int o1) (Py.str_of_int o2)
                 (Py.str_of_int o3) (Py.str_of_int o4)).
Proof.
  intros Hl Hbits Hm.
  apply startswith_cut in Hm. rewrite mask_length in Hm.
  assert (Hl32 : length (skipn 96 b) = 32%nat) by (rewrite length_skipn; lia).
  assert (Hb32 : forallb Py.isbit (skipn 96 b) = true).
  { rewrite Hm, forallb_app in Hbits. now apply andb_true_iff in Hbits as [_ ?]. }
  destruct (four_octets _ Hl32 Hb32) as (o1 & o2 & o3 & o4 & O1 & O2 & O3 & O4 & E).
  exists o1, o2, o3, o4. rewrite E in Hm.
  repeat (split; [assumption|]).
  rewrite Hm. rewrite (slice_from_end ipv4addrmask _ 32).
  - now apply dotted_of_bits_octets.
  - unfold Py.len. now rewrite <- E, Hl32.
  - lia.
Qed.

End MappedBothWays.

(** X13.  A dotted IPv4 text and the same text behind [::ffff:] are one
    query: [includes] returns the same verdict, or raises the same
    exception, for both, on every store. *)
Theorem includes_mapped_same (self : IP_List.t) (a : str) :
  has ":" a = false -> has "." a = true ->
  IP_List.includes self ("::ffff:" ++ a) = IP_List.includes self a.
Proof.
  intros Hcolon Hdot. unfold IP_List.includes.
  now rewrite (query_bits_mapped a Hcolon Hdot).
Qed.

Lemma includes_mapped_same_witness :
  IP_List.includes (IP_List.mk [list_ascii_of_string "00001010"] [])
                   ("::ffff:" ++ "10.1.2.3")
  = IP_List.includes (IP_List.mk [list_ascii_of_string "00001010"] [])
                     "10.1.2.3".
Proof.
  apply (includes_mapped_same
           (IP_List.mk [list_ascii_of_string "00001010"] []) "10.1.2.3");
    reflexivity.
Defined.

(** X14.  Storing a range through the IPv4-mapped form with depth [d + 96]
    is storing it through the dotted form with depth [d]: [append] and
    [_append] give the same store, or raise the same exception. *)
Theorem append_mapped_same (self : IP_List.t) (a : str) (d : Z) :
  has ":" a = false -> has "." a = true ->
  IP_List.append self ("::ffff:" ++ a) (Some (d + 96))
  = IP_List.append self a (Some d)
  /\ IP_List._append self ("::ffff:" ++ a) (Some (d + 96))
     = IP_List._append self a (Some d).
Proof.
  intros Hcolon Hdot. rewrite !append_stored, !_append_stored.
  now rewrite (stored_prefix_mapped a d Hcolon Hdot).
Qed.

Lemma append_mapped_same_witness :
  IP_List.append (IP_List.mk [] []) ("::ffff:" ++ "10.0.0.0") (Some (8 + 96))
  = IP_List.append (IP_List.mk [] []) "10.0.0.0" (Some 8).
Proof.
  apply (proj1 (append_mapped_same (IP_List.mk [] []) "10.0.0.0" 8
                  eq_refl eq_refl)).
Defined.

(** X15.  [ipv6_to_ipv4] on a text the IPv6 encoder accepts: when the
    bits do not begin with the IPv4-mapped marker it raises [ValueError];
    when they do it returns the dotted decimal text of four octets, written
    without leading zeros, and encoding that text gives back the last 32
    bits.  The conversion of the four 8-bit groups never fails. *)
Theorem ipv6_to_ipv4_decodes (ip b : str) :
  to_bitfield_ipv6 ip = Ok b ->
  if Py.startswith b ipv4addrmask then
    exists o1 o2 o3 o4,
      octet o1 = true /\ octet o2 = true /\ octet o3 = true /\ octet o4 = true /\
      b = ipv4addrmask ++ bits8 o1 ++ bits8 o2 ++ bits8 o3 ++ bits8 o4 /\
      ipv6_to_ipv4 ip = Ok (dotted (Py.str_of_int o1) (Py.str_of_int o2)
                                   (Py.str_of_int o3) (Py.str_of_int o4)) /\
      to_bitfield_ipv4 (dotted (Py.str_of_int o1) (Py.str_of_int o2)
                               (Py.str_of_int o3) (Py.str_of_int o4))
      = Ok (bits8 o1 ++ bits8 o2 ++ bits8 o3 ++ bits8 o4)
  else ipv6_to_ipv4 ip = Raise ValueError.
Proof.
  intros Hb. unfold ipv6_to_ipv4. rewrite Hb. cbn [bind].
  destruct (Py.startswith b ipv4addrmask) eqn:Hm; [|reflexivity].
  cbn [negb].
  destruct (decode_mapped b (to_bitfield_ipv6_length ip b Hb)
              (to_bitfield_ipv6_isbit ip b Hb) Hm)
    as (o1 & o2 & o3 & o4 & O1 & O2 & O3 & O4 & E & Hd).
  exists o1, o2, o3, o4.
  repeat (split; [assumption|]).
  now apply to_bitfield_ipv4_octets.
Qed.

Lemma ipv6_to_ipv4_decodes_witness :
  ipv6_to_ipv4 "2001:db8::1" = Raise ValueError.
Proof.
  exact (ipv6_to_ipv4_decodes "2001:db8::1"
           "00100000000000010000110110111000000000000000000000000000000000000000000000000000000000000000000000000000000000000000000000000001"
           ltac:(vm_compute; reflexivity)).
Defined.

(** X16.  What [to_ipv4] returns is a fixed point of it: the result has
    no colon, passes [is_valid_ip], and [to_ipv4] maps it to itself. *)
Theorem to_ipv4_idempotent (ip a : str) :
  to_ipv4 ip = Ok a ->
  is_ipv4 a = true /\ is_valid_ip a = true /\ to_ipv4 a = Ok a.
Proof.
  unfold to_ipv4. destruct (is_ipv4 ip) eqn:E4.
  - destruct (_valid_ipv4 ip) as [[]|] eqn:Ev; cbn [bind]; [|discriminate].
    intros H. apply Ok_inj in H. subst a.
    rewrite E4, Ev. cbn [bind]. repeat split.
    unfold is_valid_ip. rewrite E4, Ev.
    destruct ip; [discriminate Ev | reflexivity].
  - intros H.
    assert (Hv : exists b, to_bitfield_ipv6 ip = Ok b).
    { unfold ipv6_to_ipv4 in H.
      destruct (to_bitfield_ipv6 ip); [eexists; reflexivity | discriminate]. }
    destruct Hv as (b & Hb).
    unfold ipv6_to_ipv4 in H. rewrite Hb in H. cbn [bind] in H.
    destruct (Py.startswith b ipv4addrmask) eqn:Hm; [|discriminate].
    cbn [negb] in H.
    destruct (decode_mapped b (to_bitfield_ipv6_length ip b Hb)
                (to_bitfield_ipv6_isbit ip b Hb) Hm)
      as (o1 & o2 & o3 & o4 & O1 & O2 & O3 & O4 & _ & Hd).
    rewrite Hd in H. apply Ok_inj in H. subst a.
    destruct (octets_dotted_valid o1 o2 o3 o4 O1 O2 O3 O4) as [Hc Hval].
    assert (H4 : is_ipv4 (dotted (Py.str_of_int o1) (Py.str_of_int o2)
                                 (Py.str_of_int o3) (Py.str_of_int o4)) = true)
      by (unfold is_ipv4; now apply find_colon_none).
    split; [exact H4|]. split; [exact Hval|].
    rewrite H4. unfold is_valid_ip in Hval. rewrite H4 in Hval.
    destruct (dotted _ _ _ _); [discriminate|].
    destruct (_valid_ipv4 _) as [[]|]; [reflexivity | discriminate].
Qed.

Lemma to_ipv4_idempotent_witness :
  is_ipv4 "10.1.2.3" = true /\ is_valid_ip "10.1.2.3" = true /\
  to_ipv4 "10.1.2.3" = Ok (list_ascii_of_string "10.1.2.3").
Proof.
  exact (to_ipv4_idempotent "::ffff:a01:203" "10.1.2.3"
           ltac:(vm_compute; reflexivity)).
Defined.

(** ** The lines of a range file *)

Section Lines.

Lemma field_char_inv (c : ascii) :
  field_char c = true -> Py.isspace c = false /\ Ascii.eqb c "#" = false.
Proof.
  unfold field_char. intros H. apply andb_true_iff in H as [H1 H2].
  split; now apply negb_true_iff.
Qed.

Lemma lstrip_all (w s : str) :
  forallb Py.isspace w = true -> Py.lstrip (w ++ s) = Py.lstrip s.
Proof.
  induction w as [|a w IH]; cbn [app forallb]; intros H; [reflexivity|].
  apply andb_true_iff in H as [Ha Hw]. cbn [Py.lstrip]. rewrite Ha. now apply IH.
Qed.

Lemma forallb_rev (f : ascii -> bool) (w : str) :
  forallb f w = true -> forallb f (rev w) = true.
Proof.
  rewrite !forallb_forall. intros H c Hc. apply H. now apply in_rev.
Qed.

(** [rstrip] stops at the last character that is not white space. *)
Lemma rstrip_tail (u w : str) (c : ascii) :
  Py.isspace c = false -> forallb Py.isspace w = true ->
  Py.rstrip (u ++ c :: w) = u ++ [c].
Proof.
  intros Hc Hw. unfold Py.rstrip.
  rewrite rev_app_distr. cbn [rev]. rewrite <- app_assoc.
  rewrite lstrip_all by now apply forallb_rev.
  cbn [app Py.lstrip]. rewrite Hc. cbn [rev]. now rewrite rev_involutive.
Qed.

Lemma last_nonspace (s : str) :
  forallb Py.isspace s = false ->
  exists u c w, s = u ++ c :: w /\ Py.isspace c = false
                /\ forallb Py.isspace w = true.
Proof.
  induction s as [|x s IH]; [discriminate|]. cbn [forallb]. intros H.
  destruct (forallb Py.isspace s) eqn:Es.
  - rewrite andb_true_r in H. exists [], x, s. repeat split; assumption.
  - destruct (IH eq_refl) as (u & c & w & -> & Hc & Hw).
    exists (x :: u), c, w. repeat split; assumption.
Qed.

Lemma lstrip_field (t rest : str) :
  t <> [] -> forallb field_char t = true -> Py.lstrip (t ++ rest) = t ++ rest.
Proof.
  destruct t as [|x t]; [congruence|]. cbn [forallb]. intros _ H.
  apply andb_true_iff in H as [Hx _]. apply field_char_inv in Hx as [Hx _].
  cbn [app Py.lstrip]. now rewrite Hx.
Qed.

Lemma sep_char (c : ascii) :
  (Ascii.eqb c " " || Ascii.eqb c "009" || Ascii.eqb c "#")%bool = true ->
  c = " "%char \/ c = "009"%char \/ c = "#"%char.
Proof.
  intros H. apply orb_true_iff in H as [H | H];
    [apply orb_true_iff in H as [H | H]|]; apply Ascii.eqb_eq in H; auto.
Qed.

(** After [strip], what follows the first field is nothing, or still
    begins with the blank, tab or [#] it began with. *)
Lemma strip_field_trailer (t rest : str) :
  t <> [] -> forallb field_char t = true -> trailer rest = true ->
  exists r, Py.strip (t ++ rest) = t ++ r /\
            (r = [] \/ exists c g, r = c :: g /\
                         (c = " "%char \/ c = "009"%char \/ c = "#"%char)).
Proof.
  intros Hne Ht Hr. unfold Py.strip. rewrite (lstrip_field t rest Hne Ht).
  destruct (forallb Py.isspace rest) eqn:Er.
  - exists []. split; [|now left]. rewrite app_nil_r.
    destruct (exists_last Hne) as (u & c & ->).
    rewrite forallb_app in Ht. apply andb_true_iff in Ht as [_ Hc].
    cbn [forallb] in Hc. rewrite andb_true_r in Hc.
    apply field_char_inv in Hc as [Hc _].
    rewrite <- app_assoc. cbn [app]. now apply rstrip_tail.
  - destruct (last_nonspace rest Er) as (u & c & w & -> & Hc & Hw).
    exists (u ++ [c]). split.
    + rewrite app_assoc, (rstrip_tail (t ++ u) w c Hc Hw). now rewrite app_assoc.
    + right. unfold trailer in Hr. rewrite Er in Hr. cbn [orb] in Hr.
      destruct u as [|a u]; cbn [app] in *; apply sep_char in Hr; eauto.
Qed.

Lemma strip_field (t : str) :
  t <> [] -> forallb field_char t = true -> Py.strip t = t.
Proof.
  intros Hne Ht. unfold Py.strip.
  rewrite <- (app_nil_r t) at 1. rewrite (lstrip_field t [] Hne Ht), app_nil_r.
  destruct (exists_last Hne) as (u & c & ->).
  rewrite forallb_app in Ht. apply andb_true_iff in Ht as [_ Hc].
  cbn [forallb] in Hc. rewrite andb_true_r in Hc.
  apply field_char_inv in Hc as [Hc _].
  now apply rstrip_tail.
Qed.

Lemma expandtabs_field (t r : str) (col : nat) :
  forallb field_char t = true ->
  Py.expandtabs_from (t ++ r) col
  = t ++ Py.expandtabs_from r (col + length t)%nat.
Proof.
  revert col; induction t as [|x t IH]; intros col Ht.
  - cbn [app length]. now rewrite Nat.add_0_r.
  - cbn [forallb] in Ht. apply andb_true_iff in Ht as [Hx Ht].
    apply field_char_inv in Hx as [Hx _].
    assert (H9 : Ascii.eqb x "009" = false) by char_differs.
    assert (H10 : Ascii.eqb x "010" = false) by char_differs.
    assert (H13 : Ascii.eqb x "013" = false) by char_differs.
    cbn [app Py.expandtabs_from length]. rewrite H9, H10, H13. cbn [orb].
    rewrite (IH (S col) Ht). now rewrite Nat.add_succ_r.
Qed.

Lemma expandtabs_gap (r : str) (col : nat) :
  (r = [] \/ exists c g, r = c :: g /\
                (c = " "%char \/ c = "009"%char \/ c = "#"%char)) ->
  Py.expandtabs_from r col = []
  \/ exists g, Py.expandtabs_from r col = " "%char :: g
               \/ Py.expandtabs_from r col = "#"%char :: g.
Proof.
  intros [-> | (c & g & -> & [-> | [-> | ->]])].
  - now left.
  - right. exists (Py.expandtabs_from g (S col)). now left.
  - right.
    change (Py.expandtabs_from ("009"%char :: g) col)
      with (repeat " "%char (8 - Nat.modulo col 8)
            ++ Py.expandtabs_from g (col + (8 - Nat.modulo col 8))%nat).
    pose proof (Nat.mod_upper_bound col 8 ltac:(discriminate)) as Hm.
    destruct (8 - Nat.modulo col 8)%nat as [|n] eqn:E; [lia|].
    cbn [repeat app]. eexists. left. reflexivity.
  - right. exists (Py.expandtabs_from g (S col)). now right.
Qed.

(** The line as the loop sees it after [strip] and [expandtabs] *)
Lemma line_trailer (t rest : str) :
  t <> [] -> forallb field_char t = true -> trailer rest = true ->
  exists r, Py.expandtabs (Py.strip (t ++ rest)) = t ++ r /\
            (r = [] \/ exists g, r = " "%char :: g \/ r = "#"%char :: g).
Proof.
  intros Hne Ht Hr.
  destruct (strip_field_trailer t rest Hne Ht Hr) as (r & -> & Hgap).
  unfold Py.expandtabs. rewrite (expandtabs_field t r 0 Ht).
  eexists. split; [reflexivity|]. now apply expandtabs_gap.
Qed.

Lemma line_field (t : str) :
  t <> [] -> forallb field_char t = true -> Py.expandtabs (Py.strip t) = t.
Proof.
  intros Hne Ht. rewrite (strip_field t Hne Ht). unfold Py.expandtabs.
  rewrite <- (app_nil_r t) at 1. rewrite (expandtabs_field t [] 0 Ht).
  cbn [Py.expandtabs_from]. apply app_nil_r.
Qed.

Lemma split1_none (a : str) (sep : ascii) :
  has sep a = false -> Py.split1 a sep = [a].
Proof.
  induction a as [|x a IH]; [reflexivity|]. cbn [has existsb]. intros H.
  apply orb_false_iff in H as [Hx Ha]. cbn [Py.split1]. rewrite Hx.
  now rewrite (IH Ha).
Qed.

Lemma split1_app (a b : str) (sep : ascii) :
  has sep a = false -> Py.split1 (a ++ sep :: b) sep = [a; b].
Proof.
  induction a as [|x a IH]; intros H.
  - cbn [app Py.split1]. now rewrite Ascii.eqb_refl.
  - cbn [has existsb] in H. apply orb_false_iff in H as [Hx Ha].
    cbn [app Py.split1]. rewrite Hx. now rewrite (IH Ha).
Qed.

Lemma cut_at_none (a : str) (sep : ascii) : has sep a = false -> cut_at a sep = a.
Proof. intros H. unfold cut_at. now rewrite split1_none. Qed.

Lemma cut_at_app (a b : str) (sep : ascii) :
  has sep a = false -> cut_at (a ++ sep :: b) sep = a.
Proof. intros H. unfold cut_at. now rewrite split1_app. Qed.

Lemma has_first (c : ascii) (s : str) :
  has c s = true -> exists a b, s = a ++ c :: b /\ has c a = false.
Proof.
  induction s as [|x s IH]; [discriminate|]. cbn [has existsb].
  destruct (Ascii.eqb x c) eqn:Ex.
  - intros _. apply Ascii.eqb_eq in Ex. subst x. now exists [], s.
  - cbn [orb]. intros H. destruct (IH H) as (a & b & -> & Ha).
    exists (x :: a), b. split; [reflexivity|].
    cbn [has existsb]. rewrite Ex. exact Ha.
Qed.

Lemma field_has_not (t : str) :
  forallb field_char t = true -> has " " t = false /\ has "#" t = false.
Proof.
  intros Ht. rewrite forallb_forall in Ht.
  split; apply has_false_intro; intros x Hx;
    destruct (field_char_inv x (Ht x Hx)) as [Hs Hh]; [char_differs | exact Hh].
Qed.

(** The two [split(..., 1)] of the loop leave the first field. *)
Lemma cut_field (t r : str) :
  forallb field_char t = true ->
  (r = [] \/ exists g, r = " "%char :: g \/ r = "#"%char :: g) ->
  cut_at (cut_at (t ++ r) " ") "#" = t.
Proof.
  intros Ht Hr. destruct (field_has_not t Ht) as [Hsp Hh].
  destruct Hr as [-> | (g & [-> | ->])].
  - rewrite app_nil_r, (cut_at_none t " " Hsp). now apply cut_at_none.
  - rewrite cut_at_app by assumption. now apply cut_at_none.
  - assert (Hcut : exists g', cut_at (t ++ "#"%char :: g) " " = t ++ "#"%char :: g').
    { destruct (has " " g) eqn:Eg.
      - destruct (has_first " " g Eg) as (g1 & g2 & -> & Hg1).
        exists g1.
        change (t ++ "#"%char :: g1 ++ " "%char :: g2)
          with (t ++ ("#"%char :: g1) ++ " "%char :: g2).
        rewrite app_assoc. apply cut_at_app.
        rewrite has_app, Hsp. cbn [has existsb orb]. exact Hg1.
      - exists g. apply cut_at_none.
        rewrite has_app, Hsp. cbn [has existsb orb]. exact Eg. }
    destruct Hcut as (g' & ->). now apply cut_at_app.
Qed.

Lemma blank_check_field (t r : str) :
  t <> [] -> forallb field_char t = true ->
  (Py.str_eqb (t ++ r) "" || Py.str_eqb (Py.slice_to (t ++ r) 1) "#")%bool
  = false.
Proof.
  destruct t as [|x t]; [congruence|]. intros _ Ht.
  cbn [forallb] in Ht. apply andb_true_iff in Ht as [Hx _].
  apply field_char_inv in Hx as [_ Hx].
  rewrite slice_to_nonneg by lia. change (Z.to_nat 1) with 1%nat.
  cbn [app firstn Py.str_eqb list_ascii_of_string orb]. now rewrite Hx.
Qed.

(** Two lines that look the same after [strip], [expandtabs] and the two
    cuts are read the same. *)
Lemma read_line_same (st : IP_List.t * list str) (l l' : str) :
  (Py.str_eqb (Py.expandtabs (Py.strip l)) ""
   || Py.str_eqb (Py.slice_to (Py.expandtabs (Py.strip l)) 1) "#")%bool
  = (Py.str_eqb (Py.expandtabs (Py.strip l')) ""
     || Py.str_eqb (Py.slice_to (Py.expandtabs (Py.strip l')) 1) "#")%bool ->
  cut_at (cut_at (Py.expandtabs (Py.strip l)) " ") "#"
  = cut_at (cut_at (Py.expandtabs (Py.strip l')) " ") "#" ->
  IP_List.read_line st l = IP_List.read_line st l'.
Proof.
  intros Hc Hcut. destruct st as [self out].
  unfold IP_List.read_line. unfold cut_at in Hcut. cbv zeta.
  rewrite Hc, Hcut. reflexivity.
Qed.

(** What follows the first field does not matter. *)
Lemma read_line_trailer_eq (self : IP_List.t) (out : list str) (t rest : str) :
  t <> [] -> forallb field_char t = true -> trailer rest = true ->
  IP_List.read_line (self, out) (t ++ rest) = IP_List.read_line (self, out) t.
Proof.
  intros Hne Ht Hr. apply read_line_same.
  - destruct (line_trailer t rest Hne Ht Hr) as (r & -> & _).
    rewrite (line_field t Hne Ht).
    rewrite (blank_check_field t r Hne Ht).
    pose proof (blank_check_field t [] Hne Ht) as Hb.
    rewrite app_nil_r in Hb. now rewrite Hb.
  - destruct (line_trailer t rest Hne Ht Hr) as (r & -> & Hgap).
    rewrite (line_field t Hne Ht).
    rewrite (cut_field t r Ht Hgap).
    pose proof (cut_field t [] Ht (or_introl eq_refl)) as Hc.
    rewrite app_nil_r in Hc. now rewrite Hc.
Qed.

Lemma entry_field (ip d : str) :
  forallb field_char ip = true -> forallb Py.isdigit d = true ->
  ip ++ "/" ++ d <> [] /\ forallb field_char (ip ++ "/" ++ d) = true.
Proof.
  intros Hip Hds. split; [destruct ip; discriminate|].
  change ("/" ++ d) with ("/"%char :: d).
  rewrite forallb_app, Hip. cbn [forallb].
  change (field_char "/") with true. cbn [andb].
  rewrite forallb_forall in Hds |- *. intros c Hc. specialize (Hds c Hc).
  unfold field_char. rewrite (isdigit_not_space c Hds).
  assert (E : Ascii.eqb c "#" = false) by char_differs. now rewrite E.
Qed.

(** The line [ip/depth] alone *)
Lemma read_line_plain_entry (self : IP_List.t) (out : list str) (ip d : str) :
  forallb field_char ip = true -> has "/" ip = false ->
  d <> [] -> forallb Py.isdigit d = true ->
  IP_List.read_line (self, out) (ip ++ "/" ++ d)
  = match IP_List._append self ip (Some (Py.dec_val d)) with
    | Ok self' => (self', out)
    | Raise _ => (self, out ++ [IP_List.warning ++ ip ++ "/" ++ d])
    end.
Proof.
  intros Hip Hslash Hd Hds.
  destruct (entry_field ip d Hip Hds) as [Hne Ht].
  set (t := ip ++ "/" ++ d) in *.
  assert (Hsplit : Py.split t "/" = [ip; d]).
  { unfold t. change ("/" ++ d) with ("/"%char :: d).
    rewrite (split_app ip d "/" Hslash).
    rewrite split_none; [reflexivity|].
    apply digits_have_not; [assumption | reflexivity]. }
  pose proof (line_field t Hne Ht) as HE.
  pose proof (blank_check_field t [] Hne Ht) as Hb. rewrite app_nil_r in Hb.
  pose proof (cut_field t [] Ht (or_introl eq_refl)) as Hcut.
  rewrite app_nil_r in Hcut. unfold cut_at in Hcut.
  unfold IP_List.read_line. cbv zeta. rewrite HE, Hb, Hcut, Hsplit.
  cbn [IP_List.unpack2]. rewrite (int_digits d Hd Hds). cbn [bind].
  reflexivity.
Qed.

End Lines.

(** X17.  [read_fieldlist] reads only the first field of a line: after a
    field without white space or [#], anything that begins with a blank,
    a tab or [#], and any trailing white space such as the line ending, is
    ignored. *)
Theorem read_line_ignores_trailer
        (self : IP_List.t) (out : list str) (t rest : str) :
  t <> [] -> forallb field_char t = true -> trailer rest = true ->
  IP_List.read_line (self, out) (t ++ rest) = IP_List.read_line (self, out) t.
Proof. apply read_line_trailer_eq. Qed.

Lemma read_line_ignores_trailer_witness :
  IP_List.read_line (IP_List.mk [] [], [])
                    ("fe80::" ++ "   # link local" ++ newline)
  = IP_List.read_line (IP_List.mk [] [], []) "fe80::".
Proof.
  apply (read_line_ignores_trailer (IP_List.mk [] []) [] "fe80::"
           ("   # link local" ++ newline)).
  - discriminate.
  - reflexivity.
  - reflexivity.
Defined.

(** X18.  A line [ip/depth <whatever>], with [depth] a run of decimal
    digits, an [ip] field free of white space, [#] and [/], and a rest
    that is white space or begins with a blank, a tab or [#], is one
    [_append] of [ip] at that depth: the store gains the entry, or, when
    [_append] raises, stays as it was while the warning with [ip/depth]
    is printed. *)
Theorem read_line_entry (self : IP_List.t) (out : list str) (ip d rest : str) :
  forallb field_char ip = true -> has "/" ip = false ->
  d <> [] -> forallb Py.isdigit d = true -> trailer rest = true ->
  IP_List.read_line (self, out) ((ip ++ "/" ++ d) ++ rest)
  = match IP_List._append self ip (Some (Py.dec_val d)) with
    | Ok self' => (self', out)
    | Raise _ => (self, out ++ [IP_List.warning ++ ip ++ "/" ++ d])
    end.
Proof.
  intros Hip Hslash Hd Hds Hr.
  destruct (entry_field ip d Hip Hds) as [Hne Ht].
  rewrite (read_line_trailer_eq self out _ rest Hne Ht Hr).
  now apply read_line_plain_entry.
Qed.

Lemma read_line_entry_witness :
  IP_List.read_line (IP_List.mk [] [], [])
                    (("192.168.0.0" ++ "/" ++ "16") ++ " home network" ++ newline)
  = (IP_List.mk [list_ascii_of_string "1100000010101000"] [], []).
Proof.
  apply (read_line_entry (IP_List.mk [] []) [] "192.168.0.0" "16"
           (" home network" ++ newline));
    [reflexivity | reflexivity | discriminate | reflexivity | reflexivity].
Defined.

(** X19.  For a text with a colon, [is_valid_ip] is an exact guard: it
    is true exactly when [includes] can encode the text, and then [append]
    with any integer depth stores it without raising. *)
Theorem is_valid_ip_guards_ipv6 (ip : str) :
  is_ipv4 ip = false ->
  (is_valid_ip ip = true <-> exists b, IP_List.query_bits ip = Ok b) /\
  (is_valid_ip ip = true ->
   forall self d, exists self', IP_List.append self ip (Some d) = Ok self').
Proof.
  intros H6. unfold is_ipv4 in H6.
  assert (Hv : is_valid_ip ip = succeeds (to_bitfield_ipv6 ip)).
  { apply is_valid_ip_colon. apply Z.ltb_ge in H6. lia. }
  rewrite Hv. unfold IP_List.query_bits, IP_List.append. rewrite H6.
  destruct (to_bitfield_ipv6 ip) as [b|e]; cbn [bind succeeds].
  - split.
    + split; [intros _; eexists; reflexivity | reflexivity].
    + intros _ self d. destruct (Py.startswith b ipv4addrmask);
        cbn [IP_List.minus96 bind]; eexists; reflexivity.
  - split; [|discriminate].
    split; [discriminate | intros (b & Hb); discriminate].
Qed.

Lemma is_valid_ip_guards_ipv6_witness :
  is_valid_ip "fe80::1" = true <-> exists b, IP_List.query_bits "fe80::1" = Ok b.
Proof.
  exact (proj1 (is_valid_ip_guards_ipv6 "fe80::1" eq_refl)).
Defined.

(** ** A file of ranges and the constructor *)

Section Compose.

Lemma readlines_line (l rest : str) :
  has "010" l = false ->
  IP_List.readlines (l ++ newline ++ rest) = (l ++ newline) :: IP_List.readlines rest.
Proof.
  induction l as [|x l IH]; intros H.
  - reflexivity.
  - cbn [has existsb] in H. apply orb_false_iff in H as [Hx Hl].
    cbn [app IP_List.readlines]. rewrite Hx.
    change (l ++ "010"%char :: rest) with (l ++ newline ++ rest).
    now rewrite (IH Hl).
Qed.

Lemma field_no_newline (t : str) :
  forallb field_char t = true -> has "010" t = false.
Proof.
  intros Ht. rewrite forallb_forall in Ht.
  apply has_false_intro. intros x Hx.
  destruct (field_char_inv x (Ht x Hx)) as [Hs _]. char_differs.
Qed.

Lemma startswith_firstn (n : nat) (b : str) : Py.startswith b (firstn n b) = true.
Proof.
  revert n; induction b as [|c b IH]; intros [|n]; try reflexivity.
  cbn [firstn Py.startswith]. rewrite Ascii.eqb_refl. apply IH.
Qed.

Lemma startswith_upto (b : str) (depth : option Z) :
  Py.startswith b (IP_List.upto b depth) = true.
Proof.
  destruct depth as [d|]; [apply startswith_firstn | apply startswith_refl].
Qed.

(** Whatever the depth, the stored prefix starts the bits [includes]
    makes of the same text, and goes to the sequence [includes] searches. *)
Lemma stored_prefix_starts (ip p : str) (depth : option Z) (f : bool) :
  stored_prefix ip depth = Ok (f, p) ->
  exists b, IP_List.query_bits ip = Ok b /\ Py.startswith b p = true /\
            forall self, IP_List.family self b
                         = if f then IP_List.ipv4list self
                           else IP_List.ipv6list self.
Proof.
  unfold stored_prefix. intros Hs.
  destruct (Py.find ip ":" <? 0) eqn:E4.
  - destruct (to_bitfield_ipv4 ip) as [b|] eqn:Eb; cbn [bind] in Hs;
      [|discriminate].
    apply Ok_inj, pair_inj in Hs as [<- <-].
    assert (Hq : IP_List.query_bits ip = Ok b)
      by (unfold IP_List.query_bits; now rewrite E4).
    exists b. split; [exact Hq|]. split; [apply startswith_upto|].
    pose proof (to_bitfield_ipv4_length ip b Eb) as L.
    destruct (query_bits_shape ip b Hq) as (_ & [[_ F] | [L' _]]);
      [exact F | lia].
  - destruct (to_bitfield_ipv6 ip) as [b|] eqn:Eb; cbn [bind] in Hs;
      [|discriminate].
    pose proof (to_bitfield_ipv6_length ip b Eb) as L.
    assert (Hq : IP_List.query_bits ip
                 = Ok (if Py.startswith b ipv4addrmask
                       then Py.slice_from b 96 else b))
      by (unfold IP_List.query_bits; now rewrite E4, Eb).
    pose proof (query_bits_shape ip _ Hq) as (_ & Hshape).
    destruct (Py.startswith b ipv4addrmask).
    + destruct (IP_List.minus96 depth) as [d|]; cbn [bind] in Hs;
        [|discriminate].
      apply Ok_inj, pair_inj in Hs as [<- <-].
      exists (Py.slice_from b 96). split; [exact Hq|].
      split; [apply startswith_firstn|].
      destruct Hshape as [[_ F] | [L' _]]; [exact F|].
      rewrite slice_from_nonneg, length_skipn in L' by lia. lia.
    + apply Ok_inj, pair_inj in Hs as [<- <-].
      exists b. split; [exact Hq|]. split; [apply startswith_upto|].
      destruct Hshape as [[L' _] | (_ & _ & F)]; [lia | exact F].
Qed.

(** The entry and the line of a well-formed [ip/depth] pair *)
Lemma read_lines_entries (es : list (str * str)) (s s' : IP_List.t) (out : list str) :
  Forall (fun e => forallb field_char (fst e) = true /\ has "/" (fst e) = false /\
                   snd e <> [] /\ forallb Py.isdigit (snd e) = true) es ->
  foldM (fun self e => IP_List._append self (fst e) (snd e))
        (map (fun e => (fst e, Some (Py.dec_val (snd e)))) es) s = Ok s' ->
  fold_left IP_List.read_line
            (map (fun e => (fst e ++ "/" ++ snd e) ++ newline) es) (s, out)
  = (s', out).
Proof.
  intros Hes. revert s. induction Hes as [|e es (Hip & Hslash & Hd & Hds) _ IH];
    intros s H.
  - cbn [map foldM] in H. apply Ok_inj in H. now subst s'.
  - cbn [map foldM fold_left fst snd] in H |- *.
    destruct (entry_field (fst e) (snd e) Hip Hds) as [Hne Ht].
    rewrite (read_line_trailer_eq s out _ newline Hne Ht eq_refl).
    rewrite (read_line_plain_entry s out _ _ Hip Hslash Hd Hds).
    destruct (IP_List._append s (fst e) (Some (Py.dec_val (snd e)))) as [s1|];
      cbn [bind] in H; [|discriminate].
    now apply IH.
Qed.

Lemma readlines_entries (es : list (str * str)) :
  Forall (fun e => forallb field_char (fst e) = true /\ has "/" (fst e) = false /\
                   snd e <> [] /\ forallb Py.isdigit (snd e) = true) es ->
  IP_List.readlines (concat (map (fun e => (fst e ++ "/" ++ snd e) ++ newline) es))
  = map (fun e => (fst e ++ "/" ++ snd e) ++ newline) es.
Proof.
  induction 1 as [|e es (Hip & Hslash & Hd & Hds) _ IH]; [reflexivity|].
  cbn [map concat]. rewrite <- app_assoc.
  destruct (entry_field (fst e) (snd e) Hip Hds) as [_ Ht].
  rewrite (readlines_line _ _ (field_no_newline _ Ht)). now rewrite IH.
Qed.

End Compose.

(** X20.  Whatever depth it is given, [append] stores a prefix of the
    address it is given: after [append(ip, depth)] some stored prefix of
    the sequence that [includes(ip)] searches starts the bits of [ip]. *)
Theorem append_covers_address (self self' : IP_List.t) (ip : str) (depth : option Z) :
  IP_List.append self ip depth = Ok self' ->
  exists b, IP_List.query_bits ip = Ok b /\
            linear_scan (IP_List.family self' b) b = true.
Proof.
  rewrite append_stored.
  destruct (stored_prefix ip depth) as [[f p]|] eqn:Es; cbn [bind];
    [|discriminate].
  intros H. apply Ok_inj in H. subst self'.
  destruct (stored_prefix_starts ip p depth f Es) as (b & Hq & Hs & Hfam).
  exists b. split; [exact Hq|].
  unfold linear_scan. apply existsb_exists. exists p. split; [|exact Hs].
  rewrite Hfam. unfold put. cbn [fst snd].
  destruct f; cbn [IP_List.ipv4list IP_List.ipv6list]; apply insort_In; now left.
Qed.

Lemma append_covers_address_witness :
  exists b, IP_List.query_bits "172.16.9.1" = Ok b /\
            linear_scan
              (IP_List.family (IP_List.mk [list_ascii_of_string "101011000001"] []) b)
              b = true.
Proof.
  exact (append_covers_address (IP_List.mk [] []) _ "172.16.9.1" (Some 12)
           ltac:(vm_compute; reflexivity)).
Defined.

(** X21.  A file of lines [ip/depth], each ended by a newline, loads what
    the constructor builds from the same pairs: when [IP_List(entries)]
    succeeds, [read_fieldlist] on an empty store gives the same store and
    prints nothing. *)
Theorem read_fieldlist_as_constructor (es : list (str * str)) (self : IP_List.t) :
  Forall (fun e => forallb field_char (fst e) = true /\ has "/" (fst e) = false /\
                   snd e <> [] /\ forallb Py.isdigit (snd e) = true) es ->
  IP_List.__init__ (map (fun e => (fst e, Some (Py.dec_val (snd e)))) es) = Ok self ->
  IP_List.read_fieldlist (IP_List.mk [] [])
    (concat (map (fun e => (fst e ++ "/" ++ snd e) ++ newline) es))
  = (self, []).
Proof.
  intros Hes Hinit. unfold IP_List.__init__ in Hinit.
  destruct (foldM _ _ _) as [s1|] eqn:Ef; cbn [bind] in Hinit; [|discriminate].
  apply Ok_inj in Hinit. subst self.
  unfold IP_List.read_fieldlist.
  rewrite (readlines_entries es Hes).
  now rewrite (read_lines_entries es _ s1 [] Hes Ef).
Qed.

Lemma read_fieldlist_as_constructor_witness :
  IP_List.read_fieldlist (IP_List.mk [] [])
    (concat (map (fun e => (fst e ++ "/" ++ snd e) ++ newline)
                 [(list_ascii_of_string "192.168.0.0", list_ascii_of_string "16");
                  (list_ascii_of_string "10.0.0.0", list_ascii_of_string "8")]))
  = (IP_List.mk (map list_ascii_of_string ["00001010"; "1100000010101000"]) [],
     []).
Proof.
  apply (read_fieldlist_as_constructor
           [(list_ascii_of_string "192.168.0.0", list_ascii_of_string "16");
            (list_ascii_of_string "10.0.0.0", list_ascii_of_string "8")]).
  - repeat constructor; discriminate.
  - vm_compute. reflexivity.
Defined.

(** ** Keys of the nibble table, and depths beyond the width *)

Section Edges.

Lemma slice_to_all (s : str) (d : Z) :
  Z.of_nat (length s) <= d -> Py.slice_to s d = s.
Proof.
  intros H. rewrite slice_to_nonneg by lia. apply firstn_all2. lia.
Qed.

Lemma stored_prefix_full_depth (ip : str) (d : Z) :
  128 <= d \/ (is_ipv4 ip = true /\ 32 <= d) ->
  stored_prefix ip (Some d) = stored_prefix ip IP_List.default_depth.
Proof.
  intros Hd. unfold stored_prefix, IP_List.default_depth, is_ipv4 in *.
  destruct (Py.find ip ":" <? 0).
  - destruct (to_bitfield_ipv4 ip) as [b|] eqn:Eb; [|reflexivity].
    cbn [bind IP_List.upto].
    pose proof (to_bitfield_ipv4_length ip b Eb) as L.
    rewrite !slice_to_all by lia. reflexivity.
  - assert (H128 : 128 <= d) by (destruct Hd as [H | [H _]]; [exact H | discriminate]).
    destruct (to_bitfield_ipv6 ip) as [b|] eqn:Eb; [|reflexivity].
    cbn [bind]. pose proof (to_bitfield_ipv6_length ip b Eb) as L.
    destruct (Py.startswith b ipv4addrmask).
    + cbn [IP_List.minus96 bind].
      assert (L32 : length (Py.slice_from b 96) = 32%nat)
        by (rewrite slice_from_nonneg, length_skipn by lia; lia).
      rewrite !slice_to_all by lia. reflexivity.
    + cbn [IP_List.upto]. rewrite !slice_to_all by lia. reflexivity.
Qed.

End Edges.

(** X23.  The table [hexbinmap] has seventeen keys: each lower-case
    hexadecimal digit gives the four bits of its value, [x] gives [0000],
    and every other character, the upper-case digits included, is a
    missing key. *)
Theorem hexbinmap_keys (c : ascii) :
  getitem hexbinmap c
  = if ishex c then Ok (_int_to_bitstring (hex_val c) 4)
    else if Ascii.eqb c "x" then Ok (list_ascii_of_string "0000")
    else Raise KeyError.
Proof.
  destruct c as [[] [] [] [] [] [] [] []]; vm_compute; reflexivity.
Qed.

(** X24.  A depth at or beyond the width of the address stores the whole
    address, as the default depth does: 128 or more for any text, 32 or
    more for a text without a colon. *)
Theorem append_full_depth (self : IP_List.t) (ip : str) (d : Z) :
  128 <= d \/ (is_ipv4 ip = true /\ 32 <= d) ->
  IP_List.append self ip (Some d) = IP_List.append self ip IP_List.default_depth.
Proof.
  intros Hd. rewrite !append_stored.
  now rewrite (stored_prefix_full_depth ip d Hd).
Qed.

Lemma append_full_depth_witness :
  IP_List.append (IP_List.mk [] []) "192.0.2.7" (Some 32)
  = IP_List.append (IP_List.mk [] []) "192.0.2.7" IP_List.default_depth.
Proof.
  apply (append_full_depth (IP_List.mk [] []) "192.0.2.7" 32).
  right. split; [reflexivity | lia].
Defined.

(** ** [includes] and the naive check *)

Section NaiveCheck.

Lemma startswith_first_bits (b p : str) :
  Py.startswith b p = first_bits_equal p b.
Proof.
  unfold first_bits_equal.
  revert b; induction p as [|y p IH]; intros b.
  - reflexivity.
  - destruct b as [|x b]; [reflexivity|].
    cbn [Py.startswith length firstn Py.str_eqb].
    now rewrite IH, Ascii.eqb_sym.
Qed.

Lemma linear_scan_first_bits (l : list str) (b : str) :
  linear_scan l b = existsb (fun p => first_bits_equal p b) l.
Proof.
  unfold linear_scan. induction l as [|p l IH]; [reflexivity|].
  cbn [existsb]. now rewrite IH, startswith_first_bits.
Qed.

Lemma colon_has (x : str) : existsb (Ascii.eqb ":") x = has ":" x.
Proof.
  unfold has. induction x as [|c x IH]; [reflexivity|].
  cbn [existsb]. now rewrite IH, Ascii.eqb_sym.
Qed.

(** The classification of the naive check agrees with what [includes]
    encodes and with the sequence it searches. *)
Lemma classify_query (x b : str) (f : address_family) :
  classify x = Ok (f, b) ->
  IP_List.query_bits x = Ok b /\
  forall self, IP_List.family self b = configured self f.
Proof.
  unfold classify, IP_List.query_bits. rewrite colon_has.
  assert (F4 : forall s : str, length s = 32%nat ->
                 forall self, IP_List.family self s = IP_List.ipv4list self).
  { intros s Hs self. unfold IP_List.family, Py.len. now rewrite Hs. }
  assert (F6 : forall s : str, length s = 128%nat ->
                 forall self, IP_List.family self s = IP_List.ipv6list self).
  { intros s Hs self. unfold IP_List.family, Py.len. now rewrite Hs. }
  destruct (has ":" x) eqn:Ec.
  - replace (Py.find x ":" <? 0) with false
      by (symmetry; apply Z.ltb_ge; now apply find_present).
    destruct (to_bitfield_ipv6 x) as [b6|] eqn:E6; cbn [bind]; [|discriminate].
    pose proof (to_bitfield_ipv6_length x b6 E6) as L.
    rewrite startswith_first_bits.
    destruct (first_bits_equal ipv4addrmask b6); intros H;
      apply Ok_inj, pair_inj in H as [<- <-].
    + rewrite slice_from_nonneg by lia. change (Z.to_nat 96) with 96%nat.
      split; [reflexivity|]. apply F4. rewrite length_skipn. lia.
    + split; [reflexivity|]. now apply F6.
  - rewrite (find_absent ":" x Ec). change (-1 <? 0) with true.
    destruct (to_bitfield_ipv4 x) as [b4|] eqn:E4; cbn [bind]; [|discriminate].
    intros H. apply Ok_inj, pair_inj in H as [<- <-].
    split; [reflexivity|]. apply F4. eapply to_bitfield_ipv4_length; eassumption.
Qed.

(** The naive check in the terms of [includes] *)
Lemma naive_is_scan (self : IP_List.t) (x : str) :
  succeeds (classify x) = true ->
  exists b, IP_List.query_bits x = Ok b /\
            naive_contains self x = Ok (linear_scan (IP_List.family self b) b).
Proof.
  unfold naive_contains.
  destruct (classify x) as [[f b]|] eqn:E; [|discriminate]. intros _.
  destruct (classify_query x b f E) as [Hq Hfam].
  exists b. split; [exact Hq|]. cbn [bind fst snd].
  now rewrite Hfam, linear_scan_first_bits.
Qed.

End NaiveCheck.

(** C1.  On a store built by the constructor, [append] and [read_fieldlist]
    whose stored prefixes do not nest (no stored prefix of a family starts
    another one), [includes] gives for every valid address text the verdict
    of the naive check: it is true exactly when some configured prefix of
    the family of the address equals the first bits of the address, an
    IPv4-mapped IPv6 address counting as the IPv4 address of its last 32
    bits. *)
Theorem includes_disjoint_is_linear_scan (self : IP_List.t) (x : str) :
  built self ->
  prefix_free (IP_List.ipv4list self) ->
  prefix_free (IP_List.ipv6list self) ->
  succeeds (classify x) = true ->
  IP_List.includes self x = naive_contains self x.
Proof.
  intros Hb H4 H6 Hx.
  destruct (naive_is_scan self x Hx) as (b & Hq & ->).
  now apply includes_scan_family.
Qed.

Lemma includes_disjoint_is_linear_scan_witness :
  IP_List.includes
    (IP_List.mk (map list_ascii_of_string ["00001010"; "1100000010101000"])
                [list_ascii_of_string "1111111010000000"])
    "fe80::1"
  = naive_contains
      (IP_List.mk (map list_ascii_of_string ["00001010"; "1100000010101000"])
                  [list_ascii_of_string "1111111010000000"])
      "fe80::1"
  /\ naive_contains
       (IP_List.mk (map list_ascii_of_string ["00001010"; "1100000010101000"])
                   [list_ascii_of_string "1111111010000000"])
       "fe80::1"
     = Ok true.
Proof.
  split; [|vm_compute; reflexivity].
  apply (includes_disjoint_is_linear_scan
           (IP_List.mk (map list_ascii_of_string ["00001010"; "1100000010101000"])
                       [list_ascii_of_string "1111111010000000"])
           "fe80::1").
  - apply (built_init [(list_ascii_of_string "192.168.0.0", Some 16);
                       (list_ascii_of_string "fe80::", Some 16);
                       (list_ascii_of_string "10.0.0.0", Some 8)]).
    vm_compute. reflexivity.
  - apply prefix_freeb_sound. vm_compute. reflexivity.
  - apply prefix_freeb_sound. vm_compute. reflexivity.
  - vm_compute. reflexivity.
Defined.

(** X22.  [set_intranet_addresses] on an empty store stores five IPv4
    prefixes and three IPv6 prefixes, none of which starts another; so on
    that store [includes] is exact: for every valid address text it is the
    naive check, true for just the addresses whose first bits equal one of
    the prefixes of their family. *)
Theorem intranet_preset_exact (self : IP_List.t) (x : str) :
  IP_List.set_intranet_addresses (IP_List.mk [] []) = Ok self ->
  IP_List.ipv4list self
  = map list_ascii_of_string
      ["00001010"; "01111111"; "1010100111111110"; "101011000001";
       "1100000010101000"] /\
  IP_List.ipv6list self
  = [repeat "0"%char 127 ++ ["1"%char];
     list_ascii_of_string "1111111010000000";
     list_ascii_of_string "1111111011000000"] /\
  prefix_free (IP_List.ipv4list self) /\
  prefix_free (IP_List.ipv6list self) /\
  (succeeds (classify x) = true ->
   IP_List.includes self x = naive_contains self x).
Proof.
  intros Hset.
  assert (Hb : built self).
  { apply (built_init
             [ (list_ascii_of_string "127.0.0.1", Some 8);
               (list_ascii_of_string "10.0.0.0", Some 8);
               (list_ascii_of_string "172.16.0.0", Some 12);
               (list_ascii_of_string "192.168.0.0", Some 16);
               (list_ascii_of_string "169.254.0.0", Some 16);
               (list_ascii_of_string "::1", IP_List.default_depth);
               (list_ascii_of_string "fe80::", Some 16);
               (list_ascii_of_string "fec0::", Some 16) ]).
    rewrite <- Hset. vm_compute. reflexivity. }
  assert (H4 : prefix_free (IP_List.ipv4list self)).
  { vm_compute in Hset. apply Ok_inj in Hset. subst self.
    apply prefix_freeb_sound. vm_compute. reflexivity. }
  assert (H6 : prefix_free (IP_List.ipv6list self)).
  { vm_compute in Hset. apply Ok_inj in Hset. subst self.
    apply prefix_freeb_sound. vm_compute. reflexivity. }
  split; [|split; [|split; [exact H4 | split; [exact H6|]]]].
  - vm_compute in Hset. apply Ok_inj in Hset. now subst self.
  - vm_compute in Hset. apply Ok_inj in Hset. now subst self.
  - intros Hx. destruct (naive_is_scan self x Hx) as (b & Hq & ->).
    now apply includes_scan_family.
Qed.

Lemma intranet_preset_exact_witness :
  exists self,
    IP_List.set_intranet_addresses (IP_List.mk [] []) = Ok self /\
    IP_List.includes self "fe80::1" = naive_contains self "fe80::1" /\
    naive_contains self "fe80::1" = Ok true.
Proof.
  eexists. split; [vm_compute; reflexivity|].
  split; [|vm_compute; reflexivity].
  apply (proj2 (proj2 (proj2 (proj2
           (intranet_preset_exact _ "fe80::1" ltac:(vm_compute; reflexivity)))))).
  vm_compute. reflexivity.
Defined.
